(** * Gmail auto-triage (UAA account): the e-mail classifier

    A shallow embedding of
    [accounts/work-uaa/scripts/gmail-triage/Code.js]: the configuration
    object [CONFIG], the class [EmailClassifier] and the per-thread body
    of [processInbox], followed by the properties proved about them.

    Conventions of the embedding.
    - A JavaScript string is a [string]: a sequence of code units below
      256, read as the first 256 Unicode code points (Latin-1).  On
      these [toLowerCase] maps unit to unit; characters beyond U+00FF,
      some of which change the length of a string when lower-cased, are
      outside the embedding.
    - A JavaScript number is an exact rational ([Q]); the constants of
      the script (0.3, 0.4, 0.5, ...) are the corresponding fractions and
      the weights of a statistics bundle are finite numbers.  Equality of
      computed numbers is [==].  Sums and quotients are exact: the
      rounding of IEEE doubles, [Infinity] and [NaN] are outside the
      embedding.
    - [null] and [undefined] are [None].
    - A call that may throw returns a [Completion]. *)

From Stdlib Require Import Bool List String Ascii Arith NArith ZArith.
From Stdlib Require Import QArith Qminmax Lia Lqa.
Import ListNotations.

Local Open Scope string_scope.

(** ** JavaScript primitives used by the script *)

Module JS.

(** Outcome of evaluating an expression or a method body. *)
Inductive JsError : Type :=
| TypeError.

Inductive Completion (A : Type) : Type :=
| Return (a : A)
| Throw (e : JsError).

Arguments Return {A} a.
Arguments Throw {A} e.

Definition bind {A B : Type} (c : Completion A) (k : A -> Completion B)
  : Completion B :=
  match c with
  | Return a => k a
  | Throw e => Throw e
  end.

(** [ToBoolean] on a string: only the empty string is falsy. *)
Definition truthy (s : string) : bool := negb (s =? "").

(** [a || d] on a value that is a string or [undefined]. *)
Definition orElse (a : option string) (d : string) : string :=
  match a with
  | Some s => if truthy s then s else d
  | None => d
  end.

(** [String.prototype.toLowerCase] on one code unit below 256:
    A-Z and the accented capitals U+00C0..U+00DE (but not the
    multiplication sign U+00D7) move up by 32. *)
Definition toLowerCaseChar (c : ascii) : ascii :=
  let n := nat_of_ascii c in
  if (((65 <=? n) && (n <=? 90))
      || ((192 <=? n) && (n <=? 222) && negb (n =? 215)))%nat
  then ascii_of_nat (n + 32)
  else c.

Fixpoint toLowerCase (s : string) : string :=
  match s with
  | EmptyString => EmptyString
  | String c s' => String (toLowerCaseChar c) (toLowerCase s')
  end.

(** [s.endsWith(suffix)]. *)
Definition endsWith (s suffix : string) : bool :=
  let ls := String.length s in
  let lx := String.length suffix in
  (lx <=? ls)%nat && (substring (ls - lx) lx s =? suffix).

(** [s.includes(pattern)]: [pattern] occurs in [s] at some position. *)
Fixpoint includes (s pattern : string) : bool :=
  prefix pattern s
  || match s with
     | EmptyString => false
     | String _ s' => includes s' pattern
     end.

(** [array.includes(x)] on an array of strings. *)
Definition arrayIncludes (xs : list string) (x : string) : bool :=
  existsb (fun y => y =? x) xs.

(** [s.split(sep)] for a one-character separator. *)
Fixpoint split (sep : ascii) (s : string) : list string :=
  match s with
  | EmptyString => [EmptyString]
  | String c s' =>
      if Ascii.eqb c sep then EmptyString :: split sep s'
      else match split sep s' with
           | piece :: pieces => String c piece :: pieces
           | [] => [String c EmptyString]
           end
  end.

(** White space removed by [trim], among the code units below 256. *)
Definition isWhiteSpace (c : ascii) : bool :=
  let n := nat_of_ascii c in
  (((9 <=? n) && (n <=? 13)) || (n =? 32) || (n =? 160))%nat.

Fixpoint trimStart (s : string) : string :=
  match s with
  | EmptyString => EmptyString
  | String c s' => if isWhiteSpace c then trimStart s' else s
  end.

Fixpoint trimEnd (s : string) : string :=
  match s with
  | EmptyString => EmptyString
  | String c s' =>
      let r := trimEnd s' in
      if isWhiteSpace c && (r =? "") then EmptyString else String c r
  end.

Definition trim (s : string) : string := trimEnd (trimStart s).

(** Line terminators, which [.] of a regular expression does not
    match (U+2028 and U+2029 lie outside the modelled code units). *)
Definition isLineTerminator (c : ascii) : bool :=
  let n := nat_of_ascii c in ((n =? 10) || (n =? 13))%nat.

(** The regular expression [/<(.+?)>/].

    [lazyUntilClose s]: at least one character has been taken by
    [.+?]; the lazy quantifier first tries to end at [>] and
    otherwise takes one more character that is not a line terminator.
    The result is the rest of the capture group. *)
Fixpoint lazyUntilClose (s : string) : option string :=
  match s with
  | EmptyString => None
  | String c s' =>
      if Ascii.eqb c ">" then Some EmptyString
      else if isLineTerminator c then None
      else option_map (String c) (lazyUntilClose s')
  end.

(** A match that starts at the first character of [s]. *)
Definition matchAngleAt (s : string) : option string :=
  match s with
  | String o (String c s') =>
      if Ascii.eqb o "<" && negb (isLineTerminator c)
      then option_map (String c) (lazyUntilClose s')
      else None
  | _ => None
  end.

(** [s.match(/<(.+?)>/)]: group 1 of the leftmost match, or [None]
    when the method returns [null]. *)
Fixpoint matchAngle (s : string) : option string :=
  match matchAngleAt s with
  | Some g => Some g
  | None =>
      match s with
      | EmptyString => None
      | String _ s' => matchAngle s'
      end
  end.

End JS.

Import JS.


(** ** Plain objects used as maps

    [scoreMap] of [_classifyWithIntelligence] is an object literal
    [{}]: reading a key that is not an own property falls back to
    [Object.prototype], and [Object.entries] lists array-index keys
    first.  Both are part of what the scorer computes. *)

Module JsObject.

(** A stored value: a number, or a string that is not numeric (what
    [+] yields once one operand is a function or an object). *)
Inductive Value : Type :=
| Num (q : Q)
| Text.

(** Own properties in creation order. *)
Definition Obj : Type := list (string * Value).

(** Property names every object inherits from [Object.prototype]. *)
Definition ObjectPrototypeKeys : list string :=
  [ "constructor"; "__defineGetter__"; "__defineSetter__";
    "hasOwnProperty"; "__lookupGetter__"; "__lookupSetter__";
    "isPrototypeOf"; "propertyIsEnumerable"; "toString"; "valueOf";
    "__proto__"; "toLocaleString" ].

Fixpoint getOwn (o : Obj) (k : string) : option Value :=
  match o with
  | [] => None
  | (k', v) :: o' => if k' =? k then Some v else getOwn o' k
  end.

Fixpoint setOwn (o : Obj) (k : string) (v : Value) : Obj :=
  match o with
  | [] => [(k, v)]
  | (k', v') :: o' =>
      if k' =? k then (k', v) :: o' else (k', v') :: setOwn o' k v
  end.

(** [(o[k] || 0) + x] for a number [x].  An own number that is zero
    is replaced by 0; an own string stays a string; a key found only
    on [Object.prototype] is a function (an object for [__proto__]),
    which is truthy and turns the sum into a string. *)
Definition orZeroPlus (o : Obj) (k : string) (x : Q) : Value :=
  match getOwn o k with
  | Some (Num q) => Num ((if Qeq_bool q 0 then 0 else q) + x)
  | Some Text => Text
  | None => if arrayIncludes ObjectPrototypeKeys k then Text
            else Num (0 + x)
  end.

(** [o[k] = v] for a number or string [v]: the setter of
    [__proto__] ignores such a value, any other key becomes (or
    stays) an own property. *)
Definition assign (o : Obj) (k : string) (v : Value) : Obj :=
  if k =? "__proto__" then o else setOwn o k v.

Definition isDigit (c : ascii) : bool :=
  let n := nat_of_ascii c in ((48 <=? n) && (n <=? 57))%nat.

Fixpoint decimal (s : string) (acc : N) : option N :=
  match s with
  | EmptyString => Some acc
  | String c s' =>
      if isDigit c
      then decimal s' (10 * acc + N.of_nat (nat_of_ascii c - 48))%N
      else None
  end.

(** An array index: a canonical decimal numeral below 2^32 - 1. *)
Definition arrayIndex (k : string) : option N :=
  match k with
  | EmptyString => None
  | String c s' =>
      if Ascii.eqb c "0"
      then (if s' =? "" then Some 0%N else None)
      else match decimal k 0%N with
           | Some n => if (n <? 4294967295)%N then Some n else None
           | None => None
           end
  end.

Fixpoint insertIndexed (e : N * (string * Value))
                       (l : list (N * (string * Value)))
  : list (N * (string * Value)) :=
  match l with
  | [] => [e]
  | e' :: l' =>
      if (fst e <=? fst e')%N then e :: l else e' :: insertIndexed e l'
  end.

Fixpoint indexedEntries (o : Obj) : list (N * (string * Value)) :=
  match o with
  | [] => []
  | (k, v) :: o' =>
      match arrayIndex k with
      | Some n => insertIndexed (n, (k, v)) (indexedEntries o')
      | None => indexedEntries o'
      end
  end.

Definition namedEntries (o : Obj) : list (string * Value) :=
  filter (fun e => match arrayIndex (fst e) with
                   | Some _ => false
                   | None => true
                   end) o.

(** [Object.entries(o)]: array-index keys in ascending order, then
    the other keys in creation order. *)
Definition entries (o : Obj) : list (string * Value) :=
  map snd (indexedEntries o) ++ namedEntries o.

End JsObject.

Import JsObject.

(** Comparisons of numbers. *)
Definition gtb (a b : Q) : bool := negb (Qle_bool a b).
Definition geb (a b : Q) : bool := Qle_bool b a.

(** ** Configuration *)

(** The script properties read by [CONFIG]; an unset property is
    [None]. *)
Record Props : Type := {
  TRIAGE_VIP_SENDERS : option string;
  TRIAGE_VIP_DOMAINS : option string;
  TRIAGE_KEEP_SENDERS : option string;
  TRIAGE_KEEP_DOMAINS : option string;
  TRIAGE_DRY_RUN : option string;
  TRIAGE_PREVIEW_MODE : option string
}.

Record Config : Type := {
  VIP_SENDERS : list string;
  VIP_DOMAINS : list string;
  KEEP_SENDERS : list string;
  KEEP_DOMAINS : list string;
  DRY_RUN : bool;
  PREVIEW_MODE : bool;
  HIGH_CONFIDENCE : Q;
  MEDIUM_CONFIDENCE : Q
}.

(** [(value || fallback).split(',').filter(s => s.trim())]: the pieces
    are kept as written, only blank ones are dropped. *)
Definition listProperty (value : option string) (fallback : string)
  : list string :=
  filter (fun s => truthy (trim s)) (split "," (orElse value fallback)).

(** [value === 'true']. *)
Definition isTrue (value : option string) : bool :=
  match value with
  | Some s => s =? "true"
  | None => false
  end.

(** The fields of [CONFIG] the classifier and the loop body read.  The
    thresholds are constants of the script.  (In the source the entry
    [PREVIEW_MODE] is not followed by a comma; the object literal is
    read with that comma in place.) *)
Definition CONFIG (props : Props) : Config := {|
  VIP_SENDERS :=
    listProperty (TRIAGE_VIP_SENDERS props) "provost@alaska.edu,dean@alaska.edu";
  VIP_DOMAINS := listProperty (TRIAGE_VIP_DOMAINS props) "alaska.edu,ua.edu";
  KEEP_SENDERS := listProperty (TRIAGE_KEEP_SENDERS props) "";
  KEEP_DOMAINS := listProperty (TRIAGE_KEEP_DOMAINS props) "alaska.edu";
  DRY_RUN := isTrue (TRIAGE_DRY_RUN props);
  PREVIEW_MODE := isTrue (TRIAGE_PREVIEW_MODE props);
  HIGH_CONFIDENCE := 0.8;
  MEDIUM_CONFIDENCE := 0.5
|}.

(** No script property set: every default applies. *)
Definition noProps : Props := {|
  TRIAGE_VIP_SENDERS := None;
  TRIAGE_VIP_DOMAINS := None;
  TRIAGE_KEEP_SENDERS := None;
  TRIAGE_KEEP_DOMAINS := None;
  TRIAGE_DRY_RUN := None;
  TRIAGE_PREVIEW_MODE := None
|}.

(** ** Data model *)

(** What the classifier reads of a [GmailThread]:
    [getMessages()[0].getFrom()], [getFirstMessageSubject()],
    [getMessages()[0].getPlainBody()] and [isStarred()]. *)
Record Thread : Type := {
  getFrom : string;
  getFirstMessageSubject : string;
  getPlainBody : string;
  isStarred : bool
}.

(** One entry of [senderProfiles], as [_processSenderSheet] builds it. *)
Record SenderProfile : Type := {
  senderCount : Q;
  avgLabels : Q;
  importance : string
}.

(** One entry of [keywordProfiles], as [_processKeywordSheet] builds
    it. *)
Record KeywordProfile : Type := {
  keywordCount : Q;
  commonLabel : string;
  weight : Q
}.

(** The statistics bundle handed to the classifier.  A map is given by
    its entries in the order [Object.entries] lists them; a field that
    the bundle lacks is [None]. *)
Record Intelligence : Type := {
  senderProfiles : option (list (string * SenderProfile));
  keywordProfiles : option (list (string * KeywordProfile))
}.

(** The classification result. *)
Record Decision : Type := {
  action : string;
  label : option string;
  confidence : Q;
  reason : string
}.

(** [profiles[key]] on a map given by its entries. *)
Fixpoint lookup {A : Type} (m : list (string * A)) (key : string)
  : option A :=
  match m with
  | [] => None
  | (k, a) :: m' => if k =? key then Some a else lookup m' key
  end.

(** ** EmailClassifier *)

Section EmailClassifier.

(** The global [CONFIG] and the field [this.intelligence]. *)
Variable config : Config.
Variable intelligence : option Intelligence.

Definition _extractSenderEmail (fromString : string) : string :=
  match matchAngle fromString with
  | Some group1 => toLowerCase group1
  | None => toLowerCase fromString
  end.

Definition _isVIP (sender : string) : bool :=
  if arrayIncludes (VIP_SENDERS config) sender then true
  else existsb (fun domain => endsWith sender ("@" ++ domain))
               (VIP_DOMAINS config).

Definition _isProtected (sender : string) : bool :=
  if arrayIncludes (KEEP_SENDERS config) sender then true
  else existsb (fun domain => endsWith sender ("@" ++ domain))
               (KEEP_DOMAINS config).

(** The pair [(scoreMap, totalWeight)] threaded through the scorer. *)
Definition ScoreState : Type := (Obj * Q)%type.

(** [scoreMap[l] = (scoreMap[l] || 0) + x; totalWeight += x]. *)
Definition addScore (st : ScoreState) (l : string) (x : Q) : ScoreState :=
  (assign (fst st) l (orZeroPlus (fst st) l x), snd st + x).

(** "Check sender profile". *)
Definition scoreSender (profiles : list (string * SenderProfile))
                       (sender : string) (st : ScoreState) : ScoreState :=
  match lookup profiles sender with
  | Some profile =>
      if importance profile =? "high"
      then addScore st "Important" 0.4
      else st
  | None => st
  end.

(** One iteration of "Check keywords". *)
Definition scoreKeyword (text : string) (st : ScoreState)
                        (entry : string * KeywordProfile) : ScoreState :=
  let (keyword, profile) := entry in
  if includes text keyword then
    if truthy (commonLabel profile)
    then addScore st (commonLabel profile) (weight profile * 0.3)
    else st
  else st.

(** One iteration of "Find best matching label". *)
Definition betterOf (best : option string * Q) (entry : string * Value)
  : option string * Q :=
  match snd entry with
  | Num score => if gtb score (snd best) then (Some (fst entry), score)
                 else best
  | Text => best
  end.

Definition findBest (scoreMap : Obj) : option string * Q :=
  fold_left betterOf (entries scoreMap) (None, 0).

(** The state after both scoring loops. *)
Definition scoreAll (profiles : list (string * SenderProfile))
                    (keywords : list (string * KeywordProfile))
                    (sender subject snippet : string) : ScoreState :=
  let text := toLowerCase (subject ++ " " ++ snippet) in
  fold_left (scoreKeyword text) keywords
            (scoreSender profiles sender ([], 0)).

Definition noPatternMatch : Decision :=
  {| action := "keep"; label := None; confidence := 0;
     reason := "No pattern match" |}.

(** The last step of the scorer, on the final state. *)
Definition decide (st : ScoreState) : Decision :=
  let (bestLabel, bestScore) := findBest (fst st) in
  let totalWeight := snd st in
  match bestLabel with
  | Some l =>
      if truthy l && gtb totalWeight 0
      then {| action := "label"; label := Some l;
              confidence := Qmin (bestScore / totalWeight) 1;
              reason := "Historical pattern match" |}
      else noPatternMatch
  | None => noPatternMatch
  end.

(** Reading [this.intelligence.senderProfiles[sender]] throws when
    the bundle has no [senderProfiles]; a missing [keywordProfiles]
    is replaced by [{}]. *)
Definition _classifyWithIntelligence (intel : Intelligence)
           (sender subject snippet : string) : Completion Decision :=
  match senderProfiles intel with
  | None => Throw TypeError
  | Some profiles =>
      let keywords := match keywordProfiles intel with
                      | Some k => k
                      | None => []
                      end in
      Return (decide (scoreAll profiles keywords sender subject snippet))
  end.

Definition _ruleBasedClassification (sender subject snippet : string)
  : Decision :=
  let text := toLowerCase (subject ++ " " ++ snippet) in
  (* Newsletter/Marketing detection, then the default: reached when
     the sender is not a university address or none of the
     university rules returned. *)
  let afterUniversityRules :=
    if includes text "unsubscribe" || includes text "newsletter"
    then {| action := "label"; label := Some "Newsletters";
            confidence := 0.9; reason := "Newsletter detected" |}
    else {| action := "keep"; label := None; confidence := 0.3;
            reason := "No specific rule matched" |} in
  (* University/Academic rules *)
  if endsWith sender "@alaska.edu" || endsWith sender "@ua.edu" then
    if includes text "meeting" || includes text "schedule"
    then {| action := "label"; label := Some "Meetings";
            confidence := 0.8; reason := "Meeting related" |}
    else if includes text "student" || includes text "grade"
    then {| action := "label"; label := Some "Students";
            confidence := 0.8; reason := "Student related" |}
    else if includes text "department" || includes text "faculty"
    then {| action := "label"; label := Some "Department";
            confidence := 0.7; reason := "Department business" |}
    else afterUniversityRules
  else afterUniversityRules.

Definition vipDecision : Decision :=
  {| action := "star"; label := Some "VIP"; confidence := 1;
     reason := "VIP sender" |}.

Definition protectedDecision : Decision :=
  {| action := "keep"; label := None; confidence := 1;
     reason := "Protected sender" |}.

Definition classifyThread (thread : Thread) : Completion Decision :=
  let sender := _extractSenderEmail (getFrom thread) in
  let subject := getFirstMessageSubject thread in
  let snippet := substring 0 500 (getPlainBody thread) in
  if _isVIP sender then Return vipDecision
  else if _isProtected sender then Return protectedDecision
  else
    match intelligence with
    | Some intel =>
        bind (_classifyWithIntelligence intel sender subject snippet)
             (fun classification =>
                if geb (confidence classification) (MEDIUM_CONFIDENCE config)
                then Return classification
                else Return (_ruleBasedClassification sender subject snippet))
    | None => Return (_ruleBasedClassification sender subject snippet)
    end.

End EmailClassifier.

(** ** The per-thread body of [processInbox]

    The calls made on the mailbox for one thread, in order; logging,
    the counters and the pause are left out.  An exception of
    [classifyThread] is caught by the loop body, which then makes no
    call for that thread. *)

Inductive GmailCall : Type :=
| addLabel (name : string)
| markImportant
| starMessage
| moveToArchive.

Section ProcessInbox.

Variable config : Config.
Variable intelligence : option Intelligence.

(** [if (result.label)]. *)
Definition hasLabel (result : Decision) : option string :=
  match label result with
  | Some l => if truthy l then Some l else None
  | None => None
  end.

(** PREVIEW MODE - add preview labels only. *)
Definition previewCalls (result : Decision) : list GmailCall :=
  addLabel ("_Triage/PREVIEW-" ++ action result)
  :: match hasLabel result with
     | Some l => [addLabel ("_Triage/PREVIEW-" ++ l)]
     | None => []
     end.

(** PRODUCTION MODE - the [switch (result.action)]. *)
Definition productionCalls (thread : Thread) (result : Decision)
  : list GmailCall :=
  let sender := _extractSenderEmail (getFrom thread) in
  if action result =? "star" then
    [addLabel "VIP"; markImportant]
    ++ (if isStarred thread then [] else [starMessage])
  else if action result =? "label" then
    match hasLabel result with
    | Some l =>
        addLabel l
        :: (if geb (confidence result) (HIGH_CONFIDENCE config)
               && negb (endsWith sender ".edu")
            then [moveToArchive] else [])
    | None => []
    end
  else if action result =? "archive" then
    if negb (endsWith sender ".edu") then [moveToArchive] else []
  else [].

Definition applyDecision (thread : Thread) (result : Decision)
  : list GmailCall :=
  (if DRY_RUN config then []
   else if PREVIEW_MODE config then previewCalls result
   else productionCalls thread result)
  ++ [addLabel "_Triage/Processed"].

Definition processThread (thread : Thread) : list GmailCall :=
  match classifyThread config intelligence thread with
  | Return result => applyDecision thread result
  | Throw _ => []
  end.

End ProcessInbox.

(** ** Vocabulary of the statements *)

(** The condition both matchers test, in words: the sender is one of
    the listed addresses, or it ends with ["@"] followed by one of the
    listed domains. *)
Definition listed (senders domains : list string) (sender : string) : Prop :=
  In sender senders
  \/ exists domain front,
       In domain domains /\ sender = front ++ "@" ++ domain.

(** ** Sample data for the concrete runs *)

Definition thread_of (from subject body : string) : Thread :=
  {| getFrom := from; getFirstMessageSubject := subject;
     getPlainBody := body; isStarred := false |}.

Definition keyword_of (l : string) (w : Q) : KeywordProfile :=
  {| keywordCount := 100 * w; commonLabel := l; weight := w |}.

(** A deployment whose VIP and protected lists leave the university
    domains out. *)
Definition corpProps : Props := {|
  TRIAGE_VIP_SENDERS := Some "boss@corp.example";
  TRIAGE_VIP_DOMAINS := Some "corp.example";
  TRIAGE_KEEP_SENDERS := Some "mum@family.example";
  TRIAGE_KEEP_DOMAINS := Some "family.example";
  TRIAGE_DRY_RUN := None;
  TRIAGE_PREVIEW_MODE := None
|}.

(** Two keywords of equal weight that vote for different labels: the
    scorer's confidence is exactly one half. *)
Definition evenBundle : Intelligence := {|
  senderProfiles := Some [];
  keywordProfiles := Some [("invoice", keyword_of "Finance" 1);
                           ("report", keyword_of "Work" 1)]
|}.

(** Three labels with shares 0.49, 0.26 and 0.25. *)
Definition splitBundle : Intelligence := {|
  senderProfiles := Some [];
  keywordProfiles := Some [("invoice", keyword_of "Finance" 0.49);
                           ("report", keyword_of "Work" 0.26);
                           ("lunch", keyword_of "Social" 0.25)]
|}.

(** A bundle whose maps are empty. *)
Definition emptyBundle : Intelligence :=
  {| senderProfiles := Some []; keywordProfiles := Some [] |}.

(** The keywords the rule-based fallback looks for. *)
Definition ruleKeywords : list string :=
  ["meeting"; "schedule"; "student"; "grade"; "department"; "faculty";
   "unsubscribe"; "newsletter"].

(** The text both classifiers search:
    [(subject + ' ' + snippet).toLowerCase()]. *)
Definition searchText (subject snippet : string) : string :=
  toLowerCase (subject ++ " " ++ snippet).

(** No keyword of the fallback occurs in the text. *)
Definition noRuleKeyword (subject snippet : string) : Prop :=
  forall k, In k ruleKeywords -> includes (searchText subject snippet) k = false.

(** A bundle without [senderProfiles], and one without
    [keywordProfiles]. *)
Definition noSenderProfiles : Intelligence :=
  {| senderProfiles := None; keywordProfiles := Some [] |}.

Definition noKeywordProfiles : Intelligence :=
  {| senderProfiles := Some []; keywordProfiles := None |}.

(** The VIP domain written with a capital in the script property. *)
Definition capitalProps : Props := {|
  TRIAGE_VIP_SENDERS := Some "Provost@Alaska.edu";
  TRIAGE_VIP_DOMAINS := Some "UA.edu";
  TRIAGE_KEEP_SENDERS := None;
  TRIAGE_KEEP_DOMAINS := Some "family.example";
  TRIAGE_DRY_RUN := None;
  TRIAGE_PREVIEW_MODE := None
|}.

(** The same lists in lower case. *)
Definition lowerProps : Props := {|
  TRIAGE_VIP_SENDERS := Some "provost@alaska.edu";
  TRIAGE_VIP_DOMAINS := Some "ua.edu";
  TRIAGE_KEEP_SENDERS := None;
  TRIAGE_KEEP_DOMAINS := Some "family.example";
  TRIAGE_DRY_RUN := None;
  TRIAGE_PREVIEW_MODE := None
|}.

(** The score contributions of one classification, in the order the
    scorer adds them: 0.4 for "Important" when the sender's profile has
    importance "high", then [weight * 0.3] for the label of every
    keyword that occurs in the text and has a label. *)
Definition senderContribution (profiles : list (string * SenderProfile))
                              (sender : string) : list (string * Q) :=
  match lookup profiles sender with
  | Some profile =>
      if importance profile =? "high" then [("Important", 0.4)] else []
  | None => []
  end.

Definition keywordContribution (text : string)
                               (entry : string * KeywordProfile)
  : list (string * Q) :=
  if includes text (fst entry) && truthy (commonLabel (snd entry))
  then [(commonLabel (snd entry), weight (snd entry) * 0.3)]
  else [].

Definition contributions (profiles : list (string * SenderProfile))
                         (keywords : list (string * KeywordProfile))
                         (sender subject snippet : string)
  : list (string * Q) :=
  senderContribution profiles sender
  ++ flat_map (keywordContribution (searchText subject snippet)) keywords.

(** Adding one contribution to the scorer's state. *)
Definition addContribution (st : ScoreState) (c : string * Q) : ScoreState :=
  addScore st (fst c) (snd c).

(** The state of the scorer when every contribution so far went to
    the label [l]: [scoreMap] is [{l: v}] and [v] is the total weight. *)
Definition oneLabel (l : string) (st : ScoreState) : Prop :=
  exists v, fst st = [(l, Num v)] /\ v == snd st.

(** A keyword of weight 0 (its Count cell is 0 or blank, so
    [Math.min(count / 100, 1)] is 0), and a keyword whose label is the
    name of a method of every object. *)
Definition zeroBundle : Intelligence := {|
  senderProfiles := Some [];
  keywordProfiles := Some [("invoice", keyword_of "Finance" 0)]
|}.

Definition constructorBundle : Intelligence := {|
  senderProfiles := Some [];
  keywordProfiles := Some [("invoice", keyword_of "constructor" 1)]
|}.

(** Two rare keywords that agree on the label. *)
Definition faintBundle : Intelligence := {|
  senderProfiles := Some [];
  keywordProfiles := Some [("invoice", keyword_of "Finance" 0.01);
                           ("receipt", keyword_of "Finance" 0.02);
                           ("lunch", keyword_of "Social" 1)]
|}.

(** ** More of the script: the whole loop and the test helpers *)

(** Every character of [s] satisfies [p]. *)
Fixpoint allChars (p : ascii -> bool) (s : string) : bool :=
  match s with
  | EmptyString => true
  | String c s' => p c && allChars p s'
  end.

(** The character is not [x]. *)
Definition isNot (x : ascii) (c : ascii) : bool := negb (Ascii.eqb c x).

(** [best] is the outcome of "Find best matching label" on the entries
    [seen]: no label and score 0 when no entry has a positive number;
    otherwise the first entry whose number is the largest. *)
Definition bestAmong (seen : list (string * Value))
                     (best : option string * Q) : Prop :=
  match fst best with
  | None =>
      snd best = 0
      /\ forall k v, In (k, Num v) seen -> v <= 0
  | Some l =>
      exists before after,
        seen = (before ++ (l, Num (snd best)) :: after)%list
        /\ 0 < snd best
        /\ (forall k v, In (k, Num v) before -> v < snd best)
        /\ (forall k v, In (k, Num v) after -> v <= snd best)
  end.

(** The total weight is not negative and bounds every score of
    [scoreMap]. *)
Definition withinTotal (st : ScoreState) : Prop :=
  0 <= snd st /\ forall k v, In (k, Num v) (fst st) -> v <= snd st.

(** The entries of a map whose key is written in lower case. *)
Definition lowerCaseKeys {A : Type} (m : list (string * A))
  : list (string * A) :=
  filter (fun e => toLowerCase (fst e) =? fst e) m.

Definition lowerCaseBundle (intel : Intelligence) : Intelligence :=
  {| senderProfiles := option_map lowerCaseKeys (senderProfiles intel);
     keywordProfiles := option_map lowerCaseKeys (keywordProfiles intel) |}.

(** A bundle with keys in capitals next to keys in lower case. *)
Definition mixedBundle : Intelligence := {|
  senderProfiles :=
    Some [("Boss@Mail.Example",
           {| senderCount := 42; avgLabels := 1; importance := "high" |})];
  keywordProfiles := Some [("Invoice", keyword_of "Finance" 1);
                           ("report", keyword_of "Work" 1)]
|}.

(** ** [processInbox]: the loop with its counters

    [GmailApp.search] hands the loop its threads.  The events of a run
    are the mailbox calls per thread, the pauses and the summary
    e-mail; logging is left out, and the calls on the mailbox are
    taken to succeed. *)

Record Counters : Type := {
  processed : nat;
  starred : nat;
  labeled : nat;
  archived : nat
}.

Inductive InboxEvent : Type :=
| onThread (thread : Thread) (call : GmailCall)
| sleep
| sendSummaryEmail (counters : Counters).

Definition addProcessed (c : Counters) : Counters :=
  {| processed := S (processed c); starred := starred c;
     labeled := labeled c; archived := archived c |}.

Definition addStarred (c : Counters) : Counters :=
  {| processed := processed c; starred := S (starred c);
     labeled := labeled c; archived := archived c |}.

Definition addLabeled (c : Counters) : Counters :=
  {| processed := processed c; starred := starred c;
     labeled := S (labeled c); archived := archived c |}.

Definition addArchived (c : Counters) : Counters :=
  {| processed := processed c; starred := starred c;
     labeled := labeled c; archived := S (archived c) |}.

Section ProcessInboxLoop.

Variable config : Config.
Variable intelligence : option Intelligence.

(** The counters after the [switch] of production mode. *)
Definition countProduction (thread : Thread) (result : Decision)
                           (c : Counters) : Counters :=
  let sender := _extractSenderEmail (getFrom thread) in
  if action result =? "star" then addStarred c
  else if action result =? "label" then
    match hasLabel result with
    | Some _ =>
        if geb (confidence result) (HIGH_CONFIDENCE config)
           && negb (endsWith sender ".edu")
        then addArchived (addLabeled c) else addLabeled c
    | None => c
    end
  else if action result =? "archive" then
    if negb (endsWith sender ".edu") then addArchived c else c
  else c.

(** The counters after one classified thread: both the dry-run and
    the preview branch count the thread, and so does the end of the
    loop body, in every mode. *)
Definition countDecision (thread : Thread) (result : Decision)
                         (c : Counters) : Counters :=
  addProcessed
    (if DRY_RUN config then addProcessed c
     else if PREVIEW_MODE config then addProcessed c
     else countProduction thread result c).

(** One iteration of [for (const thread of threads)]: the body is a
    [try] whose [catch] only logs. *)
Definition loopBody (state : list InboxEvent * Counters) (thread : Thread)
  : list InboxEvent * Counters :=
  match classifyThread config intelligence thread with
  | Return result =>
      let c := countDecision thread result (snd state) in
      ((fst state
        ++ map (onThread thread) (applyDecision config thread result)
        ++ (if (processed c mod 10 =? 0)%nat then [sleep] else []))%list,
       c)
  | Throw _ => state
  end.

Definition noCounts : Counters :=
  {| processed := 0; starred := 0; labeled := 0; archived := 0 |}.

(** [processInbox] from the search result on: nothing happens on an
    empty result; otherwise the loop runs and a summary is sent when
    more than 20 were counted. *)
Definition processInbox (threads : list Thread)
  : list InboxEvent * Counters :=
  match threads with
  | [] => ([], noCounts)
  | _ =>
      let (events, c) := fold_left loopBody threads ([], noCounts) in
      ((events ++ (if (20 <? processed c)%nat
                   then [sendSummaryEmail c] else []))%list, c)
  end.

End ProcessInboxLoop.

(** The threads of a search result that [classifyThread] classifies. *)
Definition classified (config : Config) (intelligence : option Intelligence)
                      (threads : list Thread) : list Thread :=
  filter (fun thread =>
            match classifyThread config intelligence thread with
            | Return _ => true
            | Throw _ => false
            end) threads.

(** The mailbox calls among the events of a run. *)
Definition callsOf (events : list InboxEvent) : list (Thread * GmailCall) :=
  flat_map (fun e => match e with
                     | onThread thread call => [(thread, call)]
                     | _ => []
                     end) events.

(** ** Test.js: removing the labels of a preview or a test

    [GmailApp.getUserLabels()] is the list of label names; the result
    is the names that are left and the number of deleted labels. *)

Definition clearLabels (doomed : string -> bool) (labels : list string)
  : list string * nat :=
  (filter (fun name => negb (doomed name)) labels,
   List.length (filter doomed labels)).

Definition clearPreviewLabels (labels : list string) : list string * nat :=
  clearLabels (fun name => prefix "_Triage/PREVIEW" name) labels.

Definition clearTestLabels (labels : list string) : list string * nat :=
  clearLabels (fun name => includes name "TEST") labels.

(** The label names a list of mailbox calls creates and adds. *)
Definition labelNames (calls : list GmailCall) : list string :=
  flat_map (fun call => match call with
                        | addLabel name => [name]
                        | _ => []
                        end) calls.

(** [n] copies of a newsletter. *)
Definition newsletters (n : nat) : list Thread :=
  repeat (thread_of "News <news@shop.example>" "Weekly newsletter" "") n.

Definition dryRunProps : Props := {|
  TRIAGE_VIP_SENDERS := None;
  TRIAGE_VIP_DOMAINS := None;
  TRIAGE_KEEP_SENDERS := None;
  TRIAGE_KEEP_DOMAINS := None;
  TRIAGE_DRY_RUN := Some "true";
  TRIAGE_PREVIEW_MODE := None
|}.

(** ** HistoricalIntelligence: building the bundle from the sheets

    [sheet.getDataRange().getValues()] is a header row and the data
    rows below it.  The embedding covers sheets whose cells are text
    or numbers (a blank cell is the empty text).  Where the script
    would turn a non-empty text into a number, a number into a property
    name or a text, or compute with [undefined], the outcome is
    [Unmodelled]: the embedding says nothing there. *)

Inductive Cell : Type :=
| textCell (s : string)
| numberCell (q : Q).

Definition Row : Type := list Cell.

Record Sheet : Type := {
  headerRow : Row;
  dataRows : list Row
}.

Inductive Outcome (A : Type) : Type :=
| Done (a : A)
| Raised (e : JsError)
| Unmodelled.

Arguments Done {A} a.
Arguments Raised {A} e.
Arguments Unmodelled {A}.

Definition andThen {A B : Type} (o : Outcome A) (k : A -> Outcome B)
  : Outcome B :=
  match o with
  | Done a => k a
  | Raised e => Raised e
  | Unmodelled => Unmodelled
  end.

(** [headers.indexOf(name)]; [None] is -1. *)
Fixpoint indexOf (name : string) (headers : Row) : option nat :=
  match headers with
  | [] => None
  | cell :: rest =>
      if match cell with
         | textCell s => s =? name
         | numberCell _ => false
         end
      then Some 0%nat
      else option_map S (indexOf name rest)
  end.

(** [row[index]]; [None] is [undefined]. *)
Definition cellAt (row : Row) (index : option nat) : option Cell :=
  match index with
  | Some n => nth_error row n
  | None => None
  end.

(** [ToBoolean] of [row[index]]. *)
Definition truthyCell (cell : option Cell) : bool :=
  match cell with
  | Some (textCell s) => truthy s
  | Some (numberCell q) => negb (Qeq_bool q 0)
  | None => false
  end.

(** [row[index] || 0], as a number. *)
Definition cellOrZero (cell : option Cell) : Outcome Q :=
  match cell with
  | Some (numberCell q) => Done (if Qeq_bool q 0 then 0 else q)
  | Some (textCell s) => if truthy s then Unmodelled else Done 0
  | None => Done 0
  end.

(** [row[index] || ''], as a text. *)
Definition cellOrEmpty (cell : option Cell) : Outcome string :=
  match cell with
  | Some (textCell s) => Done s
  | Some (numberCell q) => if Qeq_bool q 0 then Done "" else Unmodelled
  | None => Done ""
  end.

(** [row[index] > 10 ? 'high' : 'normal']: [undefined] and the blank
    cell are not greater than 10. *)
Definition importanceOf (cell : option Cell) : Outcome string :=
  match cell with
  | Some (numberCell q) => Done (if gtb q 10 then "high" else "normal")
  | Some (textCell s) => if truthy s then Unmodelled else Done "normal"
  | None => Done "normal"
  end.

(** [Math.min(row[index] / 100, 1)]; with [undefined] it is [NaN]. *)
Definition weightOf (cell : option Cell) : Outcome Q :=
  match cell with
  | Some (numberCell q) => Done (Qmin (q / 100) 1)
  | Some (textCell s) => if truthy s then Unmodelled
                         else Done (Qmin (0 / 100) 1)
  | None => Unmodelled
  end.

(** [profiles[key] = profile] for an object [profile]: the key
    [__proto__] replaces the prototype and adds no own property; a key
    that exists keeps its place. *)
Fixpoint putOwn {A : Type} (o : list (string * A)) (k : string) (a : A)
  : list (string * A) :=
  match o with
  | [] => [(k, a)]
  | (k', a') :: o' =>
      if k' =? k then (k', a) :: o' else (k', a') :: putOwn o' k a
  end.

Definition putProfile {A : Type} (o : list (string * A)) (k : string) (a : A)
  : list (string * A) :=
  if k =? "__proto__" then o else putOwn o k a.

Fixpoint insertByIndex {A : Type} (e : N * (string * A))
                       (l : list (N * (string * A)))
  : list (N * (string * A)) :=
  match l with
  | [] => [e]
  | e' :: l' =>
      if (fst e <=? fst e')%N then e :: l else e' :: insertByIndex e l'
  end.

Fixpoint indexedProfiles {A : Type} (o : list (string * A))
  : list (N * (string * A)) :=
  match o with
  | [] => []
  | (k, a) :: o' =>
      match arrayIndex k with
      | Some n => insertByIndex (n, (k, a)) (indexedProfiles o')
      | None => indexedProfiles o'
      end
  end.

(** [Object.entries] of a map of profiles. *)
Definition profileEntries {A : Type} (o : list (string * A))
  : list (string * A) :=
  (map snd (indexedProfiles o)
   ++ filter (fun e => match arrayIndex (fst e) with
                       | Some _ => false
                       | None => true
                       end) o)%list.

(** The rows the loop [for (let i = 1; i < Math.min(data.length, cap);
    i++)] visits, [data] being the header row and the data rows. *)
Definition visitedRows (cap : nat) (sheet : Sheet) : list Row :=
  firstn (Nat.min (S (List.length (dataRows sheet))) cap - 1)
         (dataRows sheet).

(** One iteration of the loop of [_processSenderSheet]. *)
Definition senderRow (senderIndex countIndex avgLabelsIndex : option nat)
                     (profiles : Outcome (list (string * SenderProfile)))
                     (row : Row)
  : Outcome (list (string * SenderProfile)) :=
  andThen profiles (fun o =>
    if negb (truthyCell (cellAt row senderIndex)) then Done o
    else
      match cellAt row senderIndex with
      | Some (textCell sender) =>
          andThen (cellOrZero (cellAt row countIndex)) (fun count =>
          andThen (cellOrZero (cellAt row avgLabelsIndex)) (fun avg =>
          andThen (importanceOf (cellAt row countIndex)) (fun imp =>
            Done (putProfile o sender
                    {| senderCount := count; avgLabels := avg;
                       importance := imp |}))))
      | _ => Unmodelled
      end).

Definition _processSenderSheet (sheet : option Sheet)
  : Outcome (list (string * SenderProfile)) :=
  match sheet with
  | None => Done []
  | Some sheet =>
      let headers := headerRow sheet in
      let senderIndex := indexOf "Sender" headers in
      let countIndex := indexOf "Count" headers in
      let avgLabelsIndex := indexOf "Avg Labels" headers in
      fold_left (senderRow senderIndex countIndex avgLabelsIndex)
                (visitedRows 500 sheet) (Done [])
  end.

(** One iteration of the loop of [_processKeywordSheet]; a keyword
    cell that holds a number has no [toLowerCase]. *)
Definition keywordRow (keywordIndex countIndex labelIndex : option nat)
                      (profiles : Outcome (list (string * KeywordProfile)))
                      (row : Row)
  : Outcome (list (string * KeywordProfile)) :=
  andThen profiles (fun o =>
    if negb (truthyCell (cellAt row keywordIndex)) then Done o
    else
      match cellAt row keywordIndex with
      | Some (textCell keyword) =>
          andThen (cellOrZero (cellAt row countIndex)) (fun count =>
          andThen (cellOrEmpty (cellAt row labelIndex)) (fun l =>
          andThen (weightOf (cellAt row countIndex)) (fun w =>
            Done (putProfile o (toLowerCase keyword)
                    {| keywordCount := count; commonLabel := l;
                       weight := w |}))))
      | _ => Raised TypeError
      end).

Definition _processKeywordSheet (sheet : option Sheet)
  : Outcome (list (string * KeywordProfile)) :=
  match sheet with
  | None => Done []
  | Some sheet =>
      let headers := headerRow sheet in
      let keywordIndex := indexOf "Keyword" headers in
      let countIndex := indexOf "Count" headers in
      let labelIndex := indexOf "Most Common Label" headers in
      fold_left (keywordRow keywordIndex countIndex labelIndex)
                (visitedRows 200 sheet) (Done [])
  end.

(** [load] on a cache miss, when the spreadsheet opens: the two maps
    the classifier reads ([labelPatterns] and [metadata] are not read
    by it).  The bundle is returned only after [cache.put] has stored
    it; [cachePut] tells whether that call returns ([true]) or throws
    ([false]), as it does for a value above the size the cache takes.
    An exception, from a sheet or from the cache, makes [load] return
    [null]. *)
Definition load (cachePut : bool) (senders keywords : option Sheet)
  : Outcome (option Intelligence) :=
  match
    andThen (_processSenderSheet senders) (fun sp =>
    andThen (_processKeywordSheet keywords) (fun kp =>
      Done {| senderProfiles := Some (profileEntries sp);
              keywordProfiles := Some (profileEntries kp) |}))
  with
  | Done intelligence =>
      if cachePut then Done (Some intelligence) else Done None
  | Raised _ => Done None
  | Unmodelled => Unmodelled
  end.

(** Every cell the loops read has the type of its column: text (or
    blank) under the key and label headers, a number (or blank) under
    the count headers. *)
Definition textOrBlank (cell : option Cell) : Prop :=
  match cell with
  | Some (numberCell _) => False
  | _ => True
  end.

Definition numberOrBlank (cell : option Cell) : Prop :=
  match cell with
  | Some (textCell s) => s = ""
  | _ => True
  end.

Definition senderSheetTyped (sheet : Sheet) : Prop :=
  forall row, In row (dataRows sheet) ->
    textOrBlank (cellAt row (indexOf "Sender" (headerRow sheet)))
    /\ numberOrBlank (cellAt row (indexOf "Count" (headerRow sheet)))
    /\ numberOrBlank (cellAt row (indexOf "Avg Labels" (headerRow sheet))).

Definition keywordSheetTyped (sheet : Sheet) : Prop :=
  indexOf "Count" (headerRow sheet) <> None
  /\ forall row, In row (dataRows sheet) ->
       textOrBlank (cellAt row (indexOf "Keyword" (headerRow sheet)))
       /\ (exists cell,
              cellAt row (indexOf "Count" (headerRow sheet)) = Some cell
              /\ numberOrBlank (Some cell))
       /\ textOrBlank
            (cellAt row (indexOf "Most Common Label" (headerRow sheet))).

(** Two small sheets. *)
Definition sendersSheet : Sheet := {|
  headerRow := [textCell "Sender"; textCell "Count"; textCell "Avg Labels"];
  dataRows := [[textCell "boss@mail.example"; numberCell 42; numberCell 1];
               [textCell ""; numberCell 7; numberCell 1];
               [textCell "bob@mail.example"; numberCell 10; numberCell 2];
               [textCell "boss@mail.example"; numberCell 3; textCell ""]]
|}.

Definition keywordsSheet : Sheet := {|
  headerRow := [textCell "Keyword"; textCell "Count";
                textCell "Most Common Label"];
  dataRows := [[textCell "Budget"; numberCell 250; textCell "Finance"];
               [textCell "2024"; numberCell 40; textCell "Archive"];
               [textCell "lunch"; textCell ""; textCell "Social"]]
|}.

(** A Senders sheet with 499 rows for one sender and a 500th row for
    another. *)
Definition longSheet : Sheet := {|
  headerRow := [textCell "Sender"; textCell "Count"];
  dataRows := (repeat [textCell "bob@mail.example"; numberCell 1] 499
               ++ [[textCell "late@mail.example"; numberCell 99]])%list
|}.

(** What the Senders sheet promises of a profile, and what the
    Keywords sheet promises. *)
Definition senderProfileOk (entry : string * SenderProfile) : Prop :=
  fst entry <> "" /\ fst entry <> "__proto__"
  /\ (importance (snd entry) = "high" /\ 10 < senderCount (snd entry)
      \/ importance (snd entry) = "normal"
         /\ senderCount (snd entry) <= 10).

Definition keywordProfileOk (entry : string * KeywordProfile) : Prop :=
  fst entry <> "" /\ fst entry <> "__proto__"
  /\ toLowerCase (fst entry) = fst entry
  /\ weight (snd entry) == Qmin (keywordCount (snd entry) / 100) 1.

(** * Properties *)

(** ** The primitives on concrete inputs *)

Example toLowerCase_ex : toLowerCase "Jane Doe <Jane@Example.EDU>" = "jane doe <jane@example.edu>".
Proof. reflexivity. Qed.

Example endsWith_ex : endsWith "x@alaska.edu" "@alaska.edu" = true /\ endsWith "edu" "@alaska.edu" = false.
Proof. split; reflexivity. Qed.

Example includes_ex : includes "meeting tomorrow " "meeting" = true /\ includes "abc" "" = true /\ includes "abc" "bd" = false.
Proof. repeat split; reflexivity. Qed.

Example split_ex : split "," "alaska.edu,ua.edu" = ["alaska.edu"; "ua.edu"] /\ split "," "" = [""] /\ split "," "a,,b," = ["a"; ""; "b"; ""].
Proof. repeat split; reflexivity. Qed.

Example trim_ex : trim "  a b  " = "a b" /\ trim "   " = "".
Proof. split; reflexivity. Qed.

Example matchAngle_ex :
  matchAngle "Jane Doe <Jane@Example.EDU>" = Some "Jane@Example.EDU"
  /\ matchAngle "jane@example.edu" = None
  /\ matchAngle "<>abc>" = Some ">abc"
  /\ matchAngle "a <> b <c>" = Some "> b <c".
Proof. repeat split; reflexivity. Qed.

Example CONFIG_defaults :
  CONFIG noProps
  = {| VIP_SENDERS := ["provost@alaska.edu"; "dean@alaska.edu"];
       VIP_DOMAINS := ["alaska.edu"; "ua.edu"];
       KEEP_SENDERS := [];
       KEEP_DOMAINS := ["alaska.edu"];
       DRY_RUN := false;
       PREVIEW_MODE := false;
       HIGH_CONFIDENCE := 0.8;
       MEDIUM_CONFIDENCE := 0.5 |}.
Proof. reflexivity. Qed.

(** ** Objects and the scorer on concrete inputs *)

Example entries_order :
  entries [("Work", Num 0.3); ("7", Num 0.1); ("constructor", Text);
           ("3", Num 0.2); ("007", Num 0.5)]
  = [("3", Num 0.2); ("7", Num 0.1); ("Work", Num 0.3);
     ("constructor", Text); ("007", Num 0.5)].
Proof. reflexivity. Qed.

Example orZeroPlus_ex :
  orZeroPlus [] "Work" 0.3 = Num (0 + 0.3)
  /\ orZeroPlus [("Work", Num 0.3)] "Work" 0.3 = Num (0.3 + 0.3)
  /\ orZeroPlus [] "toString" 0.3 = Text
  /\ assign [] "__proto__" Text = [].
Proof. repeat split; reflexivity. Qed.

Example scorer_sender_and_keyword :
  let profiles :=
    [("boss@mail.example",
      {| senderCount := 42; avgLabels := 1; importance := "high" |})] in
  let keywords := [("budget", keyword_of "Finance" 1)] in
  scoreAll profiles keywords "boss@mail.example" "Budget review" ""
  = ([("Important", Num (0 + 0.4)); ("Finance", Num (0 + 1 * 0.3))],
     0 + 0.4 + 1 * 0.3)
  /\ findBest (fst (scoreAll profiles keywords "boss@mail.example"
                              "Budget review" ""))
     = (Some "Important", 0 + 0.4).
Proof. split; reflexivity. Qed.

Example first_seen_wins_a_tie :
  findBest [("Finance", Num 0.3); ("Work", Num 0.3)] = (Some "Finance", 0.3).
Proof. reflexivity. Qed.

(** ** Strings and arrays *)

Lemma arrayIncludes_In (xs : list string) (x : string) :
  arrayIncludes xs x = true <-> In x xs.
Proof.
  unfold arrayIncludes. rewrite existsb_exists. split.
  - intros [y [Hy E]]. apply String.eqb_eq in E. now subst.
  - intros H. exists x. split; [assumption | apply String.eqb_refl].
Qed.

Lemma length_append (a b : string) :
  String.length (a ++ b) = (String.length a + String.length b)%nat.
Proof. induction a as [|c a IH]; simpl; [reflexivity | now rewrite IH]. Qed.

Lemma substring_all (s : string) : substring 0 (String.length s) s = s.
Proof. induction s as [|c s IH]; simpl; [reflexivity | now rewrite IH]. Qed.

Lemma substring_append_r (a b : string) :
  substring (String.length a) (String.length b) (a ++ b) = b.
Proof. induction a as [|c a IH]; simpl; [apply substring_all | exact IH]. Qed.

Lemma substring_split (s : string) (n : nat) :
  (n <= String.length s)%nat ->
  s = substring 0 n s ++ substring n (String.length s - n) s.
Proof.
  revert n. induction s as [|c s IH]; intros [|n] Hn; simpl in *.
  - reflexivity.
  - lia.
  - now rewrite substring_all.
  - f_equal. rewrite <- (IH n) by lia.
    (* the tail of the second piece skips one more character *)
    reflexivity.
Qed.

(** [endsWith] holds exactly when the suffix closes the string. *)
Lemma endsWith_iff (s suffix : string) :
  endsWith s suffix = true <-> exists front, s = front ++ suffix.
Proof.
  unfold endsWith. rewrite andb_true_iff, Nat.leb_le, String.eqb_eq. split.
  - intros [Hle E].
    exists (substring 0 (String.length s - String.length suffix) s).
    rewrite <- E at 2.
    rewrite (substring_split s (String.length s - String.length suffix)) at 1
      by lia.
    do 2 f_equal. lia.
  - intros [front ->]. rewrite length_append. split; [lia|].
    replace (String.length front + String.length suffix
             - String.length suffix)%nat with (String.length front) by lia.
    apply substring_append_r.
Qed.

(** ** Allow-list and deny-list membership *)

Lemma domain_match_iff (domains : list string) (sender : string) :
  existsb (fun domain => endsWith sender ("@" ++ domain)) domains = true
  <-> exists domain front, In domain domains /\ sender = front ++ "@" ++ domain.
Proof.
  rewrite existsb_exists. split.
  - intros [d [Hd E]]. apply endsWith_iff in E. destruct E as [front E].
    now exists d, front.
  - intros [d [front [Hd E]]]. exists d. split; [assumption|].
    apply endsWith_iff. now exists front.
Qed.

Lemma _isVIP_iff (config : Config) (sender : string) :
  _isVIP config sender = true
  <-> listed (VIP_SENDERS config) (VIP_DOMAINS config) sender.
Proof.
  unfold _isVIP, listed. rewrite <- arrayIncludes_In, <- domain_match_iff.
  destruct (arrayIncludes (VIP_SENDERS config) sender); intuition congruence.
Qed.

Lemma _isProtected_iff (config : Config) (sender : string) :
  _isProtected config sender = true
  <-> listed (KEEP_SENDERS config) (KEEP_DOMAINS config) sender.
Proof.
  unfold _isProtected, listed.
  rewrite <- arrayIncludes_In, <- domain_match_iff.
  destruct (arrayIncludes (KEEP_SENDERS config) sender); intuition congruence.
Qed.

(** ** VIP and protected precedence *)

(** C1.  A thread whose normalized sender is one of the VIP senders, or
    ends with ["@"] followed by a VIP domain, is classified as
    [{action: "star", label: "VIP", confidence: 1.0, reason: "VIP sender"}]
    whatever the subject, the body and the statistics bundle are (a
    missing or malformed bundle included): the check comes first. *)
Theorem C1_vip_precedence
  (config : Config) (intelligence : option Intelligence) (thread : Thread) :
  listed (VIP_SENDERS config) (VIP_DOMAINS config)
         (_extractSenderEmail (getFrom thread)) ->
  classifyThread config intelligence thread
  = Return {| action := "star"; label := Some "VIP"; confidence := 1;
              reason := "VIP sender" |}.
Proof.
  intros H. apply _isVIP_iff in H.
  unfold classifyThread. now rewrite H.
Qed.

Lemma C1_vip_precedence_witness :
  let thread := {| getFrom := "The Dean <Dean@Alaska.EDU>";
                   getFirstMessageSubject := "Unsubscribe from the newsletter";
                   getPlainBody := "meeting";
                   isStarred := false |} in
  let bundle := {| senderProfiles := None; keywordProfiles := None |} in
  listed (VIP_SENDERS (CONFIG noProps)) (VIP_DOMAINS (CONFIG noProps))
         (_extractSenderEmail (getFrom thread))
  /\ classifyThread (CONFIG noProps) (Some bundle) thread = Return vipDecision.
Proof.
  intros thread bundle.
  assert (H : listed (VIP_SENDERS (CONFIG noProps))
                     (VIP_DOMAINS (CONFIG noProps))
                     (_extractSenderEmail (getFrom thread))).
  { left. simpl. right. left. reflexivity. }
  split; [exact H |].
  exact (C1_vip_precedence (CONFIG noProps) (Some bundle) thread H).
Defined.

(** C2.  A thread whose normalized sender is not VIP and is one of the
    protected senders, or ends with ["@"] followed by a protected
    domain, is classified as
    [{action: "keep", label: null, confidence: 1.0, reason: "Protected sender"}]
    whatever the subject, the body and the statistics bundle are. *)
Theorem C2_protected_precedence
  (config : Config) (intelligence : option Intelligence) (thread : Thread) :
  ~ listed (VIP_SENDERS config) (VIP_DOMAINS config)
           (_extractSenderEmail (getFrom thread)) ->
  listed (KEEP_SENDERS config) (KEEP_DOMAINS config)
         (_extractSenderEmail (getFrom thread)) ->
  classifyThread config intelligence thread
  = Return {| action := "keep"; label := None; confidence := 1;
              reason := "Protected sender" |}.
Proof.
  intros Hvip Hkeep.
  rewrite <- _isVIP_iff in Hvip. apply not_true_is_false in Hvip.
  apply _isProtected_iff in Hkeep.
  unfold classifyThread. now rewrite Hvip, Hkeep.
Qed.

Lemma C2_protected_precedence_witness :
  let thread := thread_of "Aunt <Aunt@Family.Example>" "Newsletter" "meeting" in
  let bundle := {| senderProfiles := None; keywordProfiles := None |} in
  ~ listed (VIP_SENDERS (CONFIG corpProps)) (VIP_DOMAINS (CONFIG corpProps))
           (_extractSenderEmail (getFrom thread))
  /\ listed (KEEP_SENDERS (CONFIG corpProps)) (KEEP_DOMAINS (CONFIG corpProps))
            (_extractSenderEmail (getFrom thread))
  /\ classifyThread (CONFIG corpProps) (Some bundle) thread
     = Return protectedDecision.
Proof.
  intros thread bundle.
  assert (Hvip : ~ listed (VIP_SENDERS (CONFIG corpProps))
                          (VIP_DOMAINS (CONFIG corpProps))
                          (_extractSenderEmail (getFrom thread))).
  { rewrite <- _isVIP_iff. vm_compute. discriminate. }
  assert (Hkeep : listed (KEEP_SENDERS (CONFIG corpProps))
                         (KEEP_DOMAINS (CONFIG corpProps))
                         (_extractSenderEmail (getFrom thread))).
  { right. exists "family.example", "aunt". split; [|reflexivity].
    simpl. left. reflexivity. }
  split; [exact Hvip | split; [exact Hkeep |]].
  exact (C2_protected_precedence (CONFIG corpProps) (Some bundle) thread
                                 Hvip Hkeep).
Defined.

(** ** The gate on the historical scorer *)

Lemma decide_reason (st : ScoreState) :
  reason (decide st) = "Historical pattern match"
  \/ reason (decide st) = "No pattern match".
Proof.
  unfold decide. destruct (findBest (fst st)) as [[l|] best]; simpl; auto.
  destruct (truthy l && gtb (snd st) 0); simpl; auto.
Qed.

Lemma _ruleBasedClassification_reason (sender subject snippet : string) :
  In (reason (_ruleBasedClassification sender subject snippet))
     ["Meeting related"; "Student related"; "Department business";
      "Newsletter detected"; "No specific rule matched"].
Proof.
  unfold _ruleBasedClassification.
  repeat match goal with
         | |- context [if ?b then _ else _] => destruct b
         end; simpl; tauto.
Qed.

(** The fallback never produces a result of the scorer. *)
Lemma fallback_is_not_historical
  (intel : Intelligence) (sender subject snippet : string) (c : Decision) :
  _classifyWithIntelligence intel sender subject snippet = Return c ->
  c <> _ruleBasedClassification sender subject snippet.
Proof.
  unfold _classifyWithIntelligence.
  destruct (senderProfiles intel) as [profiles|]; [|discriminate].
  intros E. injection E as <-. intros Heq.
  pose proof (_ruleBasedClassification_reason sender subject snippet) as Hr.
  rewrite <- Heq in Hr.
  destruct (decide_reason
              (scoreAll profiles
                        match keywordProfiles intel with
                        | Some k => k
                        | None => []
                        end sender subject snippet)) as [Hd|Hd];
    rewrite Hd in Hr; simpl in Hr;
    intuition discriminate.
Qed.

(** The scorer returns whenever the bundle has its [senderProfiles]. *)
Lemma _classifyWithIntelligence_returns
  (intel : Intelligence) (profiles : list (string * SenderProfile))
  (sender subject snippet : string) :
  senderProfiles intel = Some profiles ->
  exists c, _classifyWithIntelligence intel sender subject snippet = Return c.
Proof.
  intros H. unfold _classifyWithIntelligence. rewrite H. eauto.
Qed.

Lemma geb_true_iff (a b : Q) : geb a b = true <-> b <= a.
Proof. unfold geb. apply Qle_bool_iff. Qed.

Lemma geb_false_iff (a b : Q) : geb a b = false <-> a < b.
Proof.
  unfold geb. rewrite <- not_true_iff_false, Qle_bool_iff.
  split; [apply Qnot_le_lt | apply Qlt_not_le].
Qed.

Lemma gtb_true_iff (a b : Q) : gtb a b = true <-> b < a.
Proof.
  unfold gtb. rewrite negb_true_iff. apply (geb_false_iff b a).
Qed.

(** C3.  For a sender that is neither VIP nor protected: without a
    statistics bundle the result is the rule-based fallback's; with a
    bundle, the result is the historical scorer's exactly when the
    scorer's confidence is at least [MEDIUM_CONFIDENCE] (the threshold
    itself included), and the fallback's when it is strictly below. *)
Theorem C3_historical_gate (config : Config) (thread : Thread) :
  let sender := _extractSenderEmail (getFrom thread) in
  let subject := getFirstMessageSubject thread in
  let snippet := substring 0 500 (getPlainBody thread) in
  _isVIP config sender = false ->
  _isProtected config sender = false ->
  classifyThread config None thread
  = Return (_ruleBasedClassification sender subject snippet)
  /\ forall (intel : Intelligence) (c : Decision),
       _classifyWithIntelligence intel sender subject snippet = Return c ->
       (classifyThread config (Some intel) thread = Return c
        <-> MEDIUM_CONFIDENCE config <= confidence c)
       /\ (confidence c < MEDIUM_CONFIDENCE config ->
           classifyThread config (Some intel) thread
           = Return (_ruleBasedClassification sender subject snippet)).
Proof.
  intros sender subject snippet Hvip Hkeep.
  unfold classifyThread. fold sender subject snippet.
  rewrite Hvip, Hkeep. split; [reflexivity|].
  intros intel c Hc. rewrite Hc. simpl.
  destruct (geb (confidence c) (MEDIUM_CONFIDENCE config)) eqn:G.
  - apply geb_true_iff in G. split; [tauto|].
    intros Hlt. exfalso. apply (Qlt_not_le _ _ Hlt G).
  - apply geb_false_iff in G. split; [|reflexivity].
    split.
    + intros E. injection E as E. symmetry in E.
      exfalso. exact (fallback_is_not_historical _ _ _ _ _ Hc E).
    + intros Hle. exfalso. apply (Qlt_not_le _ _ G Hle).
Qed.

Lemma C3_historical_gate_witness :
  let config := CONFIG corpProps in
  let thread := thread_of "Bob <bob@mail.example>" "Invoice and report" "" in
  let sender := _extractSenderEmail (getFrom thread) in
  let subject := getFirstMessageSubject thread in
  let snippet := substring 0 500 (getPlainBody thread) in
  let c := {| action := "label"; label := Some "Finance";
              confidence := 300 # 600;
              reason := "Historical pattern match" |} in
  _isVIP config sender = false
  /\ _isProtected config sender = false
  /\ _classifyWithIntelligence evenBundle sender subject snippet = Return c
  /\ classifyThread config None thread
     = Return (_ruleBasedClassification sender subject snippet)
  /\ (classifyThread config (Some evenBundle) thread = Return c
      <-> MEDIUM_CONFIDENCE config <= confidence c).
Proof.
  intros config thread sender subject snippet c.
  assert (Hvip : _isVIP config sender = false) by (vm_compute; reflexivity).
  assert (Hkeep : _isProtected config sender = false)
    by (vm_compute; reflexivity).
  assert (Hc : _classifyWithIntelligence evenBundle sender subject snippet
               = Return c) by (vm_compute; reflexivity).
  destruct (C3_historical_gate config thread Hvip Hkeep) as [Hnull Hgate].
  destruct (Hgate evenBundle c Hc) as [Hiff _].
  repeat split; try assumption; apply Hiff.
Defined.

(** The threshold itself passes the gate: a confidence of exactly 0.5
    returns the historical result. *)
Example gate_at_threshold :
  classifyThread (CONFIG corpProps) (Some evenBundle)
                 (thread_of "bob@mail.example" "Invoice and report" "")
  = Return {| action := "label"; label := Some "Finance";
              confidence := 300 # 600;
              reason := "Historical pattern match" |}
  /\ 300 # 600 == 0.5.
Proof. split; reflexivity. Qed.

(** A confidence of 0.49 does not: the fallback answers. *)
Example gate_below_threshold :
  let thread := thread_of "bob@mail.example" "Invoice, report" "lunch?" in
  (exists c,
      _classifyWithIntelligence splitBundle "bob@mail.example"
                                "Invoice, report" "lunch?" = Return c
      /\ label c = Some "Finance" /\ confidence c == 0.49)
  /\ classifyThread (CONFIG corpProps) (Some splitBundle) thread
     = Return {| action := "keep"; label := None; confidence := 0.3;
                 reason := "No specific rule matched" |}.
Proof.
  split; [|reflexivity].
  eexists. split; [reflexivity|]. split; reflexivity.
Qed.

(** ** The rule-based fallback *)

(** C4.  The rule-based fallback is a decision tree over the
    lower-case text of subject and snippet, its rules taken in order,
    the first match winning: for a sender ending in [@alaska.edu] or
    [@ua.edu], "meeting"/"schedule" gives Meetings at 0.8, else
    "student"/"grade" gives Students at 0.8, else
    "department"/"faculty" gives Department at 0.7; then, for any
    sender, "unsubscribe"/"newsletter" gives Newsletters at 0.9;
    otherwise the result is keep, no label, 0.3, with reason "No
    specific rule matched".  So with no rule keyword the fallback
    returns keep at 0.3 for every sender, and so does [classifyThread]
    with empty statistics maps where it comes to the fallback (the
    sender is neither VIP nor protected). *)
Theorem C4_rule_based_fallback :
  (forall sender subject snippet : string,
      let has := includes (searchText subject snippet) in
      let university :=
        endsWith sender "@alaska.edu" || endsWith sender "@ua.edu" in
      let meetings := has "meeting" || has "schedule" in
      let students := has "student" || has "grade" in
      let department := has "department" || has "faculty" in
      let newsletters := has "unsubscribe" || has "newsletter" in
      let result := _ruleBasedClassification sender subject snippet in
      (university = true -> meetings = true ->
       result = {| action := "label"; label := Some "Meetings";
                   confidence := 0.8; reason := "Meeting related" |})
      /\ (university = true -> meetings = false -> students = true ->
          result = {| action := "label"; label := Some "Students";
                      confidence := 0.8; reason := "Student related" |})
      /\ (university = true -> meetings = false -> students = false ->
          department = true ->
          result = {| action := "label"; label := Some "Department";
                      confidence := 0.7; reason := "Department business" |})
      /\ (university = false
          \/ (meetings = false /\ students = false /\ department = false) ->
          newsletters = true ->
          result = {| action := "label"; label := Some "Newsletters";
                      confidence := 0.9; reason := "Newsletter detected" |})
      /\ (university = false
          \/ (meetings = false /\ students = false /\ department = false) ->
          newsletters = false ->
          result = {| action := "keep"; label := None; confidence := 0.3;
                      reason := "No specific rule matched" |}))
  /\ (forall sender subject snippet : string,
         noRuleKeyword subject snippet ->
         _ruleBasedClassification sender subject snippet
         = {| action := "keep"; label := None; confidence := 0.3;
              reason := "No specific rule matched" |})
  /\ (forall (props : Props) (thread : Thread),
         let sender := _extractSenderEmail (getFrom thread) in
         _isVIP (CONFIG props) sender = false ->
         _isProtected (CONFIG props) sender = false ->
         noRuleKeyword (getFirstMessageSubject thread)
                       (substring 0 500 (getPlainBody thread)) ->
         classifyThread (CONFIG props) (Some emptyBundle) thread
         = Return {| action := "keep"; label := None; confidence := 0.3;
                     reason := "No specific rule matched" |}).
Proof.
  split; [|split].
  - intros sender subject snippet has university meetings students
           department newsletters result.
    subst result. unfold _ruleBasedClassification.
    fold (searchText subject snippet). fold has.
    fold university meetings students department newsletters.
    destruct university, meetings, students, department, newsletters;
      repeat split; intros; try reflexivity; try discriminate;
      intuition discriminate.
  - intros sender subject snippet Hno.
    unfold _ruleBasedClassification. fold (searchText subject snippet).
    rewrite !Hno by (simpl; tauto).
    simpl. now destruct (_ || _).
  - intros props thread sender Hvip Hkeep Hno.
    unfold classifyThread. fold sender. rewrite Hvip, Hkeep.
    simpl. unfold _ruleBasedClassification.
    match goal with
    | |- context [toLowerCase (?a ++ " " ++ ?b)] =>
        fold (searchText a b)
    end.
    rewrite !Hno by (simpl; tauto).
    simpl. now destruct (_ || _).
Qed.

Lemma noRuleKeyword_hello : noRuleKeyword "Hello" "".
Proof.
  intros k Hk. simpl in Hk.
  repeat (destruct Hk as [<-|Hk]; [reflexivity|]). contradiction.
Qed.

Lemma C4_rule_based_fallback_witness :
  let thread := thread_of "Bob <bob@mail.example>" "Hello" "" in
  (_ruleBasedClassification "x@ua.edu" "Grades and the faculty Meeting" ""
   = {| action := "label"; label := Some "Meetings"; confidence := 0.8;
        reason := "Meeting related" |})
  /\ _ruleBasedClassification "x@ua.edu" "Hello" ""
     = {| action := "keep"; label := None; confidence := 0.3;
          reason := "No specific rule matched" |}
  /\ classifyThread (CONFIG corpProps) (Some emptyBundle) thread
     = Return {| action := "keep"; label := None; confidence := 0.3;
                 reason := "No specific rule matched" |}.
Proof.
  intros thread.
  destruct C4_rule_based_fallback as [Htree [Hrule Hclassify]].
  split; [|split].
  - destruct (Htree "x@ua.edu" "Grades and the faculty Meeting" "")
      as [Hmeet _].
    apply Hmeet; vm_compute; reflexivity.
  - apply Hrule. exact noRuleKeyword_hello.
  - apply Hclassify.
    + vm_compute; reflexivity.
    + vm_compute; reflexivity.
    + exact noRuleKeyword_hello.
Defined.

(** C5, as the code has it.  With no statistics bundle, sender
    ["x@alaska.edu"] and subject ["Meeting tomorrow"]: under the default
    configuration [alaska.edu] is a VIP domain and the result is the VIP
    decision; under a configuration in which the sender is neither VIP
    nor protected the result is
    [{action: "label", label: "Meetings", confidence: 0.8}], whatever
    the body is. *)
Theorem C5_meeting_from_university :
  (forall body starred,
      classifyThread (CONFIG noProps) None
                     {| getFrom := "x@alaska.edu";
                        getFirstMessageSubject := "Meeting tomorrow";
                        getPlainBody := body; isStarred := starred |}
      = Return {| action := "star"; label := Some "VIP"; confidence := 1;
                  reason := "VIP sender" |})
  /\ (forall config body starred,
         _isVIP config "x@alaska.edu" = false ->
         _isProtected config "x@alaska.edu" = false ->
         classifyThread config None
                        {| getFrom := "x@alaska.edu";
                           getFirstMessageSubject := "Meeting tomorrow";
                           getPlainBody := body; isStarred := starred |}
         = Return {| action := "label"; label := Some "Meetings";
                     confidence := 0.8; reason := "Meeting related" |}).
Proof.
  split.
  - intros body starred. reflexivity.
  - intros config body starred Hvip Hkeep.
    unfold classifyThread.
    change (_extractSenderEmail
              (getFrom {| getFrom := "x@alaska.edu";
                          getFirstMessageSubject := "Meeting tomorrow";
                          getPlainBody := body; isStarred := starred |}))
      with "x@alaska.edu".
    rewrite Hvip, Hkeep. reflexivity.
Qed.

Lemma C5_meeting_from_university_witness :
  _isVIP (CONFIG corpProps) "x@alaska.edu" = false
  /\ _isProtected (CONFIG corpProps) "x@alaska.edu" = false
  /\ classifyThread (CONFIG corpProps) None
                    (thread_of "x@alaska.edu" "Meeting tomorrow" "See you.")
     = Return {| action := "label"; label := Some "Meetings";
                 confidence := 0.8; reason := "Meeting related" |}.
Proof.
  assert (Hvip : _isVIP (CONFIG corpProps) "x@alaska.edu" = false)
    by (vm_compute; reflexivity).
  assert (Hkeep : _isProtected (CONFIG corpProps) "x@alaska.edu" = false)
    by (vm_compute; reflexivity).
  split; [exact Hvip | split; [exact Hkeep |]].
  destruct C5_meeting_from_university as [_ Hrule].
  exact (Hrule (CONFIG corpProps) "See you." false Hvip Hkeep).
Defined.

(** C5 as stated fails under the default configuration, where
    [alaska.edu] is a VIP domain. *)
Lemma C5_counterexample :
  let thread := thread_of "x@alaska.edu" "Meeting tomorrow" "" in
  classifyThread (CONFIG noProps) None thread
  = Return {| action := "star"; label := Some "VIP"; confidence := 1;
              reason := "VIP sender" |}
  /\ action vipDecision <> "label"
  /\ label vipDecision <> Some "Meetings"
  /\ ~ confidence vipDecision == 0.8.
Proof.
  intros thread. split; [reflexivity|].
  repeat split; discriminate.
Qed.

(** ** Confidence and action of every result *)

Lemma betterOf_nonneg (best : option string * Q) (entry : string * Value) :
  0 <= snd best -> 0 <= snd (betterOf best entry).
Proof.
  intros H. unfold betterOf. destruct (snd entry) as [score|]; [|exact H].
  destruct (gtb score (snd best)) eqn:G; [|exact H].
  apply gtb_true_iff in G. simpl. apply Qlt_le_weak.
  now apply Qle_lt_trans with (snd best).
Qed.

Lemma fold_betterOf_nonneg (l : list (string * Value))
                           (best : option string * Q) :
  0 <= snd best -> 0 <= snd (fold_left betterOf l best).
Proof.
  revert best. induction l as [|e l IH]; intros best H; simpl.
  - exact H.
  - apply IH. now apply betterOf_nonneg.
Qed.

Lemma findBest_nonneg (scoreMap : Obj) : 0 <= snd (findBest scoreMap).
Proof. apply fold_betterOf_nonneg. simpl. apply Qle_refl. Qed.

(** What the last step of the scorer returns. *)
Lemma decide_cases (st : ScoreState) :
  (decide st = noPatternMatch)
  \/ (exists l, fst (findBest (fst st)) = Some l
               /\ truthy l = true
               /\ 0 < snd st
               /\ decide st
                  = {| action := "label"; label := Some l;
                       confidence := Qmin (snd (findBest (fst st)) / snd st) 1;
                       reason := "Historical pattern match" |}).
Proof.
  unfold decide. destruct (findBest (fst st)) as [[l|] best]; [|now left].
  destruct (truthy l) eqn:T; [|now left].
  destruct (gtb (snd st) 0) eqn:G; [|now left].
  right. exists l. apply gtb_true_iff in G. simpl. auto.
Qed.

Lemma decide_confidence (st : ScoreState) :
  0 <= confidence (decide st) <= 1.
Proof.
  destruct (decide_cases st) as [-> | [l [_ [_ [Htot ->]]]]]; simpl.
  - split; [apply Qle_refl | discriminate].
  - split; [|apply Q.le_min_r].
    apply Q.min_glb; [|discriminate].
    apply Qle_shift_div_l; [exact Htot|].
    rewrite Qmult_0_l. apply findBest_nonneg.
Qed.

Lemma decide_action (st : ScoreState) :
  action (decide st) = "label" \/ action (decide st) = "keep".
Proof.
  destruct (decide_cases st) as [-> | [l [_ [_ [_ ->]]]]]; simpl; auto.
Qed.

Lemma _ruleBasedClassification_confidence (sender subject snippet : string) :
  0 <= confidence (_ruleBasedClassification sender subject snippet) <= 1.
Proof.
  unfold _ruleBasedClassification.
  repeat match goal with
         | |- context [if ?b then _ else _] => destruct b
         end; simpl; split; discriminate.
Qed.

Lemma _ruleBasedClassification_action (sender subject snippet : string) :
  action (_ruleBasedClassification sender subject snippet) = "label"
  \/ action (_ruleBasedClassification sender subject snippet) = "keep".
Proof.
  unfold _ruleBasedClassification.
  repeat match goal with
         | |- context [if ?b then _ else _] => destruct b
         end; simpl; auto.
Qed.

(** Where a result of [classifyThread] comes from. *)
Lemma classifyThread_cases
  (config : Config) (intelligence : option Intelligence) (thread : Thread)
  (d : Decision) :
  classifyThread config intelligence thread = Return d ->
  d = vipDecision
  \/ d = protectedDecision
  \/ (exists st, d = decide st)
  \/ d = _ruleBasedClassification
           (_extractSenderEmail (getFrom thread))
           (getFirstMessageSubject thread)
           (substring 0 500 (getPlainBody thread)).
Proof.
  unfold classifyThread.
  destruct (_isVIP _ _); [intros [= <-]; auto|].
  destruct (_isProtected _ _); [intros [= <-]; auto|].
  destruct intelligence as [intel|]; [|intros [= <-]; auto].
  unfold _classifyWithIntelligence.
  destruct (senderProfiles intel) as [profiles|]; [|discriminate].
  simpl. destruct (geb _ _); intros [= <-]; eauto.
Qed.

(** [classifyThread] returns whenever the bundle, if there is one, has
    its [senderProfiles]. *)
Lemma classifyThread_returns
  (config : Config) (intelligence : option Intelligence) (thread : Thread) :
  (forall intel, intelligence = Some intel -> senderProfiles intel <> None) ->
  exists d, classifyThread config intelligence thread = Return d.
Proof.
  intros Hwf. unfold classifyThread.
  destruct (_isVIP _ _); [eauto|].
  destruct (_isProtected _ _); [eauto|].
  destruct intelligence as [intel|]; [|eauto].
  unfold _classifyWithIntelligence.
  destruct (senderProfiles intel) as [profiles|] eqn:E.
  - simpl. destruct (geb _ _); eauto.
  - exfalso. now apply (Hwf intel).
Qed.

(** C6.  The confidence of every result of [classifyThread] lies in
    [0,1], for every thread and every statistics bundle; a result
    exists whenever the bundle, if there is one, has its
    [senderProfiles].  The scorer's quotient is
    [min(bestScore / totalWeight, 1)] and is only formed when
    [totalWeight > 0]. *)
Theorem C6_confidence_in_unit_interval :
  (forall config intelligence thread d,
      classifyThread config intelligence thread = Return d ->
      0 <= confidence d <= 1)
  /\ (forall config intelligence thread,
         (forall intel, intelligence = Some intel ->
                        senderProfiles intel <> None) ->
         exists d, classifyThread config intelligence thread = Return d)
  /\ (forall st : ScoreState,
         action (decide st) = "label" ->
         0 < snd st
         /\ confidence (decide st)
            = Qmin (snd (findBest (fst st)) / snd st) 1)
  /\ (forall st : ScoreState, ~ 0 < snd st -> decide st = noPatternMatch).
Proof.
  split; [|split; [|split]].
  - intros config intelligence thread d H.
    destruct (classifyThread_cases _ _ _ _ H) as [-> | [-> | [[st ->] | ->]]].
    + simpl. split; discriminate.
    + simpl. split; discriminate.
    + apply decide_confidence.
    + apply _ruleBasedClassification_confidence.
  - exact classifyThread_returns.
  - intros st Hact.
    destruct (decide_cases st) as [E | [l [_ [_ [Htot E]]]]];
      rewrite E in *; simpl in *; [discriminate | auto].
  - intros st Hnot.
    destruct (decide_cases st) as [E | [l [_ [_ [Htot _]]]]];
      [exact E | contradiction].
Qed.

Lemma C6_confidence_in_unit_interval_witness :
  let config := CONFIG corpProps in
  let thread := thread_of "bob@mail.example" "Invoice, report" "lunch?" in
  let d := {| action := "label"; label := Some "Finance";
              confidence := 300 # 600;
              reason := "Historical pattern match" |} in
  let st : ScoreState :=
    ([("Finance", Num (3 # 10)); ("Work", Num (3 # 10))], 6 # 10) in
  classifyThread config (Some evenBundle) thread = Return d
  /\ 0 <= confidence d <= 1
  /\ action (decide st) = "label"
  /\ 0 < snd st
  /\ confidence (decide st) = Qmin (snd (findBest (fst st)) / snd st) 1.
Proof.
  intros config thread d st.
  destruct C6_confidence_in_unit_interval as [Hbound [_ [Hquot _]]].
  assert (Hd : classifyThread config (Some evenBundle) thread = Return d)
    by (vm_compute; reflexivity).
  assert (Ha : action (decide st) = "label") by (vm_compute; reflexivity).
  split; [exact Hd|].
  split; [exact (Hbound config (Some evenBundle) thread d Hd)|].
  split; [exact Ha|].
  exact (Hquot st Ha).
Defined.

(** ** The actions *)

Lemma classifyThread_action
  (config : Config) (intelligence : option Intelligence) (thread : Thread)
  (d : Decision) :
  classifyThread config intelligence thread = Return d ->
  action d = "star" \/ action d = "keep" \/ action d = "label".
Proof.
  intros H.
  destruct (classifyThread_cases _ _ _ _ H) as [-> | [-> | [[st ->] | ->]]].
  - simpl; auto.
  - simpl; auto.
  - destruct (decide_action st) as [-> | ->]; auto.
  - destruct (_ruleBasedClassification_action
                (_extractSenderEmail (getFrom thread))
                (getFirstMessageSubject thread)
                (substring 0 500 (getPlainBody thread))) as [-> | ->]; auto.
Qed.

Lemma previewCalls_no_archive (result : Decision) :
  ~ In moveToArchive (previewCalls result).
Proof.
  unfold previewCalls. destruct (hasLabel result); simpl;
    intuition discriminate.
Qed.

(** In production mode a thread is archived only on a "label" or an
    "archive" decision. *)
Lemma productionCalls_archive
  (config : Config) (thread : Thread) (result : Decision) :
  In moveToArchive (productionCalls config thread result) ->
  action result = "label" \/ action result = "archive".
Proof.
  unfold productionCalls.
  destruct (action result =? "star") eqn:Es.
  - destruct (isStarred thread); simpl; intuition discriminate.
  - destruct (action result =? "label") eqn:El.
    + apply String.eqb_eq in El. auto.
    + destruct (action result =? "archive") eqn:Ea.
      * apply String.eqb_eq in Ea. auto.
      * simpl. tauto.
Qed.

(** C9.  The action of every result of [classifyThread] is "star",
    "keep" or "label", never "archive"; and the loop body of
    [processInbox] moves a thread to the archive only when the
    classifier's decision for it is a "label" decision. *)
Theorem C9_never_archive
  (config : Config) (intelligence : option Intelligence) (thread : Thread) :
  (forall d, classifyThread config intelligence thread = Return d ->
             (action d = "star" \/ action d = "keep" \/ action d = "label")
             /\ action d <> "archive")
  /\ (In moveToArchive (processThread config intelligence thread) ->
      exists d, classifyThread config intelligence thread = Return d
                /\ action d = "label").
Proof.
  split.
  - intros d H. pose proof (classifyThread_action _ _ _ _ H) as Ha.
    split; [exact Ha|].
    destruct Ha as [-> | [-> | ->]]; discriminate.
  - unfold processThread.
    destruct (classifyThread config intelligence thread) as [d|e] eqn:H;
      [|simpl; tauto].
    intros Hin. exists d. split; [reflexivity|].
    unfold applyDecision in Hin. apply in_app_or in Hin.
    destruct Hin as [Hin | Hin]; [|simpl in Hin; intuition discriminate].
    destruct (DRY_RUN config); [contradiction|].
    destruct (PREVIEW_MODE config).
    + exfalso. exact (previewCalls_no_archive d Hin).
    + apply productionCalls_archive in Hin.
      destruct Hin as [Hl | Ha]; [exact Hl|].
      exfalso.
      destruct (classifyThread_action _ _ _ _ H) as [E | [E | E]];
        rewrite E in Ha; discriminate.
Qed.

Lemma C9_never_archive_witness :
  let config := CONFIG corpProps in
  let thread := thread_of "News <news@shop.example>" "Weekly newsletter" "" in
  let d := {| action := "label"; label := Some "Newsletters";
              confidence := 0.9; reason := "Newsletter detected" |} in
  classifyThread config None thread = Return d
  /\ action d <> "archive"
  /\ processThread config None thread
     = [addLabel "Newsletters"; moveToArchive; addLabel "_Triage/Processed"]
  /\ exists d', classifyThread config None thread = Return d'
                /\ action d' = "label".
Proof.
  intros config thread d.
  destruct (C9_never_archive config None thread) as [Hact Harch].
  assert (Hd : classifyThread config None thread = Return d)
    by (vm_compute; reflexivity).
  assert (Hp : processThread config None thread
               = [addLabel "Newsletters"; moveToArchive;
                  addLabel "_Triage/Processed"])
    by (vm_compute; reflexivity).
  split; [exact Hd|].
  split; [exact (proj2 (Hact d Hd))|].
  split; [exact Hp|].
  apply Harch. rewrite Hp. simpl. auto.
Defined.

(** ** Malformed statistics bundles *)

(** A bundle without [keywordProfiles] is read as one with no
    keyword. *)
Lemma missing_keywordProfiles_is_empty
  (profiles : list (string * SenderProfile))
  (sender subject snippet : string) :
  _classifyWithIntelligence
    {| senderProfiles := Some profiles; keywordProfiles := None |}
    sender subject snippet
  = _classifyWithIntelligence
      {| senderProfiles := Some profiles; keywordProfiles := Some [] |}
      sender subject snippet.
Proof. reflexivity. Qed.

(** A bundle without [senderProfiles] makes the scorer throw, and with
    it [classifyThread], for every sender that is neither VIP nor
    protected. *)
Lemma missing_senderProfiles_throws
  (config : Config) (thread : Thread)
  (keywords : option (list (string * KeywordProfile))) :
  _isVIP config (_extractSenderEmail (getFrom thread)) = false ->
  _isProtected config (_extractSenderEmail (getFrom thread)) = false ->
  classifyThread config
                 (Some {| senderProfiles := None;
                          keywordProfiles := keywords |})
                 thread
  = Throw TypeError.
Proof.
  intros Hvip Hkeep. unfold classifyThread. now rewrite Hvip, Hkeep.
Qed.

(** C7.  [classifyThread] does throw: on a bundle that lacks
    [senderProfiles], under the default configuration and for an
    ordinary sender, the result is a [TypeError] and no
    [ClassificationDecision]; the loop body of [processInbox] then does
    nothing for the thread.  The sibling field [keywordProfiles] is
    guarded: without it the same thread is classified by the
    fallback. *)
Theorem C7_missing_senderProfiles_throws :
  let thread := thread_of "Bob <bob@mail.example>" "Hello" "" in
  classifyThread (CONFIG noProps) (Some noSenderProfiles) thread
  = Throw TypeError
  /\ processThread (CONFIG noProps) (Some noSenderProfiles) thread = []
  /\ classifyThread (CONFIG noProps) (Some noKeywordProfiles) thread
     = Return {| action := "keep"; label := None; confidence := 0.3;
                 reason := "No specific rule matched" |}.
Proof. intros thread. repeat split; reflexivity. Qed.

(** ** Letter case in the membership checks *)

(** C8.  The letter case of a configured entry does change the result:
    the sender is lower-cased, the entries of the lists are compared as
    written.  With the VIP domain configured as "UA.edu" and the VIP
    sender as "Provost@Alaska.edu", neither [x@ua.edu] nor
    [provost@alaska.edu] is VIP, however the sender is written; with
    the same entries in lower case both are. *)
Theorem C8_configured_case_matters :
  VIP_DOMAINS (CONFIG capitalProps) = ["UA.edu"]
  /\ VIP_SENDERS (CONFIG capitalProps) = ["Provost@Alaska.edu"]
  /\ _isVIP (CONFIG capitalProps) (_extractSenderEmail "X <x@UA.edu>") = false
  /\ _isVIP (CONFIG capitalProps) (_extractSenderEmail "x@ua.edu") = false
  /\ _isVIP (CONFIG capitalProps) (_extractSenderEmail "Provost@Alaska.edu")
     = false
  /\ _isVIP (CONFIG lowerProps) (_extractSenderEmail "X <x@UA.edu>") = true
  /\ _isVIP (CONFIG lowerProps) (_extractSenderEmail "x@ua.edu") = true
  /\ _isVIP (CONFIG lowerProps) (_extractSenderEmail "Provost@Alaska.edu")
     = true.
Proof. repeat split; reflexivity. Qed.

(** Lower-casing leaves the characters the regular expression looks at
    where they are. *)
Lemma toLowerCaseChar_marks (c : ascii) :
  Ascii.eqb (toLowerCaseChar c) ">" = Ascii.eqb c ">"
  /\ Ascii.eqb (toLowerCaseChar c) "<" = Ascii.eqb c "<"
  /\ isLineTerminator (toLowerCaseChar c) = isLineTerminator c.
Proof.
  destruct c as [[] [] [] [] [] [] [] []]; repeat split; reflexivity.
Qed.

Lemma toLowerCaseChar_idem (c : ascii) :
  toLowerCaseChar (toLowerCaseChar c) = toLowerCaseChar c.
Proof. destruct c as [[] [] [] [] [] [] [] []]; reflexivity. Qed.

Lemma toLowerCase_idem (s : string) :
  toLowerCase (toLowerCase s) = toLowerCase s.
Proof.
  induction s as [|c s IH]; simpl; [reflexivity|].
  now rewrite toLowerCaseChar_idem, IH.
Qed.

Lemma lazyUntilClose_toLowerCase (s : string) :
  lazyUntilClose (toLowerCase s) = option_map toLowerCase (lazyUntilClose s).
Proof.
  induction s as [|c s IH]; simpl; [reflexivity|].
  destruct (toLowerCaseChar_marks c) as [-> [_ ->]].
  destruct (Ascii.eqb c ">"); [reflexivity|].
  destruct (isLineTerminator c); [reflexivity|].
  rewrite IH. now destruct (lazyUntilClose s).
Qed.

Lemma matchAngleAt_toLowerCase (s : string) :
  matchAngleAt (toLowerCase s) = option_map toLowerCase (matchAngleAt s).
Proof.
  destruct s as [|o [|c s]]; simpl; try reflexivity.
  destruct (toLowerCaseChar_marks o) as [_ [-> _]].
  destruct (toLowerCaseChar_marks c) as [_ [_ ->]].
  destruct (Ascii.eqb o "<" && negb (isLineTerminator c)); [|reflexivity].
  rewrite lazyUntilClose_toLowerCase. now destruct (lazyUntilClose s).
Qed.

Lemma matchAngle_toLowerCase (s : string) :
  matchAngle (toLowerCase s) = option_map toLowerCase (matchAngle s).
Proof.
  induction s as [|c s IH].
  - reflexivity.
  - change (toLowerCase (String c s))
      with (String (toLowerCaseChar c) (toLowerCase s)).
    unfold matchAngle; fold matchAngle.
    change (String (toLowerCaseChar c) (toLowerCase s))
      with (toLowerCase (String c s)).
    rewrite matchAngleAt_toLowerCase.
    destruct (matchAngleAt (String c s)); simpl; [reflexivity | exact IH].
Qed.

(** The normalized sender is a function of the lower-cased header. *)
Lemma _extractSenderEmail_toLowerCase (fromString : string) :
  _extractSenderEmail fromString
  = match matchAngle (toLowerCase fromString) with
    | Some group1 => group1
    | None => toLowerCase fromString
    end.
Proof.
  unfold _extractSenderEmail. rewrite matchAngle_toLowerCase.
  now destruct (matchAngle fromString).
Qed.

(** The letter case of the sender does not matter: two headers that
    differ only in letter case are normalized to the same sender, hence
    get the same VIP and protected answers. *)
Lemma sender_case_insensitive (config : Config) (from1 from2 : string) :
  toLowerCase from1 = toLowerCase from2 ->
  _extractSenderEmail from1 = _extractSenderEmail from2
  /\ _isVIP config (_extractSenderEmail from1)
     = _isVIP config (_extractSenderEmail from2)
  /\ _isProtected config (_extractSenderEmail from1)
     = _isProtected config (_extractSenderEmail from2).
Proof.
  intros E.
  assert (H : _extractSenderEmail from1 = _extractSenderEmail from2)
    by (rewrite !_extractSenderEmail_toLowerCase; now rewrite E).
  now rewrite H.
Qed.

(** The normalized sender is in lower case. *)
Lemma _extractSenderEmail_lower (fromString : string) :
  toLowerCase (_extractSenderEmail fromString)
  = _extractSenderEmail fromString.
Proof.
  unfold _extractSenderEmail.
  destruct (matchAngle fromString); apply toLowerCase_idem.
Qed.

Lemma toLowerCase_append (a b : string) :
  toLowerCase (a ++ b) = toLowerCase a ++ toLowerCase b.
Proof. induction a as [|c a IH]; simpl; [reflexivity | now rewrite IH]. Qed.

Lemma length_toLowerCase (s : string) :
  String.length (toLowerCase s) = String.length s.
Proof. induction s as [|c s IH]; simpl; [reflexivity | now rewrite IH]. Qed.

Lemma append_same_length_inj (a a' b b' : string) :
  String.length a = String.length a' ->
  a ++ b = a' ++ b' -> b = b'.
Proof.
  revert a'. induction a as [|c a IH]; intros [|c' a'] Hlen E;
    simpl in *; try discriminate.
  - exact E.
  - injection E as _ E. apply (IH a'); [lia | exact E].
Qed.

(** A lower-case string ends only with lower-case suffixes. *)
Lemma lower_suffix (s front suffix : string) :
  toLowerCase s = s -> s = front ++ suffix -> toLowerCase suffix = suffix.
Proof.
  intros Hlow E. rewrite E in Hlow. rewrite toLowerCase_append in Hlow.
  apply (append_same_length_inj (toLowerCase front) front);
    [apply length_toLowerCase | exact Hlow].
Qed.

(** The general form of what C8 runs into: a list whose entries all
    contain a capital letter matches no sender at all. *)
Lemma capital_entries_never_match (config : Config) (fromString : string) :
  (forall e, In e (VIP_SENDERS config) -> toLowerCase e <> e) ->
  (forall d, In d (VIP_DOMAINS config) -> toLowerCase d <> d) ->
  _isVIP config (_extractSenderEmail fromString) = false.
Proof.
  intros Hs Hd. apply not_true_is_false. rewrite _isVIP_iff.
  intros [Hin | [d [front [Hin E]]]].
  - apply (Hs _ Hin). apply _extractSenderEmail_lower.
  - apply (Hd _ Hin).
    pose proof (lower_suffix _ front ("@" ++ d)
                             (_extractSenderEmail_lower fromString) E) as H.
    simpl in H. now injection H.
Qed.

(** ** Agreement of the contributing signals *)

Lemma scoreSender_contribution
  (profiles : list (string * SenderProfile)) (sender : string)
  (st : ScoreState) :
  scoreSender profiles sender st
  = fold_left addContribution (senderContribution profiles sender) st.
Proof.
  unfold scoreSender, senderContribution.
  destruct (lookup profiles sender) as [profile|]; [|reflexivity].
  now destruct (importance profile =? "high").
Qed.

Lemma scoreKeyword_contribution
  (text : string) (st : ScoreState) (entry : string * KeywordProfile) :
  scoreKeyword text st entry
  = fold_left addContribution (keywordContribution text entry) st.
Proof.
  unfold scoreKeyword, keywordContribution. destruct entry as [keyword profile].
  simpl. destruct (includes text keyword); [|reflexivity].
  now destruct (truthy (commonLabel profile)).
Qed.

Lemma fold_scoreKeyword_contributions
  (text : string) (keywords : list (string * KeywordProfile))
  (st : ScoreState) :
  fold_left (scoreKeyword text) keywords st
  = fold_left addContribution (flat_map (keywordContribution text) keywords) st.
Proof.
  revert st. induction keywords as [|entry keywords IH]; intros st; simpl.
  - reflexivity.
  - rewrite fold_left_app, IH. now rewrite scoreKeyword_contribution.
Qed.

(** The two scoring loops add the contributions one after the other. *)
Lemma scoreAll_contributions
  (profiles : list (string * SenderProfile))
  (keywords : list (string * KeywordProfile))
  (sender subject snippet : string) :
  scoreAll profiles keywords sender subject snippet
  = fold_left addContribution
              (contributions profiles keywords sender subject snippet)
              ([], 0).
Proof.
  unfold scoreAll, contributions. fold (searchText subject snippet).
  rewrite fold_left_app, fold_scoreKeyword_contributions.
  now rewrite scoreSender_contribution.
Qed.

Lemma contributions_truthy
  (profiles : list (string * SenderProfile))
  (keywords : list (string * KeywordProfile))
  (sender subject snippet l : string) (x : Q) :
  In (l, x) (contributions profiles keywords sender subject snippet) ->
  truthy l = true.
Proof.
  unfold contributions. rewrite in_app_iff, in_flat_map.
  intros [H | [entry [_ H]]].
  - unfold senderContribution in H.
    destruct (lookup profiles sender) as [profile|]; [|contradiction].
    destruct (importance profile =? "high"); [|contradiction].
    destruct H as [[= <- _] | []]. reflexivity.
  - unfold keywordContribution in H.
    destruct (includes _ _); [|contradiction].
    destruct (truthy (commonLabel (snd entry))) eqn:T; [|contradiction].
    destruct H as [[= <- _] | []]. exact T.
Qed.

Lemma not_inherited_not_proto (l : string) :
  arrayIncludes ObjectPrototypeKeys l = false -> (l =? "__proto__") = false.
Proof.
  intros H. apply String.eqb_neq. intros ->. discriminate H.
Qed.

Lemma addScore_first (l : string) (x : Q) :
  arrayIncludes ObjectPrototypeKeys l = false ->
  oneLabel l (addScore ([], 0) l x).
Proof.
  intros H. unfold addScore, assign, orZeroPlus. cbn [fst snd getOwn].
  rewrite (not_inherited_not_proto l H), H. cbn [setOwn].
  exists (0 + x). split; reflexivity.
Qed.

Lemma addScore_next (l : string) (x : Q) (st : ScoreState) :
  arrayIncludes ObjectPrototypeKeys l = false ->
  oneLabel l st -> oneLabel l (addScore st l x).
Proof.
  intros H [v [Hmap Hv]]. unfold addScore, assign, orZeroPlus.
  rewrite (not_inherited_not_proto l H), Hmap. cbn [fst snd getOwn setOwn].
  rewrite String.eqb_refl. cbn [fst snd].
  eexists. split; [reflexivity|].
  destruct (Qeq_bool v 0) eqn:Z; cbn [snd].
  - apply Qeq_bool_iff in Z. lra.
  - lra.
Qed.

Lemma fold_addContribution_oneLabel
  (l : string) (cs : list (string * Q)) (st : ScoreState) :
  arrayIncludes ObjectPrototypeKeys l = false ->
  (forall l' x, In (l', x) cs -> l' = l) ->
  oneLabel l st -> oneLabel l (fold_left addContribution cs st).
Proof.
  intros H. revert st. induction cs as [|[l' x] cs IH]; intros st Hall Hst.
  - exact Hst.
  - simpl. apply IH.
    + intros l'' y Hin. apply (Hall l'' y). now right.
    + unfold addContribution. simpl.
      rewrite (Hall l' x (or_introl eq_refl)).
      now apply addScore_next.
Qed.

(** When all the contributions, at least one, go to one label that is
    not inherited from [Object.prototype], the final [scoreMap] has
    that single entry and its value is the total weight. *)
Lemma single_label_state (l : string) (cs : list (string * Q)) :
  arrayIncludes ObjectPrototypeKeys l = false ->
  cs <> [] ->
  (forall l' x, In (l', x) cs -> l' = l) ->
  oneLabel l (fold_left addContribution cs ([], 0)).
Proof.
  intros H Hne Hall. destruct cs as [|[l' x] cs]; [contradiction|].
  simpl. apply fold_addContribution_oneLabel.
  - exact H.
  - intros l'' y Hin. apply (Hall l'' y). now right.
  - unfold addContribution. simpl.
    rewrite (Hall l' x (or_introl eq_refl)). now apply addScore_first.
Qed.

Lemma entries_single (l : string) (v : Value) : entries [(l, v)] = [(l, v)].
Proof.
  unfold entries, indexedEntries, namedEntries. simpl.
  now destruct (arrayIndex l).
Qed.

Lemma findBest_single (l : string) (v : Q) :
  0 < v -> findBest [(l, Num v)] = (Some l, v).
Proof.
  intros Hv. unfold findBest. rewrite entries_single. simpl.
  unfold betterOf. simpl.
  apply gtb_true_iff in Hv. now rewrite Hv.
Qed.

(** On such a state of positive total weight the best score is the
    total weight and the confidence is 1. *)
Lemma decide_oneLabel (l : string) (st : ScoreState) :
  truthy l = true -> oneLabel l st -> 0 < snd st ->
  snd (findBest (fst st)) == snd st
  /\ action (decide st) = "label"
  /\ label (decide st) = Some l
  /\ confidence (decide st) == 1.
Proof.
  intros Ht [v [Hmap Hv]] Htot.
  assert (Hpos : 0 < v) by now rewrite Hv.
  unfold decide. rewrite Hmap, (findBest_single l v Hpos), Ht.
  apply gtb_true_iff in Htot. rewrite Htot. simpl.
  apply gtb_true_iff in Htot.
  split; [exact Hv|]. split; [reflexivity|]. split; [reflexivity|].
  assert (Hq : v / snd st == 1).
  { rewrite Hv. apply Qmult_inv_r. intros Z. rewrite Z in Htot.
    exact (Qlt_irrefl 0 Htot). }
  rewrite (Q.min_l (v / snd st) 1) by (rewrite Hq; apply Qle_refl).
  exact Hq.
Qed.

(** C10, as the code has it.  When every score contribution, at least
    one, goes to one label (not a name inherited from
    [Object.prototype]): if the total weight is positive, the best
    score equals the total weight and the scorer returns that label
    with confidence 1, however small the weights are, and the result
    passes the [MEDIUM_CONFIDENCE] gate of [classifyThread]; if the
    total weight is not positive, the scorer reports no match with
    confidence 0 and the rule-based fallback answers. *)
Theorem C10_single_label_confidence_one
  (props : Props) (intel : Intelligence)
  (profiles : list (string * SenderProfile)) (thread : Thread) (l : string) :
  let config := CONFIG props in
  let sender := _extractSenderEmail (getFrom thread) in
  let subject := getFirstMessageSubject thread in
  let snippet := substring 0 500 (getPlainBody thread) in
  let keywords := match keywordProfiles intel with
                  | Some k => k
                  | None => []
                  end in
  let cs := contributions profiles keywords sender subject snippet in
  let st := scoreAll profiles keywords sender subject snippet in
  senderProfiles intel = Some profiles ->
  cs <> [] ->
  (forall l' x, In (l', x) cs -> l' = l) ->
  arrayIncludes ObjectPrototypeKeys l = false ->
  (0 < snd st ->
   snd (findBest (fst st)) == snd st
   /\ exists c,
        _classifyWithIntelligence intel sender subject snippet = Return c
        /\ action c = "label"
        /\ label c = Some l
        /\ confidence c == 1
        /\ (_isVIP config sender = false ->
            _isProtected config sender = false ->
            classifyThread config (Some intel) thread = Return c))
  /\ (~ 0 < snd st ->
      _classifyWithIntelligence intel sender subject snippet
      = Return {| action := "keep"; label := None; confidence := 0;
                  reason := "No pattern match" |}
      /\ (_isVIP config sender = false ->
          _isProtected config sender = false ->
          classifyThread config (Some intel) thread
          = Return (_ruleBasedClassification sender subject snippet))).
Proof.
  intros config sender subject snippet keywords cs st
         Hprofiles Hne Hall Hown.
  assert (Hret : _classifyWithIntelligence intel sender subject snippet
                 = Return (decide st)).
  { unfold _classifyWithIntelligence. now rewrite Hprofiles. }
  split.
  - intros Htot.
    assert (Ht : truthy l = true).
    { destruct cs as [|[l' x] cs'] eqn:E; [contradiction|].
      pose proof (Hall l' x (or_introl eq_refl)) as <-.
      apply (contributions_truthy profiles keywords sender subject snippet
                                  l' x).
      fold cs. rewrite E. now left. }
    assert (Hone : oneLabel l st).
    { unfold st. rewrite scoreAll_contributions.
      now apply single_label_state. }
    destruct (decide_oneLabel l st Ht Hone Htot) as [Hbest [Ha [Hl Hc]]].
    split; [exact Hbest|].
    exists (decide st).
    repeat split; try assumption.
    intros Hvip Hkeep. unfold classifyThread.
    fold sender subject snippet. rewrite Hvip, Hkeep, Hret. simpl.
    assert (G : geb (confidence (decide st)) 0.5 = true).
    { apply geb_true_iff. rewrite Hc. discriminate. }
    now rewrite G.
  - intros Hnot.
    assert (Hno : decide st = noPatternMatch).
    { destruct (decide_cases st) as [E | [l' [_ [_ [Htot _]]]]];
        [exact E | contradiction]. }
    rewrite Hret, Hno. split; [reflexivity|].
    intros Hvip Hkeep. unfold classifyThread.
    fold sender subject snippet. rewrite Hvip, Hkeep, Hret, Hno.
    reflexivity.
Qed.

Lemma C10_single_label_confidence_one_witness :
  let thread := thread_of "bob@mail.example" "Invoice" "and the receipt" in
  let config := CONFIG corpProps in
  let sender := _extractSenderEmail (getFrom thread) in
  let subject := getFirstMessageSubject thread in
  let snippet := substring 0 500 (getPlainBody thread) in
  let keywords := match keywordProfiles faintBundle with
                  | Some k => k
                  | None => []
                  end in
  contributions [] keywords sender subject snippet
  = [("Finance", 0.01 * 0.3); ("Finance", 0.02 * 0.3)]
  /\ snd (scoreAll [] keywords sender subject snippet) == 0.009
  /\ exists c,
       classifyThread config (Some faintBundle) thread = Return c
       /\ label c = Some "Finance"
       /\ confidence c == 1.
Proof.
  intros thread config sender subject snippet keywords.
  assert (Hcs : contributions [] keywords sender subject snippet
                = [("Finance", 0.01 * 0.3); ("Finance", 0.02 * 0.3)])
    by (vm_compute; reflexivity).
  split; [exact Hcs|].
  split; [vm_compute; reflexivity|].
  assert (Hprofiles : senderProfiles faintBundle = Some [])
    by reflexivity.
  assert (Hne : contributions [] keywords sender subject snippet <> [])
    by (rewrite Hcs; discriminate).
  assert (Hall : forall l' x,
             In (l', x) (contributions [] keywords sender subject snippet) ->
             l' = "Finance").
  { rewrite Hcs. intros l' x [[= <- _] | [[= <- _] | []]]; reflexivity. }
  assert (Hown : arrayIncludes ObjectPrototypeKeys "Finance" = false)
    by (vm_compute; reflexivity).
  assert (Htot : 0 < snd (scoreAll [] keywords sender subject snippet))
    by (vm_compute; reflexivity).
  destruct (C10_single_label_confidence_one
              corpProps faintBundle [] thread "Finance"
              Hprofiles Hne Hall Hown) as [Hpos _].
  destruct (Hpos Htot) as [_ [c [_ [_ [Hl [Hc Hgate]]]]]].
  exists c. split; [|split; [exact Hl | exact Hc]].
  apply Hgate; vm_compute; reflexivity.
Defined.

(** C10 as stated fails in two ways.  A single matched keyword of
    weight 0 is the only contribution, yet the scorer reports no match
    with confidence 0 and the fallback answers.  A single matched
    keyword whose label is "constructor" is the only contribution and
    has positive weight, yet the best score stays 0, not the total
    weight, and again the fallback answers. *)
Lemma C10_counterexample :
  let thread := thread_of "bob@mail.example" "Invoice" "" in
  let fallback := {| action := "keep"; label := None; confidence := 0.3;
                     reason := "No specific rule matched" |} in
  (contributions [] [("invoice", keyword_of "Finance" 0)]
                 "bob@mail.example" "Invoice" ""
   = [("Finance", 0 * 0.3)]
   /\ _classifyWithIntelligence zeroBundle "bob@mail.example" "Invoice" ""
      = Return noPatternMatch
   /\ ~ confidence noPatternMatch == 1
   /\ classifyThread (CONFIG corpProps) (Some zeroBundle) thread
      = Return fallback)
  /\ (contributions [] [("invoice", keyword_of "constructor" 1)]
                    "bob@mail.example" "Invoice" ""
      = [("constructor", 1 * 0.3)]
      /\ scoreAll [] [("invoice", keyword_of "constructor" 1)]
                  "bob@mail.example" "Invoice" ""
         = ([("constructor", Text)], 0 + 1 * 0.3)
      /\ _classifyWithIntelligence constructorBundle
                                   "bob@mail.example" "Invoice" ""
         = Return noPatternMatch
      /\ classifyThread (CONFIG corpProps) (Some constructorBundle) thread
         = Return fallback).
Proof.
  intros thread fallback. repeat split; try reflexivity.
  discriminate.
Qed.

(** * Further properties of the script *)

(** ** Letter case of the message *)

Lemma searchText_toLowerCase (subject snippet : string) :
  searchText subject snippet
  = toLowerCase subject ++ " " ++ toLowerCase snippet.
Proof.
  unfold searchText. rewrite toLowerCase_append. f_equal.
Qed.

(** Both classifiers read the subject and the snippet through
    [searchText] only. *)
Lemma _ruleBasedClassification_text
  (sender subject1 snippet1 subject2 snippet2 : string) :
  searchText subject1 snippet1 = searchText subject2 snippet2 ->
  _ruleBasedClassification sender subject1 snippet1
  = _ruleBasedClassification sender subject2 snippet2.
Proof.
  unfold _ruleBasedClassification, searchText. now intros ->.
Qed.

Lemma _classifyWithIntelligence_text
  (intel : Intelligence) (sender subject1 snippet1 subject2 snippet2 : string) :
  searchText subject1 snippet1 = searchText subject2 snippet2 ->
  _classifyWithIntelligence intel sender subject1 snippet1
  = _classifyWithIntelligence intel sender subject2 snippet2.
Proof.
  unfold _classifyWithIntelligence, scoreAll, searchText. now intros ->.
Qed.

(** X1.  The decision does not depend on letter case: two threads
    whose From headers, subjects and snippets (the first 500 characters
    of the body) differ only in the case of letters get the same result
    from [classifyThread], under every configuration and with every
    statistics bundle. *)
Theorem classifyThread_case_insensitive
  (config : Config) (intelligence : option Intelligence)
  (thread1 thread2 : Thread) :
  toLowerCase (getFrom thread1) = toLowerCase (getFrom thread2) ->
  toLowerCase (getFirstMessageSubject thread1)
  = toLowerCase (getFirstMessageSubject thread2) ->
  toLowerCase (substring 0 500 (getPlainBody thread1))
  = toLowerCase (substring 0 500 (getPlainBody thread2)) ->
  classifyThread config intelligence thread1
  = classifyThread config intelligence thread2.
Proof.
  intros Hfrom Hsubject Hsnippet.
  assert (Hsender : _extractSenderEmail (getFrom thread1)
                    = _extractSenderEmail (getFrom thread2))
    by (rewrite !_extractSenderEmail_toLowerCase; now rewrite Hfrom).
  assert (Htext : searchText (getFirstMessageSubject thread1)
                             (substring 0 500 (getPlainBody thread1))
                  = searchText (getFirstMessageSubject thread2)
                               (substring 0 500 (getPlainBody thread2))).
  { rewrite !searchText_toLowerCase. now rewrite Hsubject, Hsnippet. }
  unfold classifyThread. rewrite Hsender.
  rewrite (_ruleBasedClassification_text _ _ _ _ _ Htext).
  destruct intelligence as [intel|]; [|reflexivity].
  now rewrite (_classifyWithIntelligence_text intel _ _ _ _ _ Htext).
Qed.

Lemma classifyThread_case_insensitive_witness :
  let thread1 := thread_of "NEWS <News@Shop.Example>" "WEEKLY NEWSLETTER" "Hi" in
  let thread2 := thread_of "news <news@shop.example>" "weekly newsletter" "hI" in
  classifyThread (CONFIG noProps) (Some evenBundle) thread1
  = classifyThread (CONFIG noProps) (Some evenBundle) thread2.
Proof.
  intros thread1 thread2.
  apply classifyThread_case_insensitive; reflexivity.
Defined.

(** ** The sender normalizer *)

Lemma matchAngle_no_open (s : string) :
  allChars (isNot "<") s = true -> matchAngle s = None.
Proof.
  induction s as [|c s IH]; [reflexivity|].
  simpl allChars. intros H. apply andb_true_iff in H. destruct H as [Hc Hs].
  unfold matchAngle; fold matchAngle.
  unfold isNot in Hc. apply negb_true_iff in Hc.
  unfold matchAngleAt. destruct s as [|c' s']; [reflexivity|].
  rewrite Hc. simpl. now apply IH.
Qed.

Lemma lazyUntilClose_plain (body rest : string) :
  allChars (isNot ">") body = true ->
  allChars (fun c => negb (isLineTerminator c)) body = true ->
  lazyUntilClose (body ++ String ">" rest) = Some body.
Proof.
  induction body as [|c body IH]; intros Hgt Hlt; [reflexivity|].
  simpl in Hgt, Hlt. apply andb_true_iff in Hgt. destruct Hgt as [Hc Hgt].
  apply andb_true_iff in Hlt. destruct Hlt as [Hl Hlt].
  unfold isNot in Hc. apply negb_true_iff in Hc.
  apply negb_true_iff in Hl.
  simpl. rewrite Hc, Hl, (IH Hgt Hlt). reflexivity.
Qed.

Lemma matchAngle_skip (name s : string) :
  allChars (isNot "<") name = true ->
  matchAngle (name ++ s) = matchAngle s.
Proof.
  induction name as [|c name IH]; intros H; [reflexivity|].
  simpl in H. apply andb_true_iff in H. destruct H as [Hc Hn].
  unfold isNot in Hc. apply negb_true_iff in Hc.
  change (String c name ++ s) with (String c (name ++ s)).
  unfold matchAngle; fold matchAngle.
  assert (Hat : matchAngleAt (String c (name ++ s)) = None).
  { unfold matchAngleAt. destruct (name ++ s); [reflexivity|].
    now rewrite Hc. }
  rewrite Hat. now apply IH.
Qed.

(** X2.  A header of the form [Name <address>...], where the name has
    no "<" and the address is not empty and has neither ">" nor a line
    terminator, is normalized to the address in lower case; a header
    without any "<" is normalized to the whole header in lower case. *)
Theorem _extractSenderEmail_header (name address rest : string) :
  allChars (isNot "<") name = true ->
  address <> "" ->
  allChars (isNot ">") address = true ->
  allChars (fun c => negb (isLineTerminator c)) address = true ->
  _extractSenderEmail (name ++ "<" ++ address ++ ">" ++ rest)
  = toLowerCase address
  /\ _extractSenderEmail name = toLowerCase name.
Proof.
  intros Hname Hne Hgt Hlt. split.
  - unfold _extractSenderEmail. rewrite (matchAngle_skip name _ Hname).
    destruct address as [|c address]; [contradiction|].
    simpl in Hgt, Hlt.
    apply andb_true_iff in Hgt. destruct Hgt as [_ Hgt].
    apply andb_true_iff in Hlt. destruct Hlt as [Hl Hlt].
    change ("<" ++ String c address ++ ">" ++ rest)
      with (String "<" (String c (address ++ String ">" rest))).
    unfold matchAngle, matchAngleAt.
    rewrite Hl, (lazyUntilClose_plain address rest Hgt Hlt). reflexivity.
  - unfold _extractSenderEmail. now rewrite (matchAngle_no_open name Hname).
Qed.

Lemma _extractSenderEmail_header_witness :
  _extractSenderEmail ("Jane Doe " ++ "<" ++ "Jane@Example.EDU" ++ ">" ++ " (work)")
  = "jane@example.edu"
  /\ _extractSenderEmail "Jane Doe " = "jane doe ".
Proof.
  apply (_extractSenderEmail_header "Jane Doe " "Jane@Example.EDU" " (work)");
    [reflexivity | discriminate | reflexivity | reflexivity].
Defined.

Lemma lazyUntilClose_no_close (s g : string) :
  lazyUntilClose s = Some g -> allChars (isNot ">") g = true.
Proof.
  revert g. induction s as [|c s IH]; intros g; simpl; [discriminate|].
  destruct (Ascii.eqb c ">") eqn:Ec; [intros [= <-]; reflexivity|].
  destruct (isLineTerminator c); [discriminate|].
  destruct (lazyUntilClose s) as [g'|]; [|discriminate].
  intros [= <-]. simpl. unfold isNot at 1. rewrite Ec. simpl. now apply IH.
Qed.

Lemma lazyUntilClose_none (s : string) :
  allChars (isNot ">") s = true -> lazyUntilClose s = None.
Proof.
  induction s as [|c s IH]; [reflexivity|].
  simpl. intros H. apply andb_true_iff in H. destruct H as [Hc Hs].
  unfold isNot in Hc. apply negb_true_iff in Hc. rewrite Hc.
  destruct (isLineTerminator c); [reflexivity|]. now rewrite (IH Hs).
Qed.

Lemma matchAngleAt_none (c : ascii) (s : string) :
  allChars (isNot ">") s = true -> matchAngleAt (String c s) = None.
Proof.
  intros H. unfold matchAngleAt. destruct s as [|c' s']; [reflexivity|].
  simpl in H. apply andb_true_iff in H. destruct H as [_ H].
  rewrite (lazyUntilClose_none s' H).
  now destruct (Ascii.eqb c "<" && negb (isLineTerminator c')).
Qed.

Lemma matchAngle_no_close (s : string) :
  allChars (isNot ">") s = true -> matchAngle s = None.
Proof.
  induction s as [|c s IH]; [reflexivity|].
  intros H. pose proof H as H'. simpl in H.
  apply andb_true_iff in H. destruct H as [_ Hs].
  unfold matchAngle; fold matchAngle.
  rewrite (matchAngleAt_none c s Hs). now apply IH.
Qed.

(** What the regular expression captures has no second match in it. *)
Lemma matchAngle_capture (s g : string) :
  matchAngle s = Some g -> matchAngle g = None.
Proof.
  induction s as [|c s IH]; [discriminate|].
  unfold matchAngle; fold matchAngle.
  destruct (matchAngleAt (String c s)) as [g'|] eqn:Hat; [|exact IH].
  intros [= <-]. unfold matchAngleAt in Hat.
  destruct s as [|c' s']; [discriminate|].
  destruct (Ascii.eqb c "<" && negb (isLineTerminator c')); [|discriminate].
  destruct (lazyUntilClose s') as [r|] eqn:Hr; [|discriminate].
  injection Hat as <-.
  pose proof (lazyUntilClose_no_close s' r Hr) as Hfree.
  unfold matchAngle; fold matchAngle.
  rewrite (matchAngleAt_none c' r Hfree).
  now apply matchAngle_no_close.
Qed.

(** X3.  The normalized sender is a normal form: it is in lower case
    and normalizing it again changes nothing. *)
Theorem _extractSenderEmail_idempotent (fromString : string) :
  _extractSenderEmail (_extractSenderEmail fromString)
  = _extractSenderEmail fromString
  /\ toLowerCase (_extractSenderEmail fromString)
     = _extractSenderEmail fromString.
Proof.
  split; [|apply _extractSenderEmail_lower].
  unfold _extractSenderEmail at 2 3.
  destruct (matchAngle fromString) as [g|] eqn:Hm.
  - unfold _extractSenderEmail. rewrite matchAngle_toLowerCase.
    rewrite (matchAngle_capture fromString g Hm). simpl.
    apply toLowerCase_idem.
  - unfold _extractSenderEmail. rewrite matchAngle_toLowerCase, Hm. simpl.
    apply toLowerCase_idem.
Qed.

(** ** Senders without "@" *)

Lemma allChars_append (p : ascii -> bool) (a b : string) :
  allChars p (a ++ b) = allChars p a && allChars p b.
Proof.
  induction a as [|c a IH]; simpl; [reflexivity|].
  now rewrite IH, andb_assoc.
Qed.

Lemma no_at_no_domain (domains : list string) (sender : string) :
  allChars (isNot "@") sender = true ->
  existsb (fun domain => endsWith sender ("@" ++ domain)) domains = false.
Proof.
  intros H. apply not_true_is_false. rewrite domain_match_iff.
  intros [d [front [_ E]]]. rewrite E, allChars_append in H.
  apply andb_true_iff in H. destruct H as [_ H]. discriminate H.
Qed.

(** X4.  A normalized sender without "@" matches no domain entry: it is
    VIP or protected only if it is listed as a sender; when it is not,
    and there is no statistics bundle, the result is the newsletter
    label or the default keep, never one of the university labels. *)
Theorem sender_without_at
  (config : Config) (thread : Thread) :
  let sender := _extractSenderEmail (getFrom thread) in
  allChars (isNot "@") sender = true ->
  _isVIP config sender = arrayIncludes (VIP_SENDERS config) sender
  /\ _isProtected config sender = arrayIncludes (KEEP_SENDERS config) sender
  /\ (~ In sender (VIP_SENDERS config) ->
      ~ In sender (KEEP_SENDERS config) ->
      classifyThread config None thread
      = Return {| action := "label"; label := Some "Newsletters";
                  confidence := 0.9; reason := "Newsletter detected" |}
      \/ classifyThread config None thread
         = Return {| action := "keep"; label := None; confidence := 0.3;
                     reason := "No specific rule matched" |}).
Proof.
  intros sender Hat.
  assert (Hvip : _isVIP config sender
                 = arrayIncludes (VIP_SENDERS config) sender).
  { unfold _isVIP. rewrite (no_at_no_domain _ _ Hat).
    now destruct (arrayIncludes (VIP_SENDERS config) sender). }
  assert (Hkeep : _isProtected config sender
                  = arrayIncludes (KEEP_SENDERS config) sender).
  { unfold _isProtected. rewrite (no_at_no_domain _ _ Hat).
    now destruct (arrayIncludes (KEEP_SENDERS config) sender). }
  split; [exact Hvip | split; [exact Hkeep |]].
  intros Hnv Hnk.
  rewrite <- arrayIncludes_In in Hnv, Hnk.
  apply not_true_is_false in Hnv. apply not_true_is_false in Hnk.
  unfold classifyThread. fold sender. rewrite Hvip, Hkeep, Hnv, Hnk.
  unfold _ruleBasedClassification.
  assert (Ha : endsWith sender "@alaska.edu" = false).
  { pose proof (no_at_no_domain ["alaska.edu"] sender Hat) as H.
    simpl in H. now rewrite orb_false_r in H. }
  assert (Hu : endsWith sender "@ua.edu" = false).
  { pose proof (no_at_no_domain ["ua.edu"] sender Hat) as H.
    simpl in H. now rewrite orb_false_r in H. }
  rewrite Ha, Hu. simpl.
  destruct (_ || _); auto.
Qed.

Lemma sender_without_at_witness :
  let thread := thread_of "Mailer Daemon" "Delivery report" "" in
  allChars (isNot "@") (_extractSenderEmail (getFrom thread)) = true
  /\ _isVIP (CONFIG noProps) (_extractSenderEmail (getFrom thread)) = false
  /\ classifyThread (CONFIG noProps) None thread
     = Return {| action := "keep"; label := None; confidence := 0.3;
                 reason := "No specific rule matched" |}.
Proof.
  intros thread.
  assert (Hat : allChars (isNot "@") (_extractSenderEmail (getFrom thread))
                = true) by reflexivity.
  destruct (sender_without_at (CONFIG noProps) thread Hat)
    as [Hvip [_ Hrule]].
  split; [exact Hat|]. split; [rewrite Hvip; reflexivity|].
  destruct Hrule as [H | H].
  - simpl. intros [E | [E | []]]; discriminate E.
  - simpl. tauto.
  - discriminate H.
  - exact H.
Defined.

(** ** The best label *)

Lemma betterOf_bestAmong (seen : list (string * Value))
                         (best : option string * Q) (e : string * Value) :
  bestAmong seen best -> bestAmong (seen ++ [e])%list (betterOf best e).
Proof.
  destruct best as [b s]. destruct e as [k x]. unfold betterOf, bestAmong.
  simpl. intros H. destruct x as [v|].
  - destruct (gtb v s) eqn:G.
    + apply gtb_true_iff in G. simpl.
      exists seen, []. split; [reflexivity|].
      destruct b as [l|].
      * destruct H as [before [after [-> [Hpos [Hb Ha]]]]].
        split; [now apply Qlt_trans with s|]. split; [|intros ? ? []].
        intros k' v' Hin. apply in_app_or in Hin.
        destruct Hin as [Hin | [[= _ <-] | Hin]].
        -- apply Qlt_trans with s; [now apply (Hb k')|exact G].
        -- exact G.
        -- apply Qle_lt_trans with s; [now apply (Ha k')|exact G].
      * destruct H as [-> Hall]. split; [exact G|]. split; [|intros ? ? []].
        intros k' v' Hin. apply Qle_lt_trans with 0; [now apply (Hall k')|].
        exact G.
    + apply not_true_iff_false in G. rewrite gtb_true_iff in G.
      apply Qnot_lt_le in G. simpl.
      destruct b as [l|].
      * destruct H as [before [after [-> [Hpos [Hb Ha]]]]].
        exists before, (after ++ [(k, Num v)])%list.
        split; [now rewrite <- app_assoc|]. split; [exact Hpos|].
        split; [exact Hb|].
        intros k' v' Hin. apply in_app_or in Hin.
        destruct Hin as [Hin | [[= _ <-] | []]]; [now apply (Ha k')|exact G].
      * destruct H as [-> Hall]. split; [reflexivity|].
        intros k' v' Hin. apply in_app_or in Hin.
        destruct Hin as [Hin | [[= _ <-] | []]]; [now apply (Hall k')|exact G].
  - destruct b as [l|].
    + destruct H as [before [after [-> [Hpos [Hb Ha]]]]].
      exists before, (after ++ [(k, Text)])%list.
      split; [now rewrite <- app_assoc|]. split; [exact Hpos|].
      split; [exact Hb|].
      intros k' v' Hin. apply in_app_or in Hin.
      destruct Hin as [Hin | [[=] | []]]. now apply (Ha k').
    + destruct H as [-> Hall]. split; [reflexivity|].
      intros k' v' Hin. apply in_app_or in Hin.
      destruct Hin as [Hin | [[=] | []]]. now apply (Hall k').
Qed.

Lemma fold_betterOf_bestAmong (rest seen : list (string * Value))
                              (best : option string * Q) :
  bestAmong seen best ->
  bestAmong (seen ++ rest)%list (fold_left betterOf rest best).
Proof.
  revert seen best. induction rest as [|e rest IH]; intros seen best H.
  - now rewrite app_nil_r.
  - simpl. replace (seen ++ e :: rest)%list with ((seen ++ [e]) ++ rest)%list
      by now rewrite <- app_assoc.
    apply IH. now apply betterOf_bestAmong.
Qed.

(** X5.  "Find best matching label" returns the first entry, in the
    order of [Object.entries], whose score is the largest, provided
    that score is positive: entries before it are strictly smaller,
    entries after it are not larger (the first seen wins a tie).  When
    no score is positive it returns no label and the score 0. *)
Theorem findBest_first_maximum (scoreMap : Obj) :
  bestAmong (entries scoreMap) (findBest scoreMap).
Proof.
  unfold findBest.
  apply (fold_betterOf_bestAmong (entries scoreMap) [] (None, 0)).
  unfold bestAmong. simpl. split; [reflexivity | intros ? ? []].
Qed.

(** ** Scores and the total weight *)

Lemma In_setOwn (o : Obj) (k k' : string) (v v' : Value) :
  In (k, v) (setOwn o k' v') -> (k, v) = (k', v') \/ In (k, v) o.
Proof.
  induction o as [|[k0 v0] o IH]; simpl.
  - intros [[= <- <-] | []]. now left.
  - destruct (k0 =? k') eqn:E.
    + apply String.eqb_eq in E. subst k0. simpl.
      intros [[= <- <-] | H]; auto.
    + simpl. intros [H | H]; auto. destruct (IH H); auto.
Qed.

Lemma In_assign (o : Obj) (k k' : string) (v v' : Value) :
  In (k, v) (assign o k' v') -> (k, v) = (k', v') \/ In (k, v) o.
Proof.
  unfold assign. destruct (k' =? "__proto__"); [auto | apply In_setOwn].
Qed.

Lemma In_insertIndexed (e x : N * (string * Value))
                       (l : list (N * (string * Value))) :
  In e (insertIndexed x l) -> e = x \/ In e l.
Proof.
  induction l as [|y l IH]; simpl.
  - intros [<- | []]. now left.
  - destruct (fst x <=? fst y)%N; simpl.
    + intros [<- | H]; auto.
    + intros [<- | H]; auto. destruct (IH H); auto.
Qed.

Lemma In_indexedEntries (o : Obj) (n : N) (e : string * Value) :
  In (n, e) (indexedEntries o) -> In e o.
Proof.
  induction o as [|[k v] o IH]; simpl; [tauto|].
  destruct (arrayIndex k).
  - intros H. apply In_insertIndexed in H. destruct H as [[= _ <-] | H]; auto.
  - auto.
Qed.

(** [Object.entries] lists own properties only. *)
Lemma In_entries (o : Obj) (e : string * Value) :
  In e (entries o) -> In e o.
Proof.
  unfold entries, namedEntries. intros H. apply in_app_or in H.
  destruct H as [H | H].
  - apply in_map_iff in H. destruct H as [[n e'] [<- H]].
    now apply In_indexedEntries in H.
  - now apply filter_In in H.
Qed.

Lemma addScore_withinTotal (st : ScoreState) (l : string) (x : Q) :
  0 <= x -> withinTotal st -> withinTotal (addScore st l x).
Proof.
  intros Hx [Htot Hall]. unfold addScore, withinTotal. cbn [fst snd].
  split; [lra|].
  intros k v Hin. apply In_assign in Hin. destruct Hin as [E | Hin].
  - injection E as -> E. unfold orZeroPlus in E.
    destruct (getOwn (fst st) l) as [[q|]|] eqn:G.
    + injection E as ->.
      assert (Hq : q <= snd st).
      { apply (Hall l). clear -G. induction (fst st) as [|[k0 v0] o IH];
          simpl in G; [discriminate|].
        destruct (k0 =? l) eqn:E0.
        - apply String.eqb_eq in E0. injection G as ->. subst. now left.
        - right. now apply IH. }
      destruct (Qeq_bool q 0); lra.
    + discriminate.
    + destruct (arrayIncludes ObjectPrototypeKeys l); [discriminate|].
      injection E as ->. lra.
  - specialize (Hall k v Hin). lra.
Qed.

Lemma fold_addContribution_withinTotal
  (cs : list (string * Q)) (st : ScoreState) :
  (forall l x, In (l, x) cs -> 0 <= x) ->
  withinTotal st -> withinTotal (fold_left addContribution cs st).
Proof.
  revert st. induction cs as [|[l x] cs IH]; intros st Hpos Hst; simpl.
  - exact Hst.
  - apply IH.
    + intros l' x' Hin. apply (Hpos l' x'). now right.
    + apply addScore_withinTotal; [|exact Hst].
      apply (Hpos l x). now left.
Qed.

Lemma contributions_nonneg
  (profiles : list (string * SenderProfile))
  (keywords : list (string * KeywordProfile))
  (sender subject snippet l : string) (x : Q) :
  (forall k p, In (k, p) keywords -> 0 <= weight p) ->
  In (l, x) (contributions profiles keywords sender subject snippet) ->
  0 <= x.
Proof.
  intros Hw. unfold contributions. rewrite in_app_iff, in_flat_map.
  intros [H | [[k p] [Hin H]]].
  - unfold senderContribution in H.
    destruct (lookup profiles sender) as [profile|]; [|contradiction].
    destruct (importance profile =? "high"); [|contradiction].
    destruct H as [[= _ <-] | []]. discriminate.
  - unfold keywordContribution in H. simpl in H.
    destruct (_ && _); [|contradiction].
    destruct H as [[= _ <-] | []].
    specialize (Hw k p Hin). nra.
Qed.

(** The best score is 0 or the score of an own entry. *)
Lemma findBest_score (scoreMap : Obj) :
  snd (findBest scoreMap) = 0
  \/ exists l, fst (findBest scoreMap) = Some l
               /\ In (l, Num (snd (findBest scoreMap))) scoreMap.
Proof.
  pose proof (fold_betterOf_bestAmong (entries scoreMap) [] (None, 0)) as H.
  fold (findBest scoreMap) in H. unfold bestAmong in H. simpl in H.
  specialize (H (conj eq_refl (fun k v (F : False) => match F with end))).
  destruct (fst (findBest scoreMap)) as [l|].
  - right. exists l. split; [reflexivity|].
    destruct H as [before [after [E _]]]. apply In_entries. rewrite E.
    apply in_or_app. right. now left.
  - left. tauto.
Qed.

(** X6.  With weights that are not negative, no score exceeds the
    total weight: the best score is at most the total weight, so the
    clamp [Math.min(..., 1)] never cuts and the confidence of a
    historical match is exactly [bestScore / totalWeight]. *)
Theorem nonnegative_weights_need_no_clamp
  (profiles : list (string * SenderProfile))
  (keywords : list (string * KeywordProfile))
  (sender subject snippet : string) :
  (forall k p, In (k, p) keywords -> 0 <= weight p) ->
  let st := scoreAll profiles keywords sender subject snippet in
  snd (findBest (fst st)) <= snd st
  /\ (action (decide st) = "label" ->
      confidence (decide st) == snd (findBest (fst st)) / snd st).
Proof.
  intros Hw st.
  assert (Hin : withinTotal st).
  { unfold st. rewrite scoreAll_contributions.
    apply fold_addContribution_withinTotal.
    - intros l x. now apply contributions_nonneg.
    - split; [apply Qle_refl | intros ? ? []]. }
  destruct Hin as [Htot Hall].
  assert (Hbest : snd (findBest (fst st)) <= snd st).
  { destruct (findBest_score (fst st)) as [-> | [l [_ H]]];
      [exact Htot | now apply (Hall l)]. }
  split; [exact Hbest|].
  intros Ha.
  destruct (decide_cases st) as [E | [l [_ [_ [Hpos E]]]]];
    rewrite E in *; simpl in *; [discriminate|].
  apply Q.min_l. apply Qle_shift_div_r; [exact Hpos|]. lra.
Qed.

Lemma nonnegative_weights_need_no_clamp_witness :
  let keywords := [("invoice", keyword_of "Finance" 0.49);
                   ("report", keyword_of "Work" 0.26);
                   ("lunch", keyword_of "Social" 0.25)] in
  let st := scoreAll [] keywords "bob@mail.example" "Invoice, report" "lunch?" in
  (forall k p, In (k, p) keywords -> 0 <= weight p)
  /\ snd (findBest (fst st)) <= snd st
  /\ confidence (decide st) == 0.49.
Proof.
  intros keywords st.
  assert (Hw : forall k p, In (k, p) keywords -> 0 <= weight p).
  { intros k p [[= _ <-] | [[= _ <-] | [[= _ <-] | []]]]; discriminate. }
  destruct (nonnegative_weights_need_no_clamp
              [] keywords "bob@mail.example" "Invoice, report" "lunch?" Hw)
    as [Hbest Hconf].
  split; [exact Hw|]. split; [exact Hbest|].
  apply (Qeq_trans _ _ _ (Hconf eq_refl)). vm_compute. reflexivity.
Defined.

(** ** Where a label comes from *)

Lemma fold_addContribution_keys
  (cs : list (string * Q)) (st : ScoreState) (k : string) (v : Value) :
  In (k, v) (fst (fold_left addContribution cs st)) ->
  (exists v', In (k, v') (fst st)) \/ (exists x, In (k, x) cs).
Proof.
  revert st. induction cs as [|[l x] cs IH]; intros st; simpl.
  - eauto.
  - intros H. destruct (IH _ H) as [[v' Hv] | [y Hy]].
    + unfold addContribution, addScore in Hv. cbn [fst snd] in Hv.
      apply In_assign in Hv. destruct Hv as [[= -> _] | Hv]; eauto.
    + eauto.
Qed.

Lemma contributions_origin
  (profiles : list (string * SenderProfile))
  (keywords : list (string * KeywordProfile))
  (sender subject snippet l : string) (x : Q) :
  In (l, x) (contributions profiles keywords sender subject snippet) ->
  (l = "Important"
   /\ exists profile, lookup profiles sender = Some profile
                      /\ importance profile = "high")
  \/ (exists keyword profile,
         In (keyword, profile) keywords
         /\ includes (searchText subject snippet) keyword = true
         /\ commonLabel profile = l).
Proof.
  unfold contributions. rewrite in_app_iff, in_flat_map.
  intros [H | [[k p] [Hin H]]].
  - left. unfold senderContribution in H.
    destruct (lookup profiles sender) as [profile|]; [|contradiction].
    destruct (importance profile =? "high") eqn:E; [|contradiction].
    destruct H as [[= <- _] | []]. split; [reflexivity|].
    exists profile. split; [reflexivity|]. now apply String.eqb_eq.
  - right. unfold keywordContribution in H. simpl in H.
    destruct (includes (searchText subject snippet) k) eqn:E;
      [|contradiction].
    destruct (truthy (commonLabel p)); [|contradiction].
    destruct H as [[= <- _] | []]. now exists k, p.
Qed.

(** The label of a historical match was scored by some contribution. *)
Lemma decide_label_origin
  (profiles : list (string * SenderProfile))
  (keywords : list (string * KeywordProfile))
  (sender subject snippet l : string) :
  label (decide (scoreAll profiles keywords sender subject snippet)) = Some l ->
  exists x,
    In (l, x) (contributions profiles keywords sender subject snippet).
Proof.
  set (st := scoreAll profiles keywords sender subject snippet).
  intros Hl.
  destruct (decide_cases st) as [E | [l' [Hbest [_ [_ E]]]]];
    rewrite E in Hl; simpl in Hl; [discriminate|].
  injection Hl as ->.
  destruct (findBest_score (fst st)) as [Hz | [l' [Hl' Hin]]].
  - pose proof (fold_betterOf_bestAmong (entries (fst st)) [] (None, 0))
      as Hmax.
    fold (findBest (fst st)) in Hmax. unfold bestAmong in Hmax.
    rewrite Hbest in Hmax. simpl in Hmax.
    destruct (Hmax (conj eq_refl (fun k v (F : False) => match F with end)))
      as [before [after [_ [Hpos _]]]].
    rewrite Hz in Hpos. exfalso. exact (Qlt_irrefl 0 Hpos).
  - rewrite Hbest in Hl'. injection Hl' as <-.
    unfold st in Hin. rewrite scoreAll_contributions in Hin.
    apply fold_addContribution_keys in Hin.
    destruct Hin as [[v' []] | Hx]. exact Hx.
Qed.

(** X7.  The classifier does not invent labels: the label of a result
    is "VIP", one of the four labels of the fallback, "Important", or
    the [commonLabel] of a keyword of the bundle that occurs in the
    searched text. *)
Theorem classifyThread_label_origin
  (config : Config) (intelligence : option Intelligence) (thread : Thread)
  (d : Decision) (l : string) :
  classifyThread config intelligence thread = Return d ->
  label d = Some l ->
  In l ["VIP"; "Meetings"; "Students"; "Department"; "Newsletters";
        "Important"]
  \/ exists intel keywords keyword profile,
       intelligence = Some intel
       /\ keywordProfiles intel = Some keywords
       /\ In (keyword, profile) keywords
       /\ includes (searchText (getFirstMessageSubject thread)
                               (substring 0 500 (getPlainBody thread)))
                   keyword = true
       /\ commonLabel profile = l.
Proof.
  intros H Hl.
  assert (Hrule : forall sender subject snippet,
             label (_ruleBasedClassification sender subject snippet) = Some l ->
             In l ["VIP"; "Meetings"; "Students"; "Department";
                   "Newsletters"; "Important"]).
  { intros sender subject snippet. unfold _ruleBasedClassification.
    repeat match goal with
           | |- context [if ?b then _ else _] => destruct b
           end; simpl; intros [= <-] || discriminate; tauto. }
  unfold classifyThread in H.
  destruct (_isVIP _ _).
  { injection H as <-. injection Hl as <-. left. simpl. tauto. }
  destruct (_isProtected _ _).
  { injection H as <-. discriminate Hl. }
  destruct intelligence as [intel|];
    [|injection H as <-; left; exact (Hrule _ _ _ Hl)].
  unfold _classifyWithIntelligence in H.
  destruct (senderProfiles intel) as [profiles|]; [|discriminate].
  simpl in H. destruct (geb _ _);
    [|injection H as <-; left; exact (Hrule _ _ _ Hl)].
  injection H as <-.
  apply decide_label_origin in Hl. destruct Hl as [x Hx].
  apply contributions_origin in Hx.
  destruct Hx as [[-> _] | [keyword [profile [Hin [Hinc Hc]]]]].
  - left. simpl. tauto.
  - destruct (keywordProfiles intel) as [keywords|] eqn:Hk;
      [|contradiction].
    right. now exists intel, keywords, keyword, profile.
Qed.

Lemma classifyThread_label_origin_witness :
  let thread := thread_of "bob@mail.example" "Invoice" "and the receipt" in
  exists d,
    classifyThread (CONFIG corpProps) (Some faintBundle) thread = Return d
    /\ label d = Some "Finance"
    /\ (In "Finance" ["VIP"; "Meetings"; "Students"; "Department";
                      "Newsletters"; "Important"]
        \/ exists intel keywords keyword profile,
             Some faintBundle = Some intel
             /\ keywordProfiles intel = Some keywords
             /\ In (keyword, profile) keywords
             /\ includes (searchText (getFirstMessageSubject thread)
                                     (substring 0 500 (getPlainBody thread)))
                         keyword = true
             /\ commonLabel profile = "Finance").
Proof.
  intros thread. eexists. split; [vm_compute; reflexivity|].
  split; [reflexivity|].
  eapply (classifyThread_label_origin (CONFIG corpProps) (Some faintBundle)
                                      thread);
    [vm_compute; reflexivity | reflexivity].
Defined.

(** ** A bundle without a matching signal *)

Lemma geb_zero_medium (props : Props) :
  geb 0 (MEDIUM_CONFIDENCE (CONFIG props)) = false.
Proof. reflexivity. Qed.

(** X8.  When no signal of the bundle matches (the sender has no
    profile of importance "high" and no labelled keyword occurs in the
    text), the bundle is as good as absent: [classifyThread] returns
    what it returns without a bundle. *)
Theorem unmatched_bundle_is_no_bundle
  (props : Props) (intel : Intelligence)
  (profiles : list (string * SenderProfile)) (thread : Thread) :
  let sender := _extractSenderEmail (getFrom thread) in
  let subject := getFirstMessageSubject thread in
  let snippet := substring 0 500 (getPlainBody thread) in
  let keywords := match keywordProfiles intel with
                  | Some k => k
                  | None => []
                  end in
  senderProfiles intel = Some profiles ->
  contributions profiles keywords sender subject snippet = [] ->
  classifyThread (CONFIG props) (Some intel) thread
  = classifyThread (CONFIG props) None thread.
Proof.
  intros sender subject snippet keywords Hp Hcs.
  unfold classifyThread. fold sender subject snippet.
  destruct (_isVIP _ _); [reflexivity|].
  destruct (_isProtected _ _); [reflexivity|].
  unfold _classifyWithIntelligence. rewrite Hp. fold keywords.
  rewrite scoreAll_contributions, Hcs. reflexivity.
Qed.

Lemma unmatched_bundle_is_no_bundle_witness :
  let thread := thread_of "bob@mail.example" "Lunch on Friday?" "" in
  classifyThread (CONFIG noProps) (Some evenBundle) thread
  = classifyThread (CONFIG noProps) None thread.
Proof.
  intros thread.
  apply (unmatched_bundle_is_no_bundle noProps evenBundle [] thread);
    reflexivity.
Defined.

(** ** Keys that are not in lower case *)

Lemma lookup_lowerCaseKeys {A : Type} (m : list (string * A)) (key : string) :
  toLowerCase key = key ->
  lookup (lowerCaseKeys m) key = lookup m key.
Proof.
  intros Hkey. induction m as [|[k a] m IH]; [reflexivity|].
  unfold lowerCaseKeys in *. simpl.
  destruct (toLowerCase k =? k) eqn:E; simpl.
  - now rewrite IH.
  - destruct (k =? key) eqn:Ek; [|exact IH].
    apply String.eqb_eq in Ek. subst k.
    rewrite Hkey, String.eqb_refl in E. discriminate.
Qed.

Lemma prefix_split (p s : string) :
  prefix p s = true -> exists rest, s = p ++ rest.
Proof.
  revert s. induction p as [|c p IH]; intros s H.
  - now exists s.
  - destruct s as [|c' s]; [discriminate|]. simpl in H.
    destruct (ascii_dec c c') as [<-|]; [|discriminate].
    destruct (IH s H) as [rest ->]. now exists rest.
Qed.

Lemma includes_split (s p : string) :
  includes s p = true -> exists front rest, s = front ++ p ++ rest.
Proof.
  induction s as [|c s IH]; cbn [includes]; rewrite orb_true_iff.
  - intros [H | H]; [|discriminate].
    apply prefix_split in H. destruct H as [rest ->]. now exists "", rest.
  - intros [H | H].
    + apply prefix_split in H. destruct H as [rest ->]. now exists "", rest.
    + destruct (IH H) as [front [rest ->]]. now exists (String c front), rest.
Qed.

(** A lower-case text includes only lower-case patterns. *)
Lemma includes_lower (s p : string) :
  toLowerCase s = s -> includes s p = true -> toLowerCase p = p.
Proof.
  intros Hs H. apply includes_split in H. destruct H as [front [rest E]].
  pose proof (lower_suffix s front (p ++ rest) Hs E) as Htail.
  rewrite toLowerCase_append in Htail.
  assert (Hlen : String.length (toLowerCase p) = String.length p)
    by apply length_toLowerCase.
  clear -Htail Hlen. revert Htail Hlen.
  generalize (toLowerCase p) as q. intros q. revert q.
  induction p as [|c p IH]; intros [|c' q] Htail Hlen;
    simpl in *; try discriminate; [reflexivity|].
  injection Htail as -> Htail. f_equal. apply IH; [exact Htail | lia].
Qed.

Lemma fold_scoreKeyword_lowerCaseKeys
  (text : string) (keywords : list (string * KeywordProfile))
  (st : ScoreState) :
  toLowerCase text = text ->
  fold_left (scoreKeyword text) (lowerCaseKeys keywords) st
  = fold_left (scoreKeyword text) keywords st.
Proof.
  intros Ht. revert st.
  induction keywords as [|[k p] keywords IH]; intros st; [reflexivity|].
  unfold lowerCaseKeys in *. simpl.
  destruct (toLowerCase k =? k) eqn:E; simpl.
  - apply IH.
  - destruct (includes text k) eqn:Hi; [|apply IH].
    rewrite (includes_lower text k Ht Hi), String.eqb_refl in E.
    discriminate.
Qed.

(** X9.  The scorer looks a profile up with the lower-cased sender and
    searches the lower-cased text, and compares with the keys as they
    are written: an entry of [senderProfiles] or [keywordProfiles]
    whose key has a capital letter is never used.  Dropping all such
    entries from a bundle changes no result. *)
Theorem capital_keys_are_dead
  (config : Config) (intel : Intelligence) (thread : Thread) :
  classifyThread config (Some (lowerCaseBundle intel)) thread
  = classifyThread config (Some intel) thread.
Proof.
  unfold classifyThread.
  destruct (_isVIP _ _); [reflexivity|].
  destruct (_isProtected _ _); [reflexivity|].
  assert (E : forall sender subject snippet,
             toLowerCase sender = sender ->
             _classifyWithIntelligence (lowerCaseBundle intel)
                                       sender subject snippet
             = _classifyWithIntelligence intel sender subject snippet).
  { intros sender subject snippet Hs.
    unfold _classifyWithIntelligence, lowerCaseBundle.
    cbn [senderProfiles keywordProfiles].
    destruct (senderProfiles intel) as [profiles|]; [|reflexivity].
    cbn [option_map]. f_equal. f_equal.
    unfold scoreAll, scoreSender.
    rewrite (lookup_lowerCaseKeys profiles sender Hs).
    destruct (keywordProfiles intel) as [keywords|]; [|reflexivity].
    cbn [option_map].
    apply fold_scoreKeyword_lowerCaseKeys. apply toLowerCase_idem. }
  now rewrite (E _ _ _ (_extractSenderEmail_lower (getFrom thread))).
Qed.

Example capital_keys_are_dead_ex :
  let thread := thread_of "Boss <Boss@Mail.Example>" "Invoice and report" "" in
  lowerCaseBundle mixedBundle
  = {| senderProfiles := Some [];
       keywordProfiles := Some [("report", keyword_of "Work" 1)] |}
  /\ classifyThread (CONFIG noProps) (Some mixedBundle) thread
     = Return {| action := "label"; label := Some "Work";
                 confidence := 30 # 30;
                 reason := "Historical pattern match" |}.
Proof. split; reflexivity. Qed.

(** ** What the loop body does to a thread *)

(** A "label" decision of the classifier carries a label. *)
Lemma classifyThread_hasLabel
  (config : Config) (intelligence : option Intelligence) (thread : Thread)
  (d : Decision) :
  classifyThread config intelligence thread = Return d ->
  action d = "label" -> exists l, hasLabel d = Some l.
Proof.
  intros H Ha.
  destruct (classifyThread_cases _ _ _ _ H) as [-> | [-> | [[st ->] | ->]]].
  - discriminate Ha.
  - discriminate Ha.
  - destruct (decide_cases st) as [E | [l [_ [Ht [_ E]]]]];
      rewrite E in *; [discriminate Ha|].
    exists l. unfold hasLabel. simpl. now rewrite Ht.
  - revert Ha. unfold _ruleBasedClassification.
    repeat match goal with
           | |- context [if ?b then _ else _] => destruct b
           end; simpl; intros Ha; try discriminate Ha;
      eexists; reflexivity.
Qed.

(** What an archived thread tells about the run. *)
Lemma archived_only_when
  (config : Config) (intelligence : option Intelligence) (thread : Thread) :
  In moveToArchive (processThread config intelligence thread) ->
  DRY_RUN config = false
  /\ PREVIEW_MODE config = false
  /\ endsWith (_extractSenderEmail (getFrom thread)) ".edu" = false
  /\ exists d, classifyThread config intelligence thread = Return d
               /\ action d = "label"
               /\ HIGH_CONFIDENCE config <= confidence d.
Proof.
  unfold processThread.
  destruct (classifyThread config intelligence thread) as [d|e] eqn:H;
    [|simpl; tauto].
  intros Hin. unfold applyDecision in Hin. apply in_app_or in Hin.
  destruct Hin as [Hin | Hin]; [|simpl in Hin; intuition discriminate].
  destruct (DRY_RUN config); [contradiction|].
  destruct (PREVIEW_MODE config);
    [exfalso; exact (previewCalls_no_archive d Hin)|].
  destruct (classifyThread_action _ _ _ _ H) as [Ha | [Ha | Ha]];
    unfold productionCalls in Hin; rewrite Ha in Hin; simpl in Hin.
  - destruct (isStarred thread); simpl in Hin; intuition discriminate.
  - contradiction.
  - destruct (hasLabel d) as [l|]; [|contradiction].
    destruct Hin as [Hin | Hin]; [discriminate|].
    destruct (geb (confidence d) (HIGH_CONFIDENCE config)) eqn:G;
      [|contradiction].
    destruct (endsWith (_extractSenderEmail (getFrom thread)) ".edu");
      [contradiction|].
    apply geb_true_iff in G. repeat split; eauto.
Qed.

(** X10.  The loop body archives a thread exactly when the run is
    neither a dry run nor a preview, the normalized sender does not end
    with ".edu", and the classifier returns a "label" decision whose
    confidence is at least [HIGH_CONFIDENCE]. *)
Theorem processThread_archives_iff
  (config : Config) (intelligence : option Intelligence) (thread : Thread) :
  In moveToArchive (processThread config intelligence thread)
  <-> DRY_RUN config = false
      /\ PREVIEW_MODE config = false
      /\ endsWith (_extractSenderEmail (getFrom thread)) ".edu" = false
      /\ exists d, classifyThread config intelligence thread = Return d
                   /\ action d = "label"
                   /\ HIGH_CONFIDENCE config <= confidence d.
Proof.
  split; [apply archived_only_when|].
  intros [Hdry [Hpre [Hedu [d [H [Ha Hc]]]]]].
  unfold processThread. rewrite H.
  unfold applyDecision. rewrite Hdry, Hpre. apply in_or_app. left.
  destruct (classifyThread_hasLabel _ _ _ _ H Ha) as [l Hl].
  unfold productionCalls. rewrite Ha, Hl, Hedu. simpl.
  apply geb_true_iff in Hc. rewrite Hc. simpl. auto.
Qed.

Lemma processThread_archives_iff_witness :
  let thread := thread_of "News <news@shop.example>" "Weekly newsletter" "" in
  In moveToArchive (processThread (CONFIG noProps) None thread).
Proof.
  intros thread. apply processThread_archives_iff.
  repeat split; try reflexivity.
  eexists. split; [vm_compute; reflexivity|]. split; [reflexivity|].
  discriminate.
Defined.

Lemma endsWith_trans (s mid suffix : string) :
  endsWith s mid = true -> endsWith mid suffix = true ->
  endsWith s suffix = true.
Proof.
  rewrite !endsWith_iff. intros [a ->] [b ->]. exists (a ++ b).
  clear. induction a as [|c a IH]; simpl; [reflexivity | now rewrite IH].
Qed.

(** X11.  Without a statistics bundle the only threads the loop body
    archives are newsletters: the university labels go to senders whose
    address ends with ".edu", and the Department label stays below
    [HIGH_CONFIDENCE]. *)
Theorem fallback_archives_newsletters_only
  (props : Props) (thread : Thread) :
  In moveToArchive (processThread (CONFIG props) None thread) ->
  classifyThread (CONFIG props) None thread
  = Return {| action := "label"; label := Some "Newsletters";
              confidence := 0.9; reason := "Newsletter detected" |}.
Proof.
  intros Hin. apply archived_only_when in Hin.
  destruct Hin as [_ [_ [Hedu [d [H [Ha Hc]]]]]].
  rewrite H. f_equal.
  unfold classifyThread in H.
  destruct (_isVIP _ _); [injection H as <-; discriminate Ha|].
  destruct (_isProtected _ _); [injection H as <-; discriminate Ha|].
  injection H as <-. clear Hc. revert Ha.
  unfold _ruleBasedClassification.
  set (sender := _extractSenderEmail (getFrom thread)) in *.
  destruct (endsWith sender "@alaska.edu") eqn:Hal.
  { assert (He : endsWith sender ".edu" = true)
      by (apply (endsWith_trans _ _ _ Hal); reflexivity).
    rewrite He in Hedu. discriminate. }
  destruct (endsWith sender "@ua.edu") eqn:Hua.
  { assert (He : endsWith sender ".edu" = true)
      by (apply (endsWith_trans _ _ _ Hua); reflexivity).
    rewrite He in Hedu. discriminate. }
  cbn [orb].
  match goal with
  | |- context [if ?b then _ else _] => destruct b
  end; simpl; intros Ha; [reflexivity | discriminate Ha].
Qed.

Lemma fallback_archives_newsletters_only_witness :
  let thread := thread_of "News <news@shop.example>" "Weekly newsletter" "" in
  In moveToArchive (processThread (CONFIG noProps) None thread)
  /\ classifyThread (CONFIG noProps) None thread
     = Return {| action := "label"; label := Some "Newsletters";
                 confidence := 0.9; reason := "Newsletter detected" |}.
Proof.
  intros thread.
  assert (Hin : In moveToArchive
                   (processThread (CONFIG noProps) None thread))
    by (vm_compute; auto).
  split; [exact Hin|].
  exact (fallback_archives_newsletters_only noProps thread Hin).
Defined.

(** X12.  A dry run or a preview never stars, marks important or
    archives: every call of the loop body adds a label whose name
    starts with "_Triage/".  In a dry run the one call made for a
    classified thread adds "_Triage/Processed". *)
Theorem dry_run_and_preview_only_add_triage_labels
  (config : Config) (intelligence : option Intelligence) (thread : Thread) :
  (DRY_RUN config = true \/ PREVIEW_MODE config = true ->
   forall call, In call (processThread config intelligence thread) ->
                exists name, call = addLabel name
                             /\ prefix "_Triage/" name = true)
  /\ (DRY_RUN config = true ->
      forall d, classifyThread config intelligence thread = Return d ->
                processThread config intelligence thread
                = [addLabel "_Triage/Processed"]).
Proof.
  split.
  - intros Hmode call. unfold processThread.
    destruct (classifyThread config intelligence thread) as [d|e];
      [|simpl; intros []].
    unfold applyDecision. intros Hin. apply in_app_or in Hin.
    destruct Hin as [Hin | [<- | []]];
      [|exists "_Triage/Processed"; split; reflexivity].
    destruct (DRY_RUN config); [contradiction|].
    destruct (PREVIEW_MODE config);
      [|destruct Hmode; discriminate].
    unfold previewCalls in Hin. destruct Hin as [<- | Hin].
    + eexists. split; reflexivity.
    + destruct (hasLabel d); [|destruct Hin].
      destruct Hin as [<- | []]. eexists. split; reflexivity.
  - intros Hdry d H. unfold processThread, applyDecision.
    now rewrite H, Hdry.
Qed.

Lemma dry_run_and_preview_only_add_triage_labels_witness :
  let thread := thread_of "News <news@shop.example>" "Weekly newsletter" "" in
  processThread (CONFIG dryRunProps) None thread
  = [addLabel "_Triage/Processed"].
Proof.
  intros thread.
  destruct (dry_run_and_preview_only_add_triage_labels
              (CONFIG dryRunProps) None thread) as [_ Hdry].
  eapply Hdry; [reflexivity | vm_compute; reflexivity].
Defined.

(** X13.  In production mode a thread of a VIP sender gets the label
    "VIP", is marked important, is starred unless it is starred
    already, and is marked processed; a thread of a protected sender
    that is not VIP is only marked processed.  Neither is archived. *)
Theorem vip_and_protected_in_production
  (config : Config) (intelligence : option Intelligence) (thread : Thread) :
  let sender := _extractSenderEmail (getFrom thread) in
  DRY_RUN config = false ->
  PREVIEW_MODE config = false ->
  (listed (VIP_SENDERS config) (VIP_DOMAINS config) sender ->
   processThread config intelligence thread
   = ([addLabel "VIP"; markImportant]
        ++ (if isStarred thread then [] else [starMessage])
        ++ [addLabel "_Triage/Processed"])%list)
  /\ (~ listed (VIP_SENDERS config) (VIP_DOMAINS config) sender ->
      listed (KEEP_SENDERS config) (KEEP_DOMAINS config) sender ->
      processThread config intelligence thread
      = [addLabel "_Triage/Processed"]).
Proof.
  intros sender Hdry Hpre. split.
  - intros Hvip. apply _isVIP_iff in Hvip.
    unfold processThread, classifyThread. fold sender. rewrite Hvip.
    unfold applyDecision, productionCalls. rewrite Hdry, Hpre. simpl.
    now destruct (isStarred thread).
  - intros Hvip Hkeep. rewrite <- _isVIP_iff in Hvip.
    apply not_true_is_false in Hvip. apply _isProtected_iff in Hkeep.
    unfold processThread, classifyThread. fold sender.
    rewrite Hvip, Hkeep.
    unfold applyDecision, productionCalls. now rewrite Hdry, Hpre.
Qed.

Lemma vip_and_protected_in_production_witness :
  processThread (CONFIG corpProps) None
                (thread_of "The Boss <Boss@Corp.Example>" "Newsletter" "")
  = [addLabel "VIP"; markImportant; starMessage;
     addLabel "_Triage/Processed"]
  /\ processThread (CONFIG corpProps) None
                   (thread_of "Aunt <aunt@family.example>" "Newsletter" "")
     = [addLabel "_Triage/Processed"].
Proof.
  split.
  - apply (vip_and_protected_in_production
             (CONFIG corpProps) None
             (thread_of "The Boss <Boss@Corp.Example>" "Newsletter" ""));
      [reflexivity | reflexivity |].
    left. simpl. auto.
  - apply (vip_and_protected_in_production
             (CONFIG corpProps) None
             (thread_of "Aunt <aunt@family.example>" "Newsletter" ""));
      [reflexivity | reflexivity | |].
    + rewrite <- _isVIP_iff. vm_compute. discriminate.
    + right. exists "family.example", "aunt". split; [|reflexivity].
      simpl. auto.
Defined.

(** ** The whole run *)

Lemma callsOf_app (a b : list InboxEvent) :
  callsOf (a ++ b)%list = (callsOf a ++ callsOf b)%list.
Proof. unfold callsOf. apply flat_map_app. Qed.

Lemma callsOf_onThread (thread : Thread) (calls : list GmailCall) :
  callsOf (map (onThread thread) calls) = map (pair thread) calls.
Proof.
  induction calls as [|c calls IH]; simpl; [reflexivity | now rewrite IH].
Qed.

Lemma loopBody_calls
  (config : Config) (intelligence : option Intelligence)
  (state : list InboxEvent * Counters) (thread : Thread) :
  callsOf (fst (loopBody config intelligence state thread))
  = (callsOf (fst state)
       ++ map (pair thread) (processThread config intelligence thread))%list.
Proof.
  unfold loopBody, processThread.
  destruct (classifyThread config intelligence thread) as [d|e]; simpl.
  - rewrite !callsOf_app, callsOf_onThread.
    destruct (_ =? 0)%nat; simpl; now rewrite app_nil_r.
  - now rewrite app_nil_r.
Qed.

Lemma fold_loopBody_calls
  (config : Config) (intelligence : option Intelligence)
  (threads : list Thread) (state : list InboxEvent * Counters) :
  callsOf (fst (fold_left (loopBody config intelligence) threads state))
  = (callsOf (fst state)
       ++ flat_map (fun thread =>
                      map (pair thread)
                          (processThread config intelligence thread))
                   threads)%list.
Proof.
  revert state. induction threads as [|t threads IH]; intros state; simpl.
  - now rewrite app_nil_r.
  - rewrite IH, loopBody_calls. now rewrite <- app_assoc.
Qed.

(** X14.  The mailbox calls of a run are, thread after thread in the
    order of the search result, the calls of the loop body for that
    thread: a thread whose classification throws contributes nothing
    and does not disturb the others; pauses and the summary add no
    call. *)
Theorem processInbox_calls
  (config : Config) (intelligence : option Intelligence)
  (threads : list Thread) :
  callsOf (fst (processInbox config intelligence threads))
  = flat_map (fun thread =>
                map (pair thread) (processThread config intelligence thread))
             threads.
Proof.
  unfold processInbox. destruct threads as [|t threads]; [reflexivity|].
  pose proof (fold_loopBody_calls config intelligence (t :: threads)
                                  ([], noCounts)) as H.
  destruct (fold_left (loopBody config intelligence) (t :: threads)
                      ([], noCounts)) as [events c].
  cbn [fst] in *. rewrite callsOf_app, H.
  destruct (20 <? processed c)%nat; simpl; now rewrite app_nil_r.
Qed.

Lemma classified_cons
  (config : Config) (intelligence : option Intelligence)
  (thread : Thread) (threads : list Thread) :
  List.length (classified config intelligence (thread :: threads))
  = (List.length (classified config intelligence [thread])
     + List.length (classified config intelligence threads))%nat.
Proof.
  unfold classified. simpl.
  now destruct (classifyThread config intelligence thread).
Qed.

Lemma loopBody_dry
  (config : Config) (intelligence : option Intelligence)
  (state : list InboxEvent * Counters) (thread : Thread) :
  DRY_RUN config = true \/ PREVIEW_MODE config = true ->
  let c := snd (loopBody config intelligence state thread) in
  processed c
  = (processed (snd state)
     + 2 * List.length (classified config intelligence [thread]))%nat
  /\ starred c = starred (snd state)
  /\ labeled c = labeled (snd state)
  /\ archived c = archived (snd state).
Proof.
  intros Hmode. unfold loopBody, classified. simpl.
  destruct (classifyThread config intelligence thread) as [d|e]; simpl;
    [|repeat split; lia].
  unfold countDecision.
  destruct (DRY_RUN config); [simpl; repeat split; lia|].
  destruct (PREVIEW_MODE config); [simpl; repeat split; lia|].
  destruct Hmode; discriminate.
Qed.

Lemma fold_loopBody_dry
  (config : Config) (intelligence : option Intelligence)
  (threads : list Thread) (state : list InboxEvent * Counters) :
  DRY_RUN config = true \/ PREVIEW_MODE config = true ->
  let c := snd (fold_left (loopBody config intelligence) threads state) in
  processed c
  = (processed (snd state)
     + 2 * List.length (classified config intelligence threads))%nat
  /\ starred c = starred (snd state)
  /\ labeled c = labeled (snd state)
  /\ archived c = archived (snd state).
Proof.
  intros Hmode. revert state.
  induction threads as [|t threads IH]; intros state.
  - simpl. repeat split; lia.
  - cbn [fold_left]. rewrite classified_cons.
    destruct (IH (loopBody config intelligence state t))
      as [Hp [Hs [Hl Ha]]].
    destruct (loopBody_dry config intelligence state t Hmode)
      as [Kp [Ks [Kl Ka]]].
    cbv zeta. repeat split; lia.
Qed.

Lemma countProduction_steps
  (config : Config) (intelligence : option Intelligence)
  (thread : Thread) (d : Decision) (c : Counters) :
  classifyThread config intelligence thread = Return d ->
  let c' := countProduction config thread d c in
  processed c' = processed c
  /\ (starred c <= starred c')%nat
  /\ (labeled c <= labeled c')%nat
  /\ (archived c <= archived c')%nat
  /\ (starred c' + labeled c' <= starred c + labeled c + 1)%nat
  /\ (archived c' + labeled c <= archived c + labeled c')%nat.
Proof.
  intros H. unfold countProduction.
  destruct (classifyThread_action _ _ _ _ H) as [Ha | [Ha | Ha]];
    rewrite Ha; simpl.
  - repeat split; lia.
  - repeat split; lia.
  - destruct (hasLabel d); [|repeat split; lia].
    destruct (_ && _); simpl; repeat split; lia.
Qed.

Lemma loopBody_production
  (config : Config) (intelligence : option Intelligence)
  (state : list InboxEvent * Counters) (thread : Thread) :
  DRY_RUN config = false -> PREVIEW_MODE config = false ->
  let c := snd (loopBody config intelligence state thread) in
  let n := List.length (classified config intelligence [thread]) in
  processed c = (processed (snd state) + n)%nat
  /\ (starred (snd state) <= starred c)%nat
  /\ (labeled (snd state) <= labeled c)%nat
  /\ (archived (snd state) <= archived c)%nat
  /\ (starred c + labeled c
      <= starred (snd state) + labeled (snd state) + n)%nat
  /\ (archived c + labeled (snd state)
      <= archived (snd state) + labeled c)%nat.
Proof.
  intros Hdry Hpre. unfold loopBody, classified. simpl.
  destruct (classifyThread config intelligence thread) as [d|e] eqn:H;
    simpl; [|repeat split; lia].
  unfold countDecision. rewrite Hdry, Hpre.
  destruct (countProduction_steps config intelligence thread d (snd state) H)
    as [Kp [Ks [Kl [Ka [Ksl Kal]]]]].
  simpl. repeat split; lia.
Qed.

Lemma fold_loopBody_production
  (config : Config) (intelligence : option Intelligence)
  (threads : list Thread) (state : list InboxEvent * Counters) :
  DRY_RUN config = false -> PREVIEW_MODE config = false ->
  let c := snd (fold_left (loopBody config intelligence) threads state) in
  let n := List.length (classified config intelligence threads) in
  processed c = (processed (snd state) + n)%nat
  /\ (starred (snd state) <= starred c)%nat
  /\ (labeled (snd state) <= labeled c)%nat
  /\ (archived (snd state) <= archived c)%nat
  /\ (starred c + labeled c
      <= starred (snd state) + labeled (snd state) + n)%nat
  /\ (archived c + labeled (snd state)
      <= archived (snd state) + labeled c)%nat.
Proof.
  intros Hdry Hpre. revert state.
  induction threads as [|t threads IH]; intros state.
  - simpl. repeat split; lia.
  - cbn [fold_left]. rewrite classified_cons.
    destruct (IH (loopBody config intelligence state t))
      as [Hp [Hs [Hl [Ha [Hsl Hal]]]]].
    destruct (loopBody_production config intelligence state t Hdry Hpre)
      as [Kp [Ks [Kl [Ka [Ksl Kal]]]]].
    cbv zeta. repeat split; lia.
Qed.

(** X15.  The counters of a run, where [n] threads of the search
    result are classified.  In production mode every classified thread
    is counted once ([processed = n]), a thread is starred or labelled
    but not both ([starred + labeled <= n]), and only labelled threads
    are archived ([archived <= labeled]).  In a dry run or a preview
    every classified thread is counted twice ([processed = 2 n]) and
    nothing is starred, labelled or archived. *)
Theorem processInbox_counters
  (config : Config) (intelligence : option Intelligence)
  (threads : list Thread) :
  let c := snd (processInbox config intelligence threads) in
  let n := List.length (classified config intelligence threads) in
  (DRY_RUN config = true \/ PREVIEW_MODE config = true ->
   processed c = (2 * n)%nat
   /\ starred c = 0%nat /\ labeled c = 0%nat /\ archived c = 0%nat)
  /\ (DRY_RUN config = false -> PREVIEW_MODE config = false ->
      processed c = n
      /\ (starred c + labeled c <= n)%nat
      /\ (archived c <= labeled c)%nat).
Proof.
  unfold processInbox. destruct threads as [|t threads].
  - simpl. repeat split; lia.
  - pose proof (fold_loopBody_dry config intelligence (t :: threads)
                                  ([], noCounts)) as Hd.
    pose proof (fold_loopBody_production config intelligence (t :: threads)
                                         ([], noCounts)) as Hp.
    destruct (fold_left (loopBody config intelligence) (t :: threads)
                        ([], noCounts)) as [events c].
    cbv zeta in *. unfold noCounts in *.
    cbn [fst snd processed starred labeled archived] in *. split.
    + intros Hmode. destruct (Hd Hmode) as [H1 [H2 [H3 H4]]].
      repeat split; lia.
    + intros Hdry Hpre.
      destruct (Hp Hdry Hpre) as [H1 [_ [_ [_ [H5 H6]]]]].
      repeat split; lia.
Qed.

Lemma processInbox_counters_witness :
  snd (processInbox (CONFIG dryRunProps) None (newsletters 11))
  = {| processed := 22; starred := 0; labeled := 0; archived := 0 |}
  /\ snd (processInbox (CONFIG noProps) None (newsletters 11))
     = {| processed := 11; starred := 0; labeled := 11; archived := 11 |}
  /\ processed (snd (processInbox (CONFIG dryRunProps) None (newsletters 11)))
     = (2 * List.length
              (classified (CONFIG dryRunProps) None (newsletters 11)))%nat.
Proof.
  split; [vm_compute; reflexivity|]. split; [vm_compute; reflexivity|].
  destruct (processInbox_counters (CONFIG dryRunProps) None (newsletters 11))
    as [Hdry _].
  apply Hdry. left. reflexivity.
Defined.

Lemma loopBody_no_summary
  (config : Config) (intelligence : option Intelligence)
  (state : list InboxEvent * Counters) (thread : Thread) (c : Counters) :
  In (sendSummaryEmail c) (fst (loopBody config intelligence state thread)) ->
  In (sendSummaryEmail c) (fst state).
Proof.
  unfold loopBody.
  destruct (classifyThread config intelligence thread) as [d|e];
    [|tauto].
  cbn [fst]. intros H. apply in_app_or in H. destruct H as [H | H]; [exact H|].
  exfalso. apply in_app_or in H. destruct H as [H | H].
  - apply in_map_iff in H. destruct H as [x [E _]]. discriminate E.
  - destruct (_ =? 0)%nat; simpl in H; intuition discriminate.
Qed.

Lemma fold_loopBody_no_summary
  (config : Config) (intelligence : option Intelligence)
  (threads : list Thread) (state : list InboxEvent * Counters)
  (c : Counters) :
  In (sendSummaryEmail c)
     (fst (fold_left (loopBody config intelligence) threads state)) ->
  In (sendSummaryEmail c) (fst state).
Proof.
  revert state. induction threads as [|t threads IH]; intros state; simpl.
  - tauto.
  - intros H. apply IH in H. now apply loopBody_no_summary in H.
Qed.

(** X16.  The summary e-mail is sent at most once, as the last event
    of the run and with the final counters: what comes before it holds
    no summary.  It is sent exactly when more than 20 threads were
    classified in production mode, and already when more than 10 were
    in a dry run or a preview (which count every thread twice);
    otherwise the run holds no summary at all. *)
Theorem summary_email_threshold
  (config : Config) (intelligence : option Intelligence)
  (threads : list Thread) :
  let run := processInbox config intelligence threads in
  let n := List.length (classified config intelligence threads) in
  exists events,
    (forall c, ~ In (sendSummaryEmail c) events)
    /\ fst run
       = (events
          ++ (if if DRY_RUN config || PREVIEW_MODE config
                 then (10 <? n)%nat else (20 <? n)%nat
              then [sendSummaryEmail (snd run)]
              else []))%list.
Proof.
  unfold processInbox. destruct threads as [|t threads].
  - exists []. split; [intros c []|].
    simpl. now destruct (DRY_RUN config || PREVIEW_MODE config).
  - pose proof (fold_loopBody_dry config intelligence (t :: threads)
                                  ([], noCounts)) as Hd.
    pose proof (fold_loopBody_production config intelligence (t :: threads)
                                         ([], noCounts)) as Hp.
    pose proof (fold_loopBody_no_summary config intelligence (t :: threads)
                                         ([], noCounts)) as Hn.
    destruct (fold_left (loopBody config intelligence) (t :: threads)
                        ([], noCounts)) as [events c].
    cbv zeta in *. unfold noCounts in *.
    cbn [fst snd processed starred labeled archived] in *.
    exists events. split; [intros c' H; exact (Hn c' H)|].
    f_equal.
    assert (E : (20 <? processed c)%nat
                = if DRY_RUN config || PREVIEW_MODE config
                  then (10 <? List.length
                                (classified config intelligence (t :: threads)))%nat
                  else (20 <? List.length
                                (classified config intelligence (t :: threads)))%nat).
    { destruct (DRY_RUN config) eqn:Hdry.
      - destruct Hd as [H1 _]; [now left|]. cbn [orb].
        destruct (Nat.ltb_spec 20 (processed c));
          destruct (Nat.ltb_spec
                      10 (List.length
                            (classified config intelligence (t :: threads))));
          try reflexivity; lia.
      - destruct (PREVIEW_MODE config) eqn:Hpre.
        + destruct Hd as [H1 _]; [now right|]. cbn [orb].
          destruct (Nat.ltb_spec 20 (processed c));
            destruct (Nat.ltb_spec
                        10 (List.length
                              (classified config intelligence (t :: threads))));
            try reflexivity; lia.
        + destruct (Hp eq_refl eq_refl) as [H1 _]. cbn [orb].
          now rewrite H1. }
    now rewrite E.
Qed.

Lemma summary_email_threshold_witness :
  let dry := processInbox (CONFIG dryRunProps) None (newsletters 11) in
  let production := processInbox (CONFIG noProps) None (newsletters 11) in
  (exists events,
      (forall c, ~ In (sendSummaryEmail c) events)
      /\ fst dry
         = (events
            ++ [sendSummaryEmail {| processed := 22; starred := 0;
                                    labeled := 0; archived := 0 |}])%list)
  /\ (forall c, ~ In (sendSummaryEmail c) (fst production)).
Proof.
  intros dry production.
  destruct (summary_email_threshold (CONFIG dryRunProps) None (newsletters 11))
    as [events [Hno Hdry]].
  destruct (summary_email_threshold (CONFIG noProps) None (newsletters 11))
    as [events' [Hno' Hprod]].
  split.
  - exists events. split; [exact Hno | exact Hdry].
  - intros c H. apply (Hno' c).
    change (fst production = (events' ++ [])%list) in Hprod.
    rewrite app_nil_r in Hprod. now rewrite <- Hprod.
Defined.

(** ** Removing the preview labels *)

(** X17.  [clearPreviewLabels] deletes exactly the labels whose name
    starts with "_Triage/PREVIEW" and reports how many; this covers
    every label the preview mode adds for a decision, and leaves
    "_Triage/Processed" and the labels of production mode whose names
    do not start that way. *)
Theorem clearPreviewLabels_clears_preview (labels : list string) :
  (forall name,
      In name (fst (clearPreviewLabels labels))
      <-> In name labels /\ prefix "_Triage/PREVIEW" name = false)
  /\ (List.length (fst (clearPreviewLabels labels))
      + snd (clearPreviewLabels labels) = List.length labels)%nat
  /\ (forall d name,
         In name (labelNames (previewCalls d)) ->
         ~ In name (fst (clearPreviewLabels labels)))
  /\ (In "_Triage/Processed" labels ->
      In "_Triage/Processed" (fst (clearPreviewLabels labels))).
Proof.
  unfold clearPreviewLabels, clearLabels. cbn [fst snd].
  split; [|split; [|split]].
  - intros name. rewrite filter_In, negb_true_iff. tauto.
  - induction labels as [|x labels IH]; [reflexivity|].
    simpl. destruct (prefix "_Triage/PREVIEW" x); simpl; lia.
  - intros d name Hin Hleft. apply filter_In in Hleft.
    destruct Hleft as [_ Hp]. apply negb_true_iff in Hp.
    unfold previewCalls in Hin. simpl in Hin.
    destruct Hin as [<- | Hin]; [discriminate Hp|].
    destruct (hasLabel d); simpl in Hin; [|contradiction].
    destruct Hin as [<- | []]. discriminate Hp.
  - intros H. apply filter_In. split; [exact H | reflexivity].
Qed.

Lemma clearPreviewLabels_clears_preview_witness :
  clearPreviewLabels ["VIP"; "_Triage/PREVIEW-label";
                      "_Triage/PREVIEW-Newsletters"; "_Triage/Processed"]
  = (["VIP"; "_Triage/Processed"], 2%nat)
  /\ In "_Triage/Processed"
        (fst (clearPreviewLabels
                ["VIP"; "_Triage/PREVIEW-label";
                 "_Triage/PREVIEW-Newsletters"; "_Triage/Processed"])).
Proof.
  split; [reflexivity|].
  destruct (clearPreviewLabels_clears_preview
              ["VIP"; "_Triage/PREVIEW-label";
               "_Triage/PREVIEW-Newsletters"; "_Triage/Processed"])
    as [_ [_ [_ Hkeep]]].
  apply Hkeep. simpl. auto.
Defined.

(** ** The lists of the configuration *)

Lemma split_pieces (s e : string) :
  In e (split "," s) -> allChars (isNot ",") e = true.
Proof.
  revert e. induction s as [|c s IH]; intros e; simpl.
  - intros [<- | []]. reflexivity.
  - destruct (Ascii.eqb c ",") eqn:Ec.
    + intros [<- | H]; [reflexivity | now apply IH].
    + destruct (split "," s) as [|piece pieces] eqn:Es.
      * intros [<- | []]. simpl. unfold isNot. now rewrite Ec.
      * intros [<- | H].
        -- simpl. unfold isNot at 1. rewrite Ec. simpl.
           apply IH. now left.
        -- apply IH. now right.
Qed.

Lemma split_plain (x : string) :
  allChars (isNot ",") x = true -> split "," x = [x].
Proof.
  induction x as [|c x IH]; [reflexivity|].
  simpl. intros H. apply andb_true_iff in H. destruct H as [Hc Hx].
  unfold isNot in Hc. apply negb_true_iff in Hc.
  now rewrite Hc, (IH Hx).
Qed.

Lemma split_append (x rest : string) :
  allChars (isNot ",") x = true ->
  split "," (x ++ "," ++ rest) = x :: split "," rest.
Proof.
  induction x as [|c x IH]; [reflexivity|].
  simpl. intros H. apply andb_true_iff in H. destruct H as [Hc Hx].
  unfold isNot in Hc. apply negb_true_iff in Hc.
  rewrite Hc. simpl in IH. now rewrite (IH Hx).
Qed.

Lemma split_concat (l : list string) :
  l <> [] ->
  (forall e, In e l -> allChars (isNot ",") e = true) ->
  split "," (concat "," l) = l.
Proof.
  induction l as [|x l IH]; [contradiction|].
  intros _ Hall. destruct l as [|y l].
  - simpl. apply split_plain. apply Hall. now left.
  - change (concat "," (x :: y :: l)) with (x ++ "," ++ concat "," (y :: l)).
    rewrite split_append by (apply Hall; now left).
    f_equal. apply IH; [discriminate|].
    intros e He. apply Hall. now right.
Qed.

Lemma truthy_trim_nonempty (e : string) : truthy (trim e) = true -> e <> "".
Proof. intros H ->. discriminate H. Qed.

(** X18.  Every entry of a configured list is a piece of the property
    between commas, kept as written: it has no comma and is not blank.
    A property written as non-blank, comma-free entries joined by
    commas is read back as exactly those entries; an unset or empty
    property gives the default list. *)
Theorem listProperty_round_trip (fallback : string) :
  (forall value e,
      In e (listProperty value fallback) ->
      allChars (isNot ",") e = true /\ truthy (trim e) = true)
  /\ (forall l,
         l <> [] ->
         (forall e, In e l ->
                    allChars (isNot ",") e = true /\ truthy (trim e) = true) ->
         listProperty (Some (concat "," l)) fallback = l)
  /\ listProperty (Some "") fallback = listProperty None fallback.
Proof.
  split; [|split].
  - intros value e H. unfold listProperty in H. apply filter_In in H.
    destruct H as [H Ht]. split; [|exact Ht]. now apply split_pieces in H.
  - intros l Hne Hall. unfold listProperty.
    assert (Hs : orElse (Some (concat "," l)) fallback = concat "," l).
    { unfold orElse. destruct l as [|x l]; [contradiction|].
      assert (Hx : x <> "")
        by (apply truthy_trim_nonempty, (Hall x); now left).
      destruct x as [|c x]; [contradiction|].
      destruct l; reflexivity. }
    rewrite Hs, split_concat; [|exact Hne | intros e He; now apply Hall].
    clear Hs Hne. induction l as [|x l IH]; [reflexivity|].
    simpl. rewrite (proj2 (Hall x (or_introl eq_refl))). f_equal.
    apply IH. intros e He. apply Hall. now right.
  - reflexivity.
Qed.

Lemma listProperty_round_trip_witness :
  listProperty (Some (concat "," ["boss@corp.example"; " Dean@Alaska.edu "]))
               "provost@alaska.edu"
  = ["boss@corp.example"; " Dean@Alaska.edu "].
Proof.
  destruct (listProperty_round_trip "provost@alaska.edu") as [_ [Hback _]].
  apply Hback; [discriminate|].
  intros e [<- | [<- | []]]; split; reflexivity.
Defined.

(** ** The sheets behind the bundle *)

Example _processSenderSheet_ex :
  _processSenderSheet (Some sendersSheet)
  = Done [("boss@mail.example",
           {| senderCount := 3; avgLabels := 0; importance := "normal" |});
          ("bob@mail.example",
           {| senderCount := 10; avgLabels := 2; importance := "normal" |})].
Proof. reflexivity. Qed.

Example _processKeywordSheet_ex :
  option_map profileEntries
    (match _processKeywordSheet (Some keywordsSheet) with
     | Done o => Some o
     | _ => None
     end)
  = Some [("2024", {| keywordCount := 40; commonLabel := "Archive";
                      weight := Qmin (40 / 100) 1 |});
          ("budget", {| keywordCount := 250; commonLabel := "Finance";
                        weight := Qmin (250 / 100) 1 |});
          ("lunch", {| keywordCount := 0; commonLabel := "Social";
                       weight := Qmin (0 / 100) 1 |})].
Proof. reflexivity. Qed.

Example _processKeywordSheet_number_keyword :
  _processKeywordSheet
    (Some {| headerRow := headerRow keywordsSheet;
             dataRows := [[numberCell 2024; numberCell 40;
                           textCell "Archive"]] |})
  = Raised TypeError
  /\ forall cachePut,
       load cachePut (Some sendersSheet)
            (Some {| headerRow := headerRow keywordsSheet;
                     dataRows := [[numberCell 2024; numberCell 40;
                                   textCell "Archive"]] |})
       = Done None.
Proof. split; [reflexivity | intros []; reflexivity]. Qed.

Lemma firstn_min_length {A : Type} (l : list A) (n : nat) :
  firstn (Nat.min (List.length l) n) l = firstn n l.
Proof.
  destruct (Nat.le_ge_cases n (List.length l)) as [H | H].
  - now rewrite Nat.min_r.
  - rewrite Nat.min_l by exact H.
    now rewrite firstn_all, firstn_all2.
Qed.

Lemma visitedRows_firstn (cap : nat) (sheet : Sheet) :
  visitedRows (S cap) sheet = firstn cap (dataRows sheet).
Proof.
  unfold visitedRows.
  replace (Nat.min (S (List.length (dataRows sheet))) (S cap) - 1)%nat
    with (Nat.min (List.length (dataRows sheet)) cap) by lia.
  apply firstn_min_length.
Qed.

Lemma length_putProfile {A : Type} (o : list (string * A)) (k : string) (a : A) :
  (List.length (putProfile o k a) <= S (List.length o))%nat.
Proof.
  unfold putProfile. destruct (k =? "__proto__"); [lia|].
  induction o as [|[k' a'] o IH]; simpl; [lia|].
  destruct (k' =? k); simpl; lia.
Qed.

Lemma senderRow_not_done (si ci ai : option nat) (rows : list Row)
  (start : Outcome (list (string * SenderProfile))) :
  (forall o, start <> Done o) ->
  fold_left (senderRow si ci ai) rows start = start.
Proof.
  intros H. induction rows as [|row rows IH]; [reflexivity|].
  simpl. destruct start as [o| |]; [now destruct (H o) | exact IH | exact IH].
Qed.

Lemma keywordRow_not_done (ki ci li : option nat) (rows : list Row)
  (start : Outcome (list (string * KeywordProfile))) :
  (forall o, start <> Done o) ->
  fold_left (keywordRow ki ci li) rows start = start.
Proof.
  intros H. induction rows as [|row rows IH]; [reflexivity|].
  simpl. destruct start as [o| |]; [now destruct (H o) | exact IH | exact IH].
Qed.

Lemma senderRow_length (si ci ai : option nat)
  (o o' : list (string * SenderProfile)) (row : Row) :
  senderRow si ci ai (Done o) row = Done o' ->
  (List.length o' <= S (List.length o))%nat.
Proof.
  unfold senderRow, andThen.
  destruct (negb (truthyCell (cellAt row si))); [intros [= <-]; lia|].
  destruct (cellAt row si) as [[sender|]|]; try discriminate.
  destruct (cellOrZero (cellAt row ci)); try discriminate.
  destruct (cellOrZero (cellAt row ai)); try discriminate.
  destruct (importanceOf (cellAt row ci)); try discriminate.
  intros [= <-]. apply length_putProfile.
Qed.

Lemma keywordRow_length (ki ci li : option nat)
  (o o' : list (string * KeywordProfile)) (row : Row) :
  keywordRow ki ci li (Done o) row = Done o' ->
  (List.length o' <= S (List.length o))%nat.
Proof.
  unfold keywordRow, andThen.
  destruct (negb (truthyCell (cellAt row ki))); [intros [= <-]; lia|].
  destruct (cellAt row ki) as [[keyword|]|]; try discriminate.
  destruct (cellOrZero (cellAt row ci)); try discriminate.
  destruct (cellOrEmpty (cellAt row li)); try discriminate.
  destruct (weightOf (cellAt row ci)); try discriminate.
  intros [= <-]. apply length_putProfile.
Qed.

Lemma fold_senderRow_length (si ci ai : option nat) (rows : list Row)
  (o o' : list (string * SenderProfile)) :
  fold_left (senderRow si ci ai) rows (Done o) = Done o' ->
  (List.length o' <= List.length o + List.length rows)%nat.
Proof.
  revert o. induction rows as [|row rows IH]; intros o; cbn [fold_left].
  - intros [= <-]. simpl. lia.
  - simpl List.length. destruct (senderRow si ci ai (Done o) row) as [o1| |] eqn:E.
    + intros H. apply IH in H. apply senderRow_length in E. lia.
    + rewrite senderRow_not_done by discriminate. discriminate.
    + rewrite senderRow_not_done by discriminate. discriminate.
Qed.

Lemma fold_keywordRow_length (ki ci li : option nat) (rows : list Row)
  (o o' : list (string * KeywordProfile)) :
  fold_left (keywordRow ki ci li) rows (Done o) = Done o' ->
  (List.length o' <= List.length o + List.length rows)%nat.
Proof.
  revert o. induction rows as [|row rows IH]; intros o; cbn [fold_left].
  - intros [= <-]. simpl. lia.
  - simpl List.length. destruct (keywordRow ki ci li (Done o) row) as [o1| |] eqn:E.
    + intros H. apply IH in H. apply keywordRow_length in E. lia.
    + rewrite keywordRow_not_done by discriminate. discriminate.
    + rewrite keywordRow_not_done by discriminate. discriminate.
Qed.

(** X19.  Only the first 499 data rows of the Senders sheet and the
    first 199 data rows of the Keywords sheet are read: rows below
    them change nothing, and the maps have at most 499 and 199
    entries. *)
Theorem sheet_row_caps (sheet : Sheet) :
  _processSenderSheet (Some sheet)
  = _processSenderSheet
      (Some {| headerRow := headerRow sheet;
               dataRows := firstn 499 (dataRows sheet) |})
  /\ _processKeywordSheet (Some sheet)
     = _processKeywordSheet
         (Some {| headerRow := headerRow sheet;
                  dataRows := firstn 199 (dataRows sheet) |})
  /\ (forall o, _processSenderSheet (Some sheet) = Done o ->
                (List.length o <= 499)%nat)
  /\ (forall o, _processKeywordSheet (Some sheet) = Done o ->
                (List.length o <= 199)%nat).
Proof.
  unfold _processSenderSheet, _processKeywordSheet.
  change 500%nat with (S 499). change 200%nat with (S 199).
  rewrite !visitedRows_firstn. cbn [headerRow dataRows].
  rewrite !firstn_firstn, !Nat.min_id.
  split; [reflexivity|]. split; [reflexivity|]. split.
  - intros o H. apply fold_senderRow_length in H.
    pose proof (firstn_le_length 499 (dataRows sheet)) as K.
    cbn [List.length Nat.add] in H. lia.
  - intros o H. apply fold_keywordRow_length in H.
    pose proof (firstn_le_length 199 (dataRows sheet)) as K.
    cbn [List.length Nat.add] in H. lia.
Qed.

Lemma sheet_row_caps_witness :
  _processSenderSheet (Some longSheet)
  = Done [("bob@mail.example",
           {| senderCount := 1; avgLabels := 0; importance := "normal" |})]
  /\ (List.length [("bob@mail.example",
                    {| senderCount := 1; avgLabels := 0;
                       importance := "normal" |})] <= 499)%nat.
Proof.
  assert (H : _processSenderSheet (Some longSheet)
              = Done [("bob@mail.example",
                       {| senderCount := 1; avgLabels := 0;
                          importance := "normal" |})])
    by (vm_compute; reflexivity).
  split; [exact H|].
  destruct (sheet_row_caps longSheet) as [_ [_ [Hcap _]]].
  exact (Hcap _ H).
Defined.

Lemma fold_senderRow_no_key (ci ai : option nat) (rows : list Row)
  (o : list (string * SenderProfile)) :
  fold_left (senderRow None ci ai) rows (Done o) = Done o.
Proof. induction rows as [|row rows IH]; [reflexivity | exact IH]. Qed.

Lemma fold_keywordRow_no_key (ci li : option nat) (rows : list Row)
  (o : list (string * KeywordProfile)) :
  fold_left (keywordRow None ci li) rows (Done o) = Done o.
Proof. induction rows as [|row rows IH]; [reflexivity | exact IH]. Qed.

(** X20.  A sheet that is missing, or whose header row has no
    "Sender" (or "Keyword") column, gives the empty map whatever its
    rows hold; [load] then still returns a bundle with both maps
    (where the cache does not take the value, it returns [null]). *)
Theorem sheet_without_key_column (sheet : Sheet) :
  (indexOf "Sender" (headerRow sheet) = None ->
   _processSenderSheet (Some sheet) = Done []
   /\ _processSenderSheet (Some sheet) = _processSenderSheet None)
  /\ (indexOf "Keyword" (headerRow sheet) = None ->
      _processKeywordSheet (Some sheet) = Done []
      /\ _processKeywordSheet (Some sheet) = _processKeywordSheet None)
  /\ load true None None
     = Done (Some {| senderProfiles := Some [];
                     keywordProfiles := Some [] |})
  /\ load false None None = Done None.
Proof.
  split; [|split; [|split; reflexivity]].
  - intros H. unfold _processSenderSheet. rewrite H.
    now rewrite fold_senderRow_no_key.
  - intros H. unfold _processKeywordSheet. rewrite H.
    now rewrite fold_keywordRow_no_key.
Qed.

Lemma sheet_without_key_column_witness :
  let sheet := {| headerRow := [textCell "From"; textCell "Count"];
                  dataRows := [[textCell "bob@mail.example"; numberCell 42]] |} in
  indexOf "Sender" (headerRow sheet) = None
  /\ _processSenderSheet (Some sheet) = Done [].
Proof.
  intros sheet.
  assert (H : indexOf "Sender" (headerRow sheet) = None) by reflexivity.
  split; [exact H|].
  destruct (sheet_without_key_column sheet) as [Hs _].
  exact (proj1 (Hs H)).
Defined.

(** ** What a profile built from a sheet looks like *)

Lemma In_putOwn {A : Type} (o : list (string * A)) (k : string) (a : A)
  (e : string * A) :
  In e (putOwn o k a) -> e = (k, a) \/ In e o.
Proof.
  induction o as [|[k' a'] o IH]; simpl.
  - intros [<- | []]. now left.
  - destruct (k' =? k) eqn:E.
    + apply String.eqb_eq in E. subst k'. simpl.
      intros [<- | H]; auto.
    + simpl. intros [H | H]; auto. destruct (IH H); auto.
Qed.

Lemma In_putProfile {A : Type} (o : list (string * A)) (k : string) (a : A)
  (e : string * A) :
  In e (putProfile o k a) ->
  (e = (k, a) /\ k <> "__proto__") \/ In e o.
Proof.
  unfold putProfile. destruct (k =? "__proto__") eqn:E; [auto|].
  apply String.eqb_neq in E. intros H. apply In_putOwn in H.
  destruct H; auto.
Qed.

Lemma senderRow_ok (si ci ai : option nat)
  (o o' : list (string * SenderProfile)) (row : Row) :
  Forall senderProfileOk o ->
  senderRow si ci ai (Done o) row = Done o' ->
  Forall senderProfileOk o'.
Proof.
  intros Hall. unfold senderRow, andThen.
  destruct (negb (truthyCell (cellAt row si))) eqn:Ht;
    [intros [= <-]; exact Hall|].
  destruct (cellAt row si) as [[sender|]|]; try discriminate.
  apply negb_false_iff in Ht. simpl in Ht.
  destruct (cellOrZero (cellAt row ci)) as [count| |] eqn:Ec;
    try discriminate.
  destruct (cellOrZero (cellAt row ai)) as [avg| |]; try discriminate.
  destruct (importanceOf (cellAt row ci)) as [imp| |] eqn:Ei;
    try discriminate.
  intros [= <-]. apply Forall_forall. intros e He.
  apply In_putProfile in He. destruct He as [[-> Hk] | He];
    [|revert e He; now apply Forall_forall].
  unfold senderProfileOk. simpl. split; [|split; [exact Hk|]].
  - intros ->. discriminate Ht.
  - destruct (cellAt row ci) as [[s|q]|]; simpl in Ec, Ei.
    + destruct (truthy s); [discriminate|].
      injection Ec as <-. injection Ei as <-. right. split; [reflexivity|].
      discriminate.
    + injection Ec as <-. injection Ei as <-.
      destruct (gtb q 10) eqn:G.
      * left. split; [reflexivity|]. apply gtb_true_iff in G.
        destruct (Qeq_bool q 0) eqn:Z; [|exact G].
        apply Qeq_bool_iff in Z. lra.
      * right. split; [reflexivity|].
        apply not_true_iff_false in G. rewrite gtb_true_iff in G.
        apply Qnot_lt_le in G.
        destruct (Qeq_bool q 0); [discriminate | exact G].
    + injection Ec as <-. injection Ei as <-. right. split; [reflexivity|].
      discriminate.
Qed.

Lemma keywordRow_ok (ki ci li : option nat)
  (o o' : list (string * KeywordProfile)) (row : Row) :
  Forall keywordProfileOk o ->
  keywordRow ki ci li (Done o) row = Done o' ->
  Forall keywordProfileOk o'.
Proof.
  intros Hall. unfold keywordRow, andThen.
  destruct (negb (truthyCell (cellAt row ki))) eqn:Ht;
    [intros [= <-]; exact Hall|].
  destruct (cellAt row ki) as [[keyword|]|]; try discriminate.
  apply negb_false_iff in Ht. simpl in Ht.
  destruct (cellOrZero (cellAt row ci)) as [count| |] eqn:Ec;
    try discriminate.
  destruct (cellOrEmpty (cellAt row li)) as [l| |]; try discriminate.
  destruct (weightOf (cellAt row ci)) as [w| |] eqn:Ew; try discriminate.
  intros [= <-]. apply Forall_forall. intros e He.
  apply In_putProfile in He. destruct He as [[-> Hk] | He];
    [|revert e He; now apply Forall_forall].
  unfold keywordProfileOk. simpl.
  split; [|split; [exact Hk | split; [apply toLowerCase_idem|]]].
  - intros E. destruct keyword; [discriminate Ht | discriminate E].
  - destruct (cellAt row ci) as [[s|q]|]; simpl in Ec, Ew.
    + destruct (truthy s); [discriminate|].
      injection Ec as <-. injection Ew as <-. reflexivity.
    + injection Ec as <-. injection Ew as <-.
      destruct (Qeq_bool q 0) eqn:Z; [|reflexivity].
      apply Qeq_bool_iff in Z.
      assert (E : q / 100 == 0 / 100) by (rewrite Z; reflexivity).
      rewrite (Q.min_l (q / 100) 1) by (rewrite E; discriminate).
      rewrite (Q.min_l (0 / 100) 1) by discriminate.
      exact E.
    + discriminate.
Qed.

Lemma fold_senderRow_ok (si ci ai : option nat) (rows : list Row)
  (o o' : list (string * SenderProfile)) :
  Forall senderProfileOk o ->
  fold_left (senderRow si ci ai) rows (Done o) = Done o' ->
  Forall senderProfileOk o'.
Proof.
  revert o. induction rows as [|row rows IH]; intros o Hall;
    cbn [fold_left].
  - now intros [= <-].
  - destruct (senderRow si ci ai (Done o) row) as [o1| |] eqn:E.
    + apply IH. exact (senderRow_ok _ _ _ _ _ _ Hall E).
    + rewrite senderRow_not_done by discriminate. discriminate.
    + rewrite senderRow_not_done by discriminate. discriminate.
Qed.

Lemma fold_keywordRow_ok (ki ci li : option nat) (rows : list Row)
  (o o' : list (string * KeywordProfile)) :
  Forall keywordProfileOk o ->
  fold_left (keywordRow ki ci li) rows (Done o) = Done o' ->
  Forall keywordProfileOk o'.
Proof.
  revert o. induction rows as [|row rows IH]; intros o Hall;
    cbn [fold_left].
  - now intros [= <-].
  - destruct (keywordRow ki ci li (Done o) row) as [o1| |] eqn:E.
    + apply IH. exact (keywordRow_ok _ _ _ _ _ _ Hall E).
    + rewrite keywordRow_not_done by discriminate. discriminate.
    + rewrite keywordRow_not_done by discriminate. discriminate.
Qed.

Lemma In_insertByIndex {A : Type} (e x : N * (string * A))
                       (l : list (N * (string * A))) :
  In e (insertByIndex x l) -> e = x \/ In e l.
Proof.
  induction l as [|y l IH]; simpl.
  - intros [<- | []]. now left.
  - destruct (fst x <=? fst y)%N; simpl.
    + intros [<- | H]; auto.
    + intros [<- | H]; auto. destruct (IH H); auto.
Qed.

Lemma In_indexedProfiles {A : Type} (o : list (string * A)) (n : N)
                         (e : string * A) :
  In (n, e) (indexedProfiles o) -> In e o.
Proof.
  induction o as [|[k a] o IH]; simpl; [tauto|].
  destruct (arrayIndex k).
  - intros H. apply In_insertByIndex in H.
    destruct H as [[= _ <-] | H]; auto.
  - auto.
Qed.

Lemma In_profileEntries {A : Type} (o : list (string * A)) (e : string * A) :
  In e (profileEntries o) -> In e o.
Proof.
  unfold profileEntries. intros H. apply in_app_or in H.
  destruct H as [H | H].
  - apply in_map_iff in H. destruct H as [[n e'] [<- H]].
    now apply In_indexedProfiles in H.
  - now apply filter_In in H.
Qed.

Lemma Forall_profileEntries {A : Type} (P : string * A -> Prop)
                            (o : list (string * A)) :
  Forall P o -> Forall P (profileEntries o).
Proof.
  rewrite !Forall_forall. intros H e He. apply H.
  now apply In_profileEntries.
Qed.

(** What [load] returns, when it returns a bundle. *)
Lemma load_bundle (cachePut : bool) (senders keywords : option Sheet)
                  (intel : Intelligence) :
  load cachePut senders keywords = Done (Some intel) ->
  cachePut = true
  /\ exists sp kp,
       _processSenderSheet senders = Done sp
       /\ _processKeywordSheet keywords = Done kp
       /\ intel = {| senderProfiles := Some (profileEntries sp);
                     keywordProfiles := Some (profileEntries kp) |}.
Proof.
  unfold load, andThen.
  destruct (_processSenderSheet senders) as [sp| |]; try discriminate.
  destruct (_processKeywordSheet keywords) as [kp| |]; try discriminate.
  destruct cachePut; [|discriminate].
  intros [= <-]. split; [reflexivity|]. now exists sp, kp.
Qed.

(** X22.  [classifyThread] does not throw on what [load] returns: be
    it a bundle or [null] (a sheet or the cache threw), every thread
    gets a decision under every configuration. *)
Theorem classifyThread_on_loaded_bundle
  (cachePut : bool) (senders keywords : option Sheet)
  (bundle : option Intelligence) (config : Config) (thread : Thread) :
  load cachePut senders keywords = Done bundle ->
  exists d, classifyThread config bundle thread = Return d.
Proof.
  intros H. apply classifyThread_returns. intros intel ->.
  apply load_bundle in H. destruct H as [_ [sp [kp [_ [_ ->]]]]].
  discriminate.
Qed.

Lemma classifyThread_on_loaded_bundle_witness :
  exists bundle d,
    load true (Some sendersSheet) (Some keywordsSheet) = Done bundle
    /\ classifyThread (CONFIG noProps) bundle
                      (thread_of "bob@mail.example" "Budget 2024" "")
       = Return d
    /\ label d = Some "Finance".
Proof.
  eexists.
  destruct (classifyThread_on_loaded_bundle
              true (Some sendersSheet) (Some keywordsSheet) _ (CONFIG noProps)
              (thread_of "bob@mail.example" "Budget 2024" "") eq_refl)
    as [d Hd].
  exists d. split; [reflexivity|]. split; [exact Hd|].
  vm_compute in Hd. injection Hd as <-. reflexivity.
Defined.

(** ** Sheets whose cells have the type of their column *)

Lemma In_firstn_In {A : Type} (n : nat) (l : list A) (x : A) :
  In x (firstn n l) -> In x l.
Proof.
  revert l. induction n as [|n IH]; intros [|y l]; simpl; try tauto.
  intros [<- | H]; auto.
Qed.

Lemma cellOrZero_number (cell : option Cell) :
  numberOrBlank cell -> exists q, cellOrZero cell = Done q.
Proof.
  destruct cell as [[s|q]|]; simpl; eauto. intros ->. simpl. eauto.
Qed.

Lemma senderRow_typed (si ci ai : option nat)
  (o : list (string * SenderProfile)) (row : Row) :
  textOrBlank (cellAt row si) ->
  numberOrBlank (cellAt row ci) ->
  numberOrBlank (cellAt row ai) ->
  exists o', senderRow si ci ai (Done o) row = Done o'.
Proof.
  intros Hs Hc Ha. unfold senderRow, andThen.
  destruct (negb (truthyCell (cellAt row si))) eqn:Ht; [eauto|].
  destruct (cellAt row si) as [[sender|q]|]; simpl in Hs;
    [|contradiction|discriminate Ht].
  destruct (cellOrZero_number _ Hc) as [count ->].
  destruct (cellOrZero_number _ Ha) as [avg ->].
  destruct (cellAt row ci) as [[s|q]|]; simpl in *; eauto.
  subst s. simpl. eauto.
Qed.

Lemma keywordRow_typed (ki ci li : option nat)
  (o : list (string * KeywordProfile)) (row : Row) :
  textOrBlank (cellAt row ki) ->
  (exists cell, cellAt row ci = Some cell /\ numberOrBlank (Some cell)) ->
  textOrBlank (cellAt row li) ->
  truthyCell (cellAt row ki) = true ->
  exists o', keywordRow ki ci li (Done o) row = Done o'.
Proof.
  intros Hk [cell [Hc Hn]] Hl Ht. unfold keywordRow, andThen.
  rewrite Ht. simpl.
  destruct (cellAt row ki) as [[keyword|q]|]; simpl in Hk;
    [|contradiction|discriminate Ht].
  rewrite Hc.
  destruct (cellAt row li) as [[l|q]|]; simpl in Hl; try contradiction;
    destruct cell as [s|q]; simpl in *; subst; simpl; eauto.
Qed.

Lemma fold_senderRow_typed (si ci ai : option nat) (rows : list Row)
  (o : list (string * SenderProfile)) :
  (forall row, In row rows ->
               textOrBlank (cellAt row si)
               /\ numberOrBlank (cellAt row ci)
               /\ numberOrBlank (cellAt row ai)) ->
  exists o', fold_left (senderRow si ci ai) rows (Done o) = Done o'.
Proof.
  revert o. induction rows as [|row rows IH]; intros o H; cbn [fold_left].
  - eauto.
  - destruct (H row (or_introl eq_refl)) as [Hs [Hc Ha]].
    destruct (senderRow_typed si ci ai o row Hs Hc Ha) as [o1 ->].
    apply IH. intros r Hr. apply H. now right.
Qed.

Lemma fold_keywordRow_typed (ki ci li : option nat) (rows : list Row)
  (o : list (string * KeywordProfile)) :
  (forall row, In row rows ->
               textOrBlank (cellAt row ki)
               /\ (exists cell, cellAt row ci = Some cell
                                /\ numberOrBlank (Some cell))
               /\ textOrBlank (cellAt row li)) ->
  exists o', fold_left (keywordRow ki ci li) rows (Done o) = Done o'.
Proof.
  revert o. induction rows as [|row rows IH]; intros o H; cbn [fold_left].
  - eauto.
  - destruct (H row (or_introl eq_refl)) as [Hk [Hc Hl]].
    assert (E : exists o1, keywordRow ki ci li (Done o) row = Done o1).
    { destruct (truthyCell (cellAt row ki)) eqn:Ht.
      - now apply keywordRow_typed.
      - unfold keywordRow, andThen. rewrite Ht. simpl. eauto. }
    destruct E as [o1 ->].
    apply IH. intros r Hr. apply H. now right.
Qed.

(** On such sheets neither loop throws, and neither leaves the
    embedding. *)
Lemma typed_sheets_done (senders keywords : Sheet) :
  senderSheetTyped senders ->
  keywordSheetTyped keywords ->
  exists sp kp,
    _processSenderSheet (Some senders) = Done sp
    /\ _processKeywordSheet (Some keywords) = Done kp.
Proof.
  intros Hs [_ Hk].
  assert (Es : exists sp, _processSenderSheet (Some senders) = Done sp).
  { unfold _processSenderSheet. apply fold_senderRow_typed.
    intros row Hrow. apply Hs. unfold visitedRows in Hrow.
    now apply In_firstn_In in Hrow. }
  assert (Ek : exists kp, _processKeywordSheet (Some keywords) = Done kp).
  { unfold _processKeywordSheet. apply fold_keywordRow_typed.
    intros row Hrow. apply Hk. unfold visitedRows in Hrow.
    now apply In_firstn_In in Hrow. }
  destruct Es as [sp Es]. destruct Ek as [kp Ek]. now exists sp, kp.
Qed.

Lemma sendersSheet_typed : senderSheetTyped sendersSheet.
Proof.
  intros row Hrow. simpl in Hrow.
  repeat (destruct Hrow as [<- | Hrow]; [simpl; intuition|]).
  contradiction.
Qed.

Lemma keywordsSheet_typed : keywordSheetTyped keywordsSheet.
Proof.
  split; [discriminate|]. intros row Hrow. simpl in Hrow.
  repeat (destruct Hrow as [<- | Hrow];
          [simpl; repeat split; try (eexists; split; [reflexivity|]);
           simpl; auto|]).
  contradiction.
Qed.

(** X21.  From a Senders sheet and a Keywords sheet whose cells have
    the type of their column (text or blank under the key and label
    headers, a number or blank under the count headers, the Keywords
    sheet having its "Count" column), [load] builds, and returns once
    the cache has taken it, a bundle in which every sender profile has
    a key that is neither empty nor [__proto__], and importance "high"
    exactly when its count exceeds 10 ("normal" otherwise); every
    keyword profile has such a key in lower case, and its weight is its
    count over 100, capped at 1. *)
Theorem loaded_profiles_ok (senders keywords : Sheet) :
  senderSheetTyped senders ->
  keywordSheetTyped keywords ->
  exists sp kp,
    load true (Some senders) (Some keywords)
    = Done (Some {| senderProfiles := Some sp; keywordProfiles := Some kp |})
    /\ Forall senderProfileOk sp
    /\ Forall keywordProfileOk kp.
Proof.
  intros Hs Hk.
  destruct (typed_sheets_done senders keywords Hs Hk) as [sp [kp [Es Ek]]].
  exists (profileEntries sp), (profileEntries kp). split; [|split].
  - unfold load, andThen. now rewrite Es, Ek.
  - apply Forall_profileEntries.
    exact (fold_senderRow_ok _ _ _ _ _ _ (Forall_nil _) Es).
  - apply Forall_profileEntries.
    exact (fold_keywordRow_ok _ _ _ _ _ _ (Forall_nil _) Ek).
Qed.

Lemma loaded_profiles_ok_witness :
  senderSheetTyped sendersSheet
  /\ keywordSheetTyped keywordsSheet
  /\ exists sp kp,
       load true (Some sendersSheet) (Some keywordsSheet)
       = Done (Some {| senderProfiles := Some sp;
                       keywordProfiles := Some kp |})
       /\ Forall senderProfileOk sp
       /\ Forall keywordProfileOk kp.
Proof.
  split; [exact sendersSheet_typed|]. split; [exact keywordsSheet_typed|].
  exact (loaded_profiles_ok sendersSheet keywordsSheet
                            sendersSheet_typed keywordsSheet_typed).
Defined.

(** X23.  On such sheets [load] returns a bundle exactly when
    [cache.put] returns, and [null] when [cache.put] throws: no cell
    makes it throw, and none takes it out of the embedding. *)
Theorem load_typed_sheets (cachePut : bool) (senders keywords : Sheet) :
  senderSheetTyped senders ->
  keywordSheetTyped keywords ->
  exists intel,
    load cachePut (Some senders) (Some keywords)
    = Done (if cachePut then Some intel else None).
Proof.
  intros Hs Hk.
  destruct (typed_sheets_done senders keywords Hs Hk) as [sp [kp [Es Ek]]].
  eexists. unfold load, andThen. rewrite Es, Ek.
  destruct cachePut; reflexivity.
Qed.

Lemma load_typed_sheets_witness :
  senderSheetTyped sendersSheet
  /\ keywordSheetTyped keywordsSheet
  /\ (exists intel,
         load true (Some sendersSheet) (Some keywordsSheet)
         = Done (Some intel))
  /\ load false (Some sendersSheet) (Some keywordsSheet) = Done None.
Proof.
  split; [exact sendersSheet_typed|]. split; [exact keywordsSheet_typed|].
  split.
  - exact (load_typed_sheets true sendersSheet keywordsSheet
                             sendersSheet_typed keywordsSheet_typed).
  - destruct (load_typed_sheets false sendersSheet keywordsSheet
                                sendersSheet_typed keywordsSheet_typed)
      as [intel H].
    exact H.
Defined.

(** ** Reading a profile back *)

Lemma lookup_app {A : Type} (l1 l2 : list (string * A)) (k : string) :
  lookup (l1 ++ l2)%list k
  = match lookup l1 k with
    | Some a => Some a
    | None => lookup l2 k
    end.
Proof.
  induction l1 as [|[k' a'] l1 IH]; simpl; [reflexivity|].
  now destruct (k' =? k).
Qed.

Lemma lookup_None_iff {A : Type} (o : list (string * A)) (k : string) :
  lookup o k = None <-> ~ In k (map fst o).
Proof.
  induction o as [|[k' a'] o IH]; simpl; [tauto|].
  destruct (k' =? k) eqn:E.
  - apply String.eqb_eq in E. split; [discriminate | intros H; tauto].
  - apply String.eqb_neq in E. rewrite IH. tauto.
Qed.

Lemma lookup_putOwn {A : Type} (o : list (string * A)) (k k' : string) (a : A) :
  lookup (putOwn o k a) k'
  = if k =? k' then Some a else lookup o k'.
Proof.
  induction o as [|[k0 a0] o IH]; simpl.
  - reflexivity.
  - destruct (k0 =? k) eqn:E0; simpl.
    + apply String.eqb_eq in E0. subst k0. now destruct (k =? k').
    + rewrite IH. destruct (k0 =? k') eqn:E1; [|reflexivity].
      apply String.eqb_eq in E1. subst k0.
      rewrite String.eqb_sym in E0. now rewrite E0.
Qed.

Lemma keys_putOwn {A : Type} (o : list (string * A)) (k : string) (a : A) :
  NoDup (map fst o) -> NoDup (map fst (putOwn o k a)).
Proof.
  induction o as [|[k0 a0] o IH]; simpl; intros H.
  - constructor; [tauto | constructor].
  - destruct (k0 =? k) eqn:E; [exact H|].
    apply String.eqb_neq in E. inversion H as [|? ? Hnot Hrest]; subst.
    simpl. constructor; [|now apply IH].
    intros Hin. apply Hnot. apply in_map_iff in Hin.
    destruct Hin as [[k1 a1] [Hk He]]. simpl in Hk. subst k1.
    apply In_putOwn in He. destruct He as [[= -> _] | He];
      [now destruct E|].
    apply in_map_iff. now exists (k0, a1).
Qed.

Lemma keys_putProfile {A : Type} (o : list (string * A)) (k : string) (a : A) :
  NoDup (map fst o) -> NoDup (map fst (putProfile o k a)).
Proof.
  unfold putProfile. destruct (k =? "__proto__"); [tauto|].
  apply keys_putOwn.
Qed.

Lemma lookup_insertByIndex {A : Type} (n : N) (k0 k : string) (a0 : A)
  (l : list (N * (string * A))) :
  (k0 = k -> lookup (map snd l) k = None) ->
  lookup (map snd (insertByIndex (n, (k0, a0)) l)) k
  = if k0 =? k then Some a0 else lookup (map snd l) k.
Proof.
  induction l as [|[m [k1 a1]] l IH]; intros H; simpl; [reflexivity|].
  destruct (n <=? m)%N; simpl; [reflexivity|].
  destruct (k1 =? k) eqn:E1.
  - destruct (k0 =? k) eqn:E0; [|reflexivity].
    apply String.eqb_eq in E0. specialize (H E0). simpl in H.
    rewrite E1 in H. discriminate.
  - apply IH. intros E. specialize (H E). simpl in H. now rewrite E1 in H.
Qed.

Lemma lookup_indexedProfiles {A : Type} (o : list (string * A)) (k : string) :
  NoDup (map fst o) ->
  lookup (map snd (indexedProfiles o)) k
  = match arrayIndex k with
    | Some _ => lookup o k
    | None => None
    end.
Proof.
  induction o as [|[k0 a0] o IH]; intros H.
  - simpl. now destruct (arrayIndex k).
  - inversion H as [|? ? Hnot Hrest]; subst. specialize (IH Hrest).
    simpl. destruct (arrayIndex k0) as [n0|] eqn:E0.
    + rewrite lookup_insertByIndex.
      * destruct (k0 =? k) eqn:E.
        -- apply String.eqb_eq in E. subst k. now rewrite E0.
        -- exact IH.
      * intros <-. rewrite IH, E0. now apply lookup_None_iff.
    + rewrite IH. destruct (k0 =? k) eqn:E; [|reflexivity].
      apply String.eqb_eq in E. subst k. now rewrite E0.
Qed.

Lemma lookup_filter_named {A : Type} (o : list (string * A)) (k : string) :
  lookup (filter (fun e => match arrayIndex (fst e) with
                           | Some _ => false
                           | None => true
                           end) o) k
  = match arrayIndex k with
    | Some _ => None
    | None => lookup o k
    end.
Proof.
  induction o as [|[k0 a0] o IH]; simpl.
  - now destruct (arrayIndex k).
  - destruct (arrayIndex k0) eqn:E0; simpl.
    + rewrite IH. destruct (k0 =? k) eqn:E; [|reflexivity].
      apply String.eqb_eq in E. subst k. now rewrite E0.
    + rewrite IH. destruct (k0 =? k) eqn:E; [|reflexivity].
      apply String.eqb_eq in E. subst k. now rewrite E0.
Qed.

(** [Object.entries] changes the order of a map, not what a key holds. *)
Lemma lookup_profileEntries {A : Type} (o : list (string * A)) (k : string) :
  NoDup (map fst o) -> lookup (profileEntries o) k = lookup o k.
Proof.
  intros H. unfold profileEntries.
  rewrite lookup_app, (lookup_indexedProfiles o k H), lookup_filter_named.
  destruct (arrayIndex k); [|reflexivity].
  now destruct (lookup o k).
Qed.

Lemma senderRow_keys (si ci ai : option nat)
  (o o' : list (string * SenderProfile)) (row : Row) :
  NoDup (map fst o) ->
  senderRow si ci ai (Done o) row = Done o' ->
  NoDup (map fst o').
Proof.
  intros Hnd. unfold senderRow, andThen.
  destruct (negb (truthyCell (cellAt row si))); [now intros [= <-]|].
  destruct (cellAt row si) as [[sender|]|]; try discriminate.
  destruct (cellOrZero (cellAt row ci)); try discriminate.
  destruct (cellOrZero (cellAt row ai)); try discriminate.
  destruct (importanceOf (cellAt row ci)); try discriminate.
  intros [= <-]. now apply keys_putProfile.
Qed.

Lemma fold_senderRow_keys (si ci ai : option nat) (rows : list Row)
  (o o' : list (string * SenderProfile)) :
  NoDup (map fst o) ->
  fold_left (senderRow si ci ai) rows (Done o) = Done o' ->
  NoDup (map fst o').
Proof.
  revert o. induction rows as [|row rows IH]; intros o Hnd;
    cbn [fold_left].
  - now intros [= <-].
  - destruct (senderRow si ci ai (Done o) row) as [o1| |] eqn:E.
    + apply IH. exact (senderRow_keys _ _ _ _ _ _ Hnd E).
    + rewrite senderRow_not_done by discriminate. discriminate.
    + rewrite senderRow_not_done by discriminate. discriminate.
Qed.

(** X24.  The last visited row of a sender decides its profile: when
    the rows read from the Senders sheet end with a row for [sender]
    whose Count is the number [q], the bundle's profile of that sender
    has the count [q] and importance "high" if [q > 10], "normal"
    otherwise, whatever the rows before it say about the sender. *)
Theorem sender_last_row_wins
  (sheet : Sheet) (front : list Row) (row : Row)
  (o : list (string * SenderProfile)) (sender : string) (q : Q) :
  let si := indexOf "Sender" (headerRow sheet) in
  let ci := indexOf "Count" (headerRow sheet) in
  let ai := indexOf "Avg Labels" (headerRow sheet) in
  visitedRows 500 sheet = (front ++ [row])%list ->
  fold_left (senderRow si ci ai) front (Done []) = Done o ->
  cellAt row si = Some (textCell sender) ->
  sender <> "" -> sender <> "__proto__" ->
  cellAt row ci = Some (numberCell q) ->
  numberOrBlank (cellAt row ai) ->
  exists sp profile,
    _processSenderSheet (Some sheet) = Done sp
    /\ lookup (profileEntries sp) sender = Some profile
    /\ senderCount profile == q
    /\ importance profile = (if gtb q 10 then "high" else "normal").
Proof.
  intros si ci ai Hrows Hfront Hs Hne Hproto Hc Ha.
  unfold _processSenderSheet. fold si ci ai.
  rewrite Hrows, fold_left_app, Hfront. cbn [fold_left].
  unfold senderRow, andThen. rewrite Hs, Hc.
  assert (Ht : truthyCell (Some (textCell sender)) = true).
  { simpl. unfold truthy. apply negb_true_iff. now apply String.eqb_neq. }
  rewrite Ht. cbn [negb cellOrZero importanceOf].
  destruct (cellOrZero_number _ Ha) as [avg ->].
  eexists. eexists. split; [reflexivity|].
  assert (Hnd : NoDup (map fst o)).
  { apply (fold_senderRow_keys si ci ai front [] o); [constructor|].
    exact Hfront. }
  rewrite lookup_profileEntries by now apply keys_putProfile.
  unfold putProfile. apply String.eqb_neq in Hproto. rewrite Hproto.
  rewrite lookup_putOwn, String.eqb_refl.
  split; [reflexivity|]. cbn [senderCount importance].
  split; [|reflexivity].
  destruct (Qeq_bool q 0) eqn:Z; [|reflexivity].
  apply Qeq_bool_iff in Z. now rewrite Z.
Qed.

Lemma sender_last_row_wins_witness :
  exists sp profile,
    _processSenderSheet (Some sendersSheet) = Done sp
    /\ lookup (profileEntries sp) "boss@mail.example" = Some profile
    /\ senderCount profile == 3
    /\ importance profile = "normal".
Proof.
  apply (sender_last_row_wins
           sendersSheet
           [[textCell "boss@mail.example"; numberCell 42; numberCell 1];
            [textCell ""; numberCell 7; numberCell 1];
            [textCell "bob@mail.example"; numberCell 10; numberCell 2]]
           [textCell "boss@mail.example"; numberCell 3; textCell ""]
           [("boss@mail.example",
             {| senderCount := 42; avgLabels := 1; importance := "high" |});
            ("bob@mail.example",
             {| senderCount := 10; avgLabels := 2; importance := "normal" |})]
           "boss@mail.example" 3);
    try reflexivity; discriminate.
Defined.
